(** * Career recommendation engine: skill-gap analysis, ranking, learning paths

    A shallow embedding of [career_recommendation_system.py]
    (class [CareerRecommendationEngine]) together with the properties of
    its three public methods.

    Conventions of the embedding.
    - A Python [str] is a [string]; a character is a code point below 256.
    - A Python [dict] is an association list in insertion order; its keys
      are distinct ([dict_wf]), and a lookup returns the first entry of a
      key, so no property below needs that assumption.
    - A Python [set] is the list of its elements in iteration order.  That
      order is chosen by the interpreter (string hashes are salted per
      process), so it is a parameter of the development ([set_order]).
    - A call either returns a value or raises: type [outcome].
    - [len(a) / len(b) * 100] is computed in exact rational arithmetic and
      the scikit-learn kernels in exact real arithmetic; floating-point
      rounding is not modelled, and no bound that rounding can break (a
      similarity of at most 1) is stated.
    - [numpy.argsort] is a parameter constrained by its documented
      contract (the default sort kind is not stable); a stable instance is
      given for concrete evaluation.
    - The list comprehension of line 119 ([required_skills_lower]) is never
      read and is left out. *)

From Stdlib Require Import String Ascii List Bool Arith PeanoNat ZArith QArith.
From Stdlib Require Import Reals Lia Lra Permutation Sorted DecimalString.
Import ListNotations.

Open Scope string_scope.
Open Scope list_scope.
Open Scope nat_scope.

(** ** Outcomes of a call *)

(** [ValueError], [IndexError], [KeyError] and [ZeroDivisionError] are the
    exceptions the interpreter and the libraries can raise on the modelled
    paths.  [UnknownCareer], [InvalidArgument] and [ModelError] are the
    error kinds named by the specification; no [raise] statement of the
    source produces them. *)
Inductive exn : Type :=
| ValueError | IndexError | KeyError | ZeroDivisionError
| UnknownCareer | InvalidArgument | ModelError.

Inductive outcome (A : Type) : Type :=
| Returns (a : A)
| Raises (e : exn).
Arguments Returns {A} a.
Arguments Raises {A} e.

Definition bind {A B : Type} (m : outcome A) (k : A -> outcome B) : outcome B :=
  match m with
  | Returns a => k a
  | Raises e => Raises e
  end.

Notation "x <- m ;; k" := (bind m (fun x => k))
  (at level 61, m at next level, right associativity).

(** ** Python strings *)

Module PyStr.

Definition code (c : ascii) : nat := nat_of_ascii c.

(** [str.isspace] on one character, code points below 256. *)
Definition isspace (c : ascii) : bool :=
  let n := code c in
  ((9 <=? n) && (n <=? 13)) || ((28 <=? n) && (n <=? 32))
  || (n =? 133) || (n =? 160).

(** Upper-case letters: A-Z and the Latin-1 capitals except the
    multiplication sign. *)
Definition isupper (c : ascii) : bool :=
  let n := code c in
  ((65 <=? n) && (n <=? 90))
  || ((192 <=? n) && (n <=? 222) && negb (n =? 215)).

Definition lower_char (c : ascii) : ascii :=
  if isupper c then ascii_of_nat (code c + 32) else c.

(** [s.lower()] *)
Fixpoint lower (s : string) : string :=
  match s with
  | EmptyString => EmptyString
  | String c r => String (lower_char c) (lower r)
  end.

Fixpoint lstrip (s : string) : string :=
  match s with
  | EmptyString => EmptyString
  | String c r => if isspace c then lstrip r else s
  end.

Fixpoint rstrip (s : string) : string :=
  match s with
  | EmptyString => EmptyString
  | String c r =>
      let r' := rstrip r in
      if isspace c && (r' =? "")%string then EmptyString else String c r'
  end.

(** [s.strip()] *)
Definition strip (s : string) : string := rstrip (lstrip s).

(** [needle in hay] on strings: substring test. *)
Fixpoint contains (needle hay : string) : bool :=
  match hay with
  | EmptyString => prefix needle EmptyString
  | String _ r => prefix needle hay || contains needle r
  end.

(** [sep.join(l)] *)
Definition join (sep : string) (l : list string) : string := String.concat sep l.

(** [str(n)] for a non-negative integer. *)
Definition str_of_nat (n : nat) : string :=
  NilEmpty.string_of_uint (Nat.to_uint n).

End PyStr.

(** ** Lists, dictionaries and slices *)

(** [l[i]] for a non-negative index. *)
Definition py_index {A : Type} (l : list A) (i : nat) : outcome A :=
  match nth_error l i with
  | Some a => Returns a
  | None => Raises IndexError
  end.

(** [l[:k]]: a negative bound counts from the end. *)
Definition slice_to {A : Type} (l : list A) (k : Z) : list A :=
  if (0 <=? k)%Z then firstn (Z.to_nat k) l
  else firstn (length l - Z.to_nat (- k)) l.

(** [x in l] where [l] enumerates a collection of strings. *)
Definition str_mem (x : string) (l : list string) : bool :=
  existsb (String.eqb x) l.

Section Dict.
Context {V : Type}.

Definition dict : Type := list (string * V).

Fixpoint dict_get (d : dict) (k : string) : option V :=
  match d with
  | [] => None
  | (k', v) :: rest => if (k' =? k)%string then Some v else dict_get rest k
  end.

(** [k in d] *)
Definition dict_mem (d : dict) (k : string) : bool :=
  match dict_get d k with Some _ => true | None => false end.

(** [d[k]] *)
Definition dict_getitem (d : dict) (k : string) : outcome V :=
  match dict_get d k with
  | Some v => Returns v
  | None => Raises KeyError
  end.

(** [list(d.keys())] *)
Definition dict_keys (d : dict) : list string := map fst d.

Definition dict_wf (d : dict) : Prop := NoDup (dict_keys d).
End Dict.
Arguments dict V : clear implicits.

(** [len(a) / len(b)]: true division of two lengths. *)
Definition truediv (a b : nat) : outcome Q :=
  match b with
  | O => Raises ZeroDivisionError
  | S _ => Returns (Z.of_nat a # Pos.of_nat b)
  end.

(** ** The interpreter and numpy as parameters *)

Class PyRuntime : Type := {
  (** iteration order of [set(l)] *)
  set_order : list string -> list string;
  (** [numpy.argsort(xs)] *)
  argsort : list R -> list nat
}.

(** What the language and numpy guarantee about them: a set holds each
    element of [l] once, and [argsort] returns the indices of [xs] rearranged
    so that the values they select are in ascending order. *)
Class PyRuntimeOk (rt : PyRuntime) : Prop := {
  set_order_nodup : forall l, NoDup (set_order l);
  set_order_in : forall l x, In x (set_order l) <-> In x l;
  argsort_perm : forall xs, Permutation (argsort xs) (seq 0 (length xs));
  argsort_sorted :
    forall xs, Sorted Rle (map (fun i => nth i xs 0%R) (argsort xs))
}.


(** ** scikit-learn: [TfidfVectorizer] and [cosine_similarity]

    The vectorizer is used with its default settings: the text is
    lower-cased, tokens are the maximal runs of two or more word characters
    (pattern [\b\w\w+\b]), the vocabulary is the sorted set of tokens of the
    fitted corpus, weights are [tf * (ln ((1 + n) / (1 + df)) + 1)] and rows
    are scaled to unit Euclidean length, a row of norm zero being left as it
    is. *)

Module Sklearn.

(** [\w] on code points below 256. *)
Definition is_word_char (c : ascii) : bool :=
  let n := PyStr.code c in
  ((48 <=? n) && (n <=? 57)) || ((65 <=? n) && (n <=? 90)) || (n =? 95)
  || ((97 <=? n) && (n <=? 122))
  || (n =? 170) || (n =? 178) || (n =? 179) || (n =? 181) || (n =? 185)
  || (n =? 186) || ((188 <=? n) && (n <=? 190))
  || ((192 <=? n) && (n <=? 214)) || ((216 <=? n) && (n <=? 246))
  || (248 <=? n).

(** A finished run of word characters is a token when it has two or more
    characters. *)
Definition emit (run : string) : list string :=
  if 2 <=? String.length run then [run] else [].

(** Scan [s]; [run] is the run of word characters read so far. *)
Fixpoint split_words (s : string) (run : string) : list string :=
  match s with
  | EmptyString => emit run
  | String c r =>
      if is_word_char c then split_words r (run ++ String c EmptyString)
      else emit run ++ split_words r EmptyString
  end.

Definition tokenize (text : string) : list string :=
  split_words (PyStr.lower text) EmptyString.

(** [sorted(...)] on strings, by code point. *)
Fixpoint insert_sorted (x : string) (l : list string) : list string :=
  match l with
  | [] => [x]
  | y :: r => if String.leb x y then x :: l else y :: insert_sorted x r
  end.

Definition sorted (l : list string) : list string :=
  fold_right insert_sorted [] l.

Definition dot (u v : list R) : R :=
  fold_right Rplus 0%R (map (fun p => (fst p * snd p)%R) (combine u v)).

Definition l2norm (u : list R) : R := sqrt (dot u u).

(** [normalize(X)] on one row: a zero norm is replaced by one. *)
Definition normalize (u : list R) : list R :=
  let n := l2norm u in
  if Req_dec_T n 0%R then u else map (fun x => (x / n)%R) u.

(** The fitted state: vocabulary and one idf weight per vocabulary term. *)
Record TfidfVectorizer : Type := {
  vocabulary_ : list string;
  idf_ : list R
}.

(** Number of documents in which [t] occurs. *)
Definition doc_freq (docs : list (list string)) (t : string) : nat :=
  List.length (filter (fun d => str_mem t d) docs).

Definition idf_weight (n df : nat) : R :=
  (ln (INR (1 + n) / INR (1 + df)) + 1)%R.

(** Term counts of one document over the vocabulary. *)
Definition count_row (vocab : list string) (doc : list string) : list R :=
  map (fun t => INR (count_occ string_dec doc t)) vocab.

Definition tfidf_row (v : TfidfVectorizer) (doc : list string) : list R :=
  normalize
    (map (fun p => (fst p * snd p)%R)
         (combine (count_row (vocabulary_ v) doc) (idf_ v))).

(** [vectorizer.transform(raw_documents)] *)
Definition transform (v : TfidfVectorizer) (raw_documents : list string)
  : list (list R) :=
  map (fun text => tfidf_row v (tokenize text)) raw_documents.

(** [vectorizer.fit(raw_documents)]; an empty vocabulary is a [ValueError]. *)
Definition fit (raw_documents : list string) : outcome TfidfVectorizer :=
  let docs := map tokenize raw_documents in
  let vocab := sorted (nodup string_dec (List.concat docs)) in
  match vocab with
  | [] => Raises ValueError
  | _ :: _ =>
      Returns {| vocabulary_ := vocab;
                 idf_ := map (fun t => idf_weight (List.length docs)
                                                  (doc_freq docs t)) vocab |}
  end.

(** [vectorizer.fit_transform(raw_documents)] *)
Definition fit_transform (raw_documents : list string)
  : outcome (TfidfVectorizer * list (list R)) :=
  v <- fit raw_documents ;;
  Returns (v, transform v raw_documents).

(** [cosine_similarity(X, Y)]: one row per row of [X], one column per row
    of [Y]. *)
Definition cosine_similarity (X Y : list (list R)) : list (list R) :=
  let Xn := map normalize X in
  let Yn := map normalize Y in
  map (fun x => map (fun y => dot x y) Yn) Xn.

End Sklearn.

(** ** Data model *)

Record CareerInfo : Type := {
  skills : list string;
  description : string;
  salary_range : string;
  growth : string;
  experience_level : string
}.

(** The dictionary returned by [analyze_skill_gap] when the career is
    known. *)
Record GapReport : Type := {
  matched_skills : list string;
  missing_skills : list string;
  match_percentage : Q;
  total_required : nat;
  total_matched : nat
}.

(** [analyze_skill_gap] returns either [{}] or a full report. *)
Inductive GapDict : Type :=
| EmptyDict
| Report (r : GapReport).

(** One entry of the [skill_priority] table. *)
Record PriorityEntry : Type := {
  entry_level : string;
  entry_resources : list string;
  entry_time : string
}.

(** One element of ["skills_to_learn"]. *)
Record PathItem : Type := {
  skill : string;
  level : string;
  resources : list string;
  time : string
}.

Record LearningPath : Type := {
  career : string;
  skills_to_learn : list PathItem;
  estimated_time : string
}.

(** The state built by [__init__] and [_build_model]. *)
Record Engine : Type := {
  career_database : dict CareerInfo;
  vectorizer : Sklearn.TfidfVectorizer;
  skill_matrix : list (list R);
  career_names : list string
}.

(** One element of the list returned by [recommend_careers]:
    (career name, similarity score, gap analysis, career info). *)
Definition Recommendation : Type := (string * R * GapDict * CareerInfo)%type.

Definition rec_name (r : Recommendation) : string := fst (fst (fst r)).
Definition rec_score (r : Recommendation) : R := snd (fst (fst r)).
Definition rec_gap (r : Recommendation) : GapDict := snd (fst r).
Definition rec_info (r : Recommendation) : CareerInfo := snd r.

(** ** [CareerRecommendationEngine] *)

(** [_build_model], called by [__init__]: one document per career, the
    career's skills joined by spaces. *)
Definition build_model (career_database : dict CareerInfo) : outcome Engine :=
  let career_texts :=
    map (fun entry => PyStr.join " " (skills (snd entry))) career_database in
  fitted <- Sklearn.fit_transform career_texts ;;
  Returns {| career_database := career_database;
             vectorizer := fst fitted;
             skill_matrix := snd fitted;
             career_names := dict_keys career_database |}.

(** [CareerRecommendationEngine(career_database)] *)
Definition init (career_database : dict CareerInfo) : outcome Engine :=
  build_model career_database.

(** The skill table of [get_learning_path]. *)
Definition skill_priority : dict PriorityEntry :=
  [ ("Python",
     {| entry_level := "Beginner-Intermediate";
        entry_resources := ["Python.org"; "Real Python"; "Codecademy"];
        entry_time := "2-3 months" |});
    ("Machine Learning",
     {| entry_level := "Intermediate-Advanced";
        entry_resources := ["Coursera ML Course"; "Fast.ai"; "Kaggle"];
        entry_time := "3-4 months" |});
    ("SQL",
     {| entry_level := "Beginner";
        entry_resources := ["SQLBolt"; "Mode Analytics"; "LeetCode"];
        entry_time := "1-2 months" |});
    ("Cloud Computing",
     {| entry_level := "Intermediate";
        entry_resources := ["AWS Training"; "Cloud Academy"; "A Cloud Guru"];
        entry_time := "2-3 months" |});
    ("Data Visualization",
     {| entry_level := "Beginner-Intermediate";
        entry_resources := ["Tableau Public"; "DataCamp"; "Storytelling with Data"];
        entry_time := "1-2 months" |}) ].

(** The bundle appended for a skill that is not in the table. *)
Definition default_item (s : string) : PathItem :=
  {| skill := s;
     level := "Intermediate";
     resources := ["Online Courses"; "Documentation"; "Practice Projects"];
     time := "2-3 months" |}.

(** [{"skill": skill, **skill_priority[skill]}] *)
Definition item_of_entry (s : string) (e : PriorityEntry) : PathItem :=
  {| skill := s;
     level := entry_level e;
     resources := entry_resources e;
     time := entry_time e |}.

(** The loop of [get_learning_path]; [learning_path] is the list built so
    far. *)
Fixpoint learning_loop (missing : list string) (learning_path : list PathItem)
  : outcome (list PathItem) :=
  match missing with
  | [] => Returns learning_path
  | s :: rest =>
      if dict_mem skill_priority s then
        e <- dict_getitem skill_priority s ;;
        learning_loop rest (learning_path ++ [item_of_entry s e])
      else
        learning_loop rest (learning_path ++ [default_item s])
  end.

Definition get_learning_path (self : Engine) (missing : list string)
  (career_name : string) : outcome LearningPath :=
  learning_path <- learning_loop missing [] ;;
  Returns {| career := career_name;
             skills_to_learn := learning_path;
             estimated_time :=
               PyStr.str_of_nat (List.length missing * 2) ++ "-"
               ++ PyStr.str_of_nat (List.length missing * 3) ++ " months" |}.

Section Engine.
Context {rt : PyRuntime}.

(** The inner loop of [analyze_skill_gap]: the first user skill that
    contains, or is contained in, [skill_lower] ends the loop. *)
Fixpoint partial_match (user_skills_set : list string) (skill_lower : string)
  : bool :=
  match user_skills_set with
  | [] => false
  | user_skill :: rest =>
      if PyStr.contains user_skill skill_lower
         || PyStr.contains skill_lower user_skill
      then true
      else partial_match rest skill_lower
  end.

(** The outer loop of [analyze_skill_gap] over the required skills, with the
    two lists built so far. *)
Fixpoint gap_loop (user_skills_set : list string) (required : list string)
  (matched missing : list string) : list string * list string :=
  match required with
  | [] => (matched, missing)
  | s :: rest =>
      let skill_lower := PyStr.lower s in
      if str_mem skill_lower user_skills_set then
        gap_loop user_skills_set rest (matched ++ [s]) missing
      else if partial_match user_skills_set skill_lower then
        gap_loop user_skills_set rest (matched ++ [s]) missing
      else
        gap_loop user_skills_set rest matched (missing ++ [s])
  end.

Definition analyze_skill_gap (self : Engine) (user_skills : list string)
  (target_career : string) : outcome GapDict :=
  if negb (dict_mem (career_database self) target_career) then
    Returns EmptyDict
  else
    info <- dict_getitem (career_database self) target_career ;;
    let required_skills := set_order (skills info) in
    let user_skills_set :=
      set_order (map (fun s => PyStr.strip (PyStr.lower s)) user_skills) in
    let lists := gap_loop user_skills_set required_skills [] [] in
    let matched := fst lists in
    let missing := snd lists in
    percentage <-
      match required_skills with
      | [] => Returns 0%Q
      | _ :: _ =>
          ratio <- truediv (List.length matched) (List.length required_skills) ;;
          Returns (ratio * 100)%Q
      end ;;
    Returns (Report {| matched_skills := matched;
                       missing_skills := missing;
                       match_percentage := percentage;
                       total_required := List.length required_skills;
                       total_matched := List.length matched |}).

(** The loop of [recommend_careers] over the selected indices. *)
Fixpoint recommend_loop (self : Engine) (user_skills : list string)
  (similarities : list R) (top_indices : list nat)
  (recommendations : list Recommendation) : outcome (list Recommendation) :=
  match top_indices with
  | [] => Returns recommendations
  | idx :: rest =>
      career_name <- py_index (career_names self) idx ;;
      similarity <- py_index similarities idx ;;
      let similarity_score := (similarity * 100)%R in
      gap_analysis <- analyze_skill_gap self user_skills career_name ;;
      info <- dict_getitem (career_database self) career_name ;;
      recommend_loop self user_skills similarities rest
        (recommendations ++ [(career_name, similarity_score, gap_analysis, info)])
  end.

(** [np.argsort(similarities)[::-1][:top_n]] *)
Definition top_indices_of (similarities : list R) (top_n : Z) : list nat :=
  slice_to (rev (argsort similarities)) top_n.

Definition recommend_careers (self : Engine) (user_skills : list string)
  (top_n : Z) : outcome (list Recommendation) :=
  let user_skills_text := PyStr.join " " user_skills in
  let user_vector := Sklearn.transform (vectorizer self) [user_skills_text] in
  similarities <-
    py_index (Sklearn.cosine_similarity user_vector (skill_matrix self)) 0 ;;
  recommend_loop self user_skills similarities
    (top_indices_of similarities top_n) [].

End Engine.

(** ** Vocabulary of the statements *)

(** A career described by its required skills alone. *)
Definition mk_info (required : list string) : CareerInfo :=
  {| skills := required; description := ""; salary_range := "";
     growth := ""; experience_level := "" |}.

(** [a] occurs in [b] as a contiguous substring. *)
Definition substring (a b : string) : Prop :=
  exists p q : string, b = (p ++ a ++ q)%string.

(** The normal form the source gives a user skill: [s.lower().strip()]. *)
Definition normalize_user (s : string) : string := PyStr.strip (PyStr.lower s).

(** The condition under which the source appends a required skill [r] to
    [matched_skills]: [r] is lower-cased (and not stripped), the user skills
    are lower-cased and stripped. *)
Definition match_criterion (user_skills : list string) (r : string) : Prop :=
  (exists u, In u user_skills /\ normalize_user u = PyStr.lower r)
  \/ (exists u, In u user_skills
                /\ (substring (normalize_user u) (PyStr.lower r)
                    \/ substring (PyStr.lower r) (normalize_user u))).

(** The condition as the specification words it, for comparison: both
    sides lower-cased and trimmed. *)
Definition spec_match_criterion (user_skills : list string) (r : string) : Prop :=
  (exists u, In u user_skills /\ normalize_user u = PyStr.strip (PyStr.lower r))
  \/ (exists u, In u user_skills
                /\ (substring (normalize_user u) (PyStr.strip (PyStr.lower r))
                    \/ substring (PyStr.strip (PyStr.lower r)) (normalize_user u))).

(** The test made on one required skill by the body of the outer loop. *)
Definition skill_is_matched (user_skills_set : list string) (s : string) : bool :=
  str_mem (PyStr.lower s) user_skills_set
  || partial_match user_skills_set (PyStr.lower s).

(** The report [analyze_skill_gap] builds for a known career, in closed
    form. *)
Definition report_of (required user_set : list string) : GapReport :=
  let matched := filter (skill_is_matched user_set) required in
  {| matched_skills := matched;
     missing_skills := filter (fun s => negb (skill_is_matched user_set s)) required;
     match_percentage :=
       match required with
       | [] => 0%Q
       | _ :: _ =>
           ((Z.of_nat (List.length matched) # Pos.of_nat (List.length required))
            * 100)%Q
       end;
     total_required := List.length required;
     total_matched := List.length matched |}.

(** The bundle [get_learning_path] appends for the skill [s]. *)
Definition bundle_of (s : string) : PathItem :=
  match dict_get skill_priority s with
  | Some e => item_of_entry s e
  | None => default_item s
  end.

(** The row of similarities [recommend_careers] computes: the user's text
    against each row of [skill_matrix]. *)
Definition similarities_of (self : Engine) (user_skills : list string) : list R :=
  let user_row :=
    Sklearn.tfidf_row (vectorizer self)
      (Sklearn.tokenize (PyStr.join " " user_skills)) in
  map (fun y => Sklearn.dot (Sklearn.normalize user_row) (Sklearn.normalize y))
      (skill_matrix self).

(** The tuple [recommend_careers] appends for the catalog index [idx]. *)
Definition recommendation_at {rt : PyRuntime} (self : Engine)
  (user_skills : list string) (similarities : list R) (idx : nat)
  : Recommendation :=
  let career_name := nth idx (career_names self) "" in
  let similarity_score := (nth idx similarities 0 * 100)%R in
  match dict_get (career_database self) career_name with
  | Some info =>
      (career_name, similarity_score,
       Report (report_of (set_order (skills info))
                         (set_order (map normalize_user user_skills))),
       info)
  | None => (career_name, similarity_score, EmptyDict, mk_info [])
  end.

(** The order a stable ascending argsort puts indices in: by value, and
    by index among equal values. *)
Definition stable_before (xs : list R) (i j : nat) : Prop :=
  (nth i xs 0 < nth j xs 0)%R \/ (nth i xs 0%R = nth j xs 0%R /\ i < j).

(** [l1] is [l2] with some elements removed, order kept. *)
Inductive subseq {A : Type} : list A -> list A -> Prop :=
| subseq_nil : subseq [] []
| subseq_skip : forall x l1 l2, subseq l1 l2 -> subseq l1 (x :: l2)
| subseq_take : forall x l1 l2, subseq l1 l2 -> subseq (x :: l1) (x :: l2).

(** A string made of whitespace only (the empty string included). *)
Fixpoint blank (s : string) : bool :=
  match s with
  | EmptyString => true
  | String c r => PyStr.isspace c && blank r
  end.

(** Scores from best to worst. *)
Definition score_ge (a b : Recommendation) : Prop := (rec_score b <= rec_score a)%R.

(** ** Concrete runtimes and catalogs *)

(** A stable argsort: indices are inserted one by one, an index going
    after the indices of values that are not larger. *)
Fixpoint insert_index (xs : list R) (i : nat) (acc : list nat) : list nat :=
  match acc with
  | [] => [i]
  | j :: r =>
      if Rlt_dec (nth i xs 0%R) (nth j xs 0%R) then i :: acc
      else j :: insert_index xs i r
  end.

Definition stable_argsort (xs : list R) : list nat :=
  fold_left (fun acc i => insert_index xs i acc) (seq 0 (List.length xs)) [].

(** A runtime whose sets iterate in the order of the list they were built
    from (a repeated element takes the place of its last occurrence). *)
Definition declared_order_runtime : PyRuntime :=
  {| set_order := nodup string_dec; argsort := stable_argsort |}.

(** A runtime whose sets iterate the other way round. *)
Definition reversed_order_runtime : PyRuntime :=
  {| set_order := fun l => rev (nodup string_dec l); argsort := stable_argsort |}.

(** The catalog shipped with the program. *)
Definition CAREER_DATABASE : dict CareerInfo :=
  [ ("Data Scientist",
     {| skills := ["Python"; "Machine Learning"; "Statistics"; "SQL";
                   "Data Visualization"; "Deep Learning"; "NLP"];
        description := "Analyze complex data to extract insights and build predictive models";
        salary_range := "$90,000 - $150,000";
        growth := "High";
        experience_level := "2-5 years" |});
    ("Software Engineer",
     {| skills := ["Python"; "Java"; "JavaScript"; "System Design"; "Databases";
                   "Cloud Computing"; "Git"];
        description := "Design, develop, and maintain software applications";
        salary_range := "$80,000 - $140,000";
        growth := "Very High";
        experience_level := "0-5 years" |});
    ("Product Manager",
     {| skills := ["Product Strategy"; "Market Research"; "Agile"; "Communication";
                   "Analytics"; "Leadership"; "UX"];
        description := "Lead product development from concept to launch";
        salary_range := "$100,000 - $160,000";
        growth := "High";
        experience_level := "3-7 years" |});
    ("DevOps Engineer",
     {| skills := ["Docker"; "Kubernetes"; "AWS"; "CI/CD"; "Linux"; "Scripting";
                   "Monitoring"];
        description := "Bridge development and operations for efficient software delivery";
        salary_range := "$95,000 - $145,000";
        growth := "Very High";
        experience_level := "2-5 years" |});
    ("UX Designer",
     {| skills := ["Figma"; "User Research"; "Prototyping"; "Design Thinking";
                   "HTML/CSS"; "Wireframing"; "Usability Testing"];
        description := "Create intuitive and user-friendly digital experiences";
        salary_range := "$70,000 - $120,000";
        growth := "High";
        experience_level := "1-4 years" |});
    ("Cloud Architect",
     {| skills := ["AWS"; "Azure"; "GCP"; "Cloud Security"; "Architecture";
                   "Infrastructure"; "Kubernetes"];
        description := "Design and manage cloud infrastructure solutions";
        salary_range := "$110,000 - $170,000";
        growth := "Very High";
        experience_level := "5-10 years" |});
    ("AI Engineer",
     {| skills := ["Python"; "TensorFlow"; "PyTorch"; "MLOps"; "Deep Learning";
                   "Computer Vision"; "NLP"];
        description := "Build and deploy AI/ML models at scale";
        salary_range := "$100,000 - $160,000";
        growth := "Very High";
        experience_level := "2-5 years" |});
    ("Business Analyst",
     {| skills := ["SQL"; "Excel"; "Data Analysis"; "Requirements Gathering";
                   "Stakeholder Management"; "Power BI"; "Documentation"];
        description := "Analyze business processes and recommend data-driven solutions";
        salary_range := "$65,000 - $110,000";
        growth := "Medium";
        experience_level := "1-4 years" |});
    ("Cybersecurity Specialist",
     {| skills := ["Network Security"; "Ethical Hacking"; "SIEM"; "Compliance";
                   "Risk Assessment"; "Penetration Testing"; "Firewalls"];
        description := "Protect organizations from cyber threats and vulnerabilities";
        salary_range := "$85,000 - $140,000";
        growth := "Very High";
        experience_level := "2-5 years" |});
    ("Data Engineer",
     {| skills := ["Python"; "SQL"; "ETL"; "Big Data"; "Spark"; "Hadoop";
                   "Data Warehousing"];
        description := "Build and maintain data pipelines and infrastructure";
        salary_range := "$90,000 - $145,000";
        growth := "Very High";
        experience_level := "2-5 years" |}) ].

(** A catalog whose only required skill carries surrounding blanks. *)
Definition padded_catalog : dict CareerInfo :=
  [ ("Scripter", mk_info [" py "]) ].

(** Two careers with two skills each. *)
Definition small_catalog : dict CareerInfo :=
  [ ("Analyst", mk_info ["Python"; "SQL"]);
    ("Designer", mk_info ["Figma"; "Prototyping"]) ].

(** One career. *)
Definition single_catalog : dict CareerInfo :=
  [ ("Analyst", mk_info ["Python"; "SQL"]) ].

(** The fitted corpus has at least one token: [fit] does not raise. *)
Definition has_vocabulary (db : dict CareerInfo) : bool :=
  match Sklearn.sorted
          (nodup string_dec
             (List.concat
                (map Sklearn.tokenize
                   (map (fun entry => PyStr.join " " (skills (snd entry))) db))))
  with
  | [] => false
  | _ :: _ => true
  end.

(** The vectorizer fitted on [single_catalog]: two terms, each in the one
    document. *)
Definition single_vectorizer : Sklearn.TfidfVectorizer :=
  {| Sklearn.vocabulary_ := ["python"; "sql"];
     Sklearn.idf_ := [Sklearn.idf_weight 1 1; Sklearn.idf_weight 1 1] |}.

(** An engine with the given catalog and no fitted state; it stands for the
    engine of a catalog where only [career_database] is read. *)
Definition unfitted (db : dict CareerInfo) : Engine :=
  {| career_database := db;
     vectorizer := {| Sklearn.vocabulary_ := []; Sklearn.idf_ := [] |};
     skill_matrix := [];
     career_names := dict_keys db |}.

(** The engine that [init] builds for [db]. *)
Definition engine_for (db : dict CareerInfo) : Engine :=
  match init db with
  | Returns e => e
  | Raises _ => unfitted db
  end.

(** ** [main]: from the sidebar to the result cards

    The Streamlit calls of [main] are represented by the values handed to
    them: the widgets' inputs are arguments of [main], and what is rendered
    is the returned [View]. Text that needs a float formatted ([:.1f]) is
    represented by the number itself. Two Streamlit calls of [main] can
    refuse what they are given and are modelled with their check:
    [st.progress], which accepts a value from 0 to 1 only, and the
    [st.expander] of line 308, opened inside the expander of line 263, which
    the installed Streamlit accepts or refuses with a
    [StreamlitAPIException] ([nested_expanders]). *)

Definition newline : ascii := "010"%char.
Definition comma : ascii := ","%char.

(** [s.replace(old, new)] for one-character [old] and [new]. *)
Fixpoint replace_char (old new : ascii) (s : string) : string :=
  match s with
  | EmptyString => EmptyString
  | String c r =>
      String (if Ascii.eqb c old then new else c) (replace_char old new r)
  end.

(** [s.split(sep)] for a one-character [sep]; [piece] is the piece read so
    far. *)
Fixpoint split_char (sep : ascii) (s : string) (piece : string) : list string :=
  match s with
  | EmptyString => [piece]
  | String c r =>
      if Ascii.eqb c sep then piece :: split_char sep r EmptyString
      else split_char sep r (piece ++ String c EmptyString)
  end.

(** Truth value of a string: non-empty. *)
Definition str_bool (s : string) : bool :=
  match s with EmptyString => false | String _ _ => true end.

(** The parsing of the text area (lines 236-239). *)
Definition parse_skills (skills_input : string) : list string :=
  if str_bool skills_input then
    map PyStr.strip
      (filter (fun skill => str_bool (PyStr.strip skill))
         (split_char comma (replace_char newline comma skills_input)
            EmptyString))
  else [].

(** The options of the multiselect (line 243). *)
Definition common_skills : list string :=
  ["Python"; "Java"; "JavaScript"; "SQL"; "Machine Learning"; "AWS";
   "Docker"; "Git"; "Communication"; "Leadership"].

(** What is rendered for one recommendation (lines 262-315). *)
Record Card : Type := {
  card_rank : nat;
  card_expanded : bool;
  card_name : string;
  card_score : R;
  card_info : CareerInfo;
  card_match : Q;
  card_progress : Q;
  card_matched : list string;
  card_missing : list string;
  card_learning : list PathItem
}.

(** What [main] renders in the main content area. *)
Inductive View : Type :=
| Results (cards : list Card)
| NothingShown
| Warning
| Welcome.

(** The installed Streamlit, as far as [main] depends on it. *)
Class Streamlit : Type := {
  (** an expander may be opened inside another expander *)
  nested_expanders : bool
}.

(** A run of the rendering code shows something, or stops on an exception
    of the Python code, or on Streamlit's [StreamlitAPIException]. *)
Inductive rendering (A : Type) : Type :=
| Shown (a : A)
| PythonError (e : exn)
| StreamlitAPIException.
Arguments Shown {A} a.
Arguments PythonError {A} e.
Arguments StreamlitAPIException {A}.

Definition then_render {A B : Type} (m : rendering A) (k : A -> rendering B)
  : rendering B :=
  match m with
  | Shown a => k a
  | PythonError e => PythonError e
  | StreamlitAPIException => StreamlitAPIException
  end.

Notation "x <~ m ;; k" := (then_render m (fun x => k))
  (at level 61, m at next level, right associativity).

(** A call of the engine made by the rendering code. *)
Definition of_python {A : Type} (m : outcome A) : rendering A :=
  match m with
  | Returns a => Shown a
  | Raises e => PythonError e
  end.

(** [st.progress(value)] for a float: the value must lie in [0, 1]. *)
Definition st_progress (value : Q) : rendering Q :=
  if Qle_bool 0 value && Qle_bool value 1 then Shown value
  else StreamlitAPIException.

Section Main.
Context {rt : PyRuntime} {st : Streamlit}.

(** [list(set(user_skills + selected_common))] (line 245). *)
Definition collect_user_skills (skills_input : string)
  (selected_common : list string) : list string :=
  set_order (parse_skills skills_input ++ selected_common).

(** [with st.expander(...)] inside the expander of a card. *)
Definition st_nested_expander {A : Type} (body : A) : rendering A :=
  if nested_expanders then Shown body else StreamlitAPIException.

(** The loop of lines 307-313: one nested expander per learning item. *)
Fixpoint render_learning (items : list PathItem) : rendering (list PathItem) :=
  match items with
  | [] => Shown []
  | skill_info :: rest =>
      shown <~ st_nested_expander skill_info ;;
      others <~ render_learning rest ;;
      Shown (shown :: others)
  end.

(** The body of the loop over the recommendations; [idx] counts from 1.
    Reading a key of an empty gap dictionary is a [KeyError]. *)
Definition render_card (engine : Engine) (idx : nat) (r : Recommendation)
  : rendering Card :=
  match rec_gap r with
  | EmptyDict => PythonError KeyError
  | Report g =>
      progress_value <~ st_progress (match_percentage g / 100)%Q ;;
      learning <~
        match missing_skills g with
        | [] => Shown []
        | _ :: _ =>
            learning_path <~
              of_python (get_learning_path engine (missing_skills g)
                           (rec_name r)) ;;
            render_learning (slice_to (skills_to_learn learning_path) 5)
        end ;;
      Shown {| card_rank := idx;
               card_expanded := (idx =? 1);
               card_name := rec_name r;
               card_score := rec_score r;
               card_info := rec_info r;
               card_match := match_percentage g;
               card_progress := progress_value;
               card_matched := matched_skills g;
               card_missing := missing_skills g;
               card_learning := learning |}
  end.

(** [for idx, (...) in enumerate(recommendations, 1)] *)
Fixpoint render_cards (engine : Engine) (idx : nat)
  (recommendations : list Recommendation) : rendering (list Card) :=
  match recommendations with
  | [] => Shown []
  | r :: rest =>
      card <~ render_card engine idx r ;;
      cards <~ render_cards engine (S idx) rest ;;
      Shown (card :: cards)
  end.

(** One run of [main] on a fresh session: the engine is built from the
    shipped catalog, the skills are read, and one of the three branches of
    lines 251-343 is rendered. *)
Definition main (skills_input : string) (selected_common : list string)
  (analyze_button : bool) : rendering View :=
  engine <~ of_python (init CAREER_DATABASE) ;;
  let user_skills := collect_user_skills skills_input selected_common in
  let has_skills := match user_skills with [] => false | _ :: _ => true end in
  if analyze_button && has_skills then
    recommendations <~ of_python (recommend_careers engine user_skills 5) ;;
    match recommendations with
    | [] => Shown NothingShown
    | _ :: _ =>
        cards <~ render_cards engine 1 recommendations ;;
        Shown (Results cards)
    end
  else if analyze_button && negb has_skills then Shown Warning
  else Shown Welcome.

End Main.

(** A Streamlit that refuses an expander inside an expander, as release
    1.38 does, and one that accepts it. *)
Definition strict_streamlit : Streamlit := {| nested_expanders := false |}.

Definition nesting_streamlit : Streamlit := {| nested_expanders := true |}.

(** Every skill of the shipped catalog, typed into the text area. *)
Definition every_catalog_skill : string :=
  String.concat ", " (flat_map (fun entry => skills (snd entry)) CAREER_DATABASE).

(** The character [c] occurs in [s]. *)
Fixpoint has_char (c : ascii) (s : string) : bool :=
  match s with
  | EmptyString => false
  | String d r => Ascii.eqb d c || has_char c r
  end.

(** A piece of text between two separators of the text area. *)
Definition separator_free (s : string) : Prop :=
  has_char comma s = false /\ has_char newline s = false.

(** A skill as [parse_skills] returns them: not empty, no surrounding
    whitespace, no separator inside. *)
Definition clean_skill (s : string) : Prop :=
  str_bool s = true /\ PyStr.strip s = s /\ separator_free s.

(** * Properties *)

(** ** Strings *)

Example lower_strip_example :
  PyStr.strip (PyStr.lower "  Machine Learning ") = "machine learning".
Proof. reflexivity. Qed.

Example strip_inner_blank_example : PyStr.strip " a  b " = "a  b".
Proof. reflexivity. Qed.

Example contains_example :
  PyStr.contains "sql" "mysql server" = true
  /\ PyStr.contains "java" "javascript" = true
  /\ PyStr.contains "javascript" "java" = false
  /\ PyStr.contains "" "java" = true.
Proof. repeat split. Qed.

Example join_example : PyStr.join " " ["Python"; "Deep Learning"] = "Python Deep Learning".
Proof. reflexivity. Qed.

Example str_of_nat_example : PyStr.str_of_nat 0 = "0" /\ PyStr.str_of_nat 12 = "12".
Proof. split; reflexivity. Qed.

Example tokenize_example :
  Sklearn.tokenize "CI/CD R Power BI" = ["ci"; "cd"; "power"; "bi"].
Proof. reflexivity. Qed.

Example slice_to_example :
  slice_to [3; 1; 2] 2 = [3; 1] /\ slice_to [3; 1; 2] 5 = [3; 1; 2]
  /\ slice_to [3; 1; 2] 0 = [] /\ slice_to [3; 1; 2] (-1) = [3; 1]
  /\ slice_to [3; 1; 2] (-7) = [].
Proof. repeat split. Qed.

Lemma prefix_iff (a b : string) :
  prefix a b = true <-> exists q, b = (a ++ q)%string.
Proof.
  revert b; induction a as [|c a IH]; intros b.
  - split; [intros _; exists b; reflexivity | intros _; destruct b; reflexivity].
  - destruct b as [|d b]; simpl.
    + split; [discriminate | intros [q Hq]; discriminate].
    + destruct (ascii_dec c d) as [->|Hcd].
      * rewrite IH. split; intros [q Hq]; exists q; [now rewrite Hq | now inversion Hq].
      * split; [discriminate | intros [q Hq]; congruence].
Qed.

Lemma contains_iff (a b : string) : PyStr.contains a b = true <-> substring a b.
Proof.
  unfold substring. induction b as [|d b IH]; cbn [PyStr.contains].
  - rewrite prefix_iff. split.
    + intros [q Hq]. exists EmptyString, q. exact Hq.
    + intros [p [q Hq]]. destruct p; simpl in Hq.
      * exists q. exact Hq.
      * discriminate.
  - rewrite orb_true_iff, IH, prefix_iff. split.
    + intros [[q Hq] | [p [q Hq]]].
      * exists EmptyString, q. exact Hq.
      * exists (String d p), q. simpl. now rewrite Hq.
    + intros [p [q Hq]]. destruct p as [|e p]; simpl in Hq.
      * left. exists q. exact Hq.
      * right. inversion Hq. now exists p, q.
Qed.

Lemma contains_empty (b : string) : PyStr.contains EmptyString b = true.
Proof. apply contains_iff. exists EmptyString, b. reflexivity. Qed.

Lemma str_mem_iff (x : string) (l : list string) : str_mem x l = true <-> In x l.
Proof.
  unfold str_mem. rewrite existsb_exists. split.
  - intros [y [Hy He]]. apply String.eqb_eq in He. now subst.
  - intros H. exists x. split; [exact H | apply String.eqb_refl].
Qed.

Lemma isspace_not_upper (c : ascii) : PyStr.isspace c = true -> PyStr.isupper c = false.
Proof.
  unfold PyStr.isspace, PyStr.isupper. intros H.
  repeat rewrite orb_true_iff in H. repeat rewrite andb_true_iff in H.
  repeat rewrite Nat.leb_le in H. repeat rewrite Nat.eqb_eq in H.
  apply orb_false_iff; split; apply andb_false_iff.
  - destruct (Nat.le_gt_cases 65 (PyStr.code c)) as [H1|H1].
    + right. apply Nat.leb_gt. lia.
    + left. apply Nat.leb_gt. lia.
  - left. apply andb_false_iff.
    destruct (Nat.le_gt_cases 192 (PyStr.code c)) as [H1|H1].
    + right. apply Nat.leb_gt. lia.
    + left. apply Nat.leb_gt. lia.
Qed.

Lemma lower_blank (s : string) : blank s = true -> PyStr.lower s = s.
Proof.
  induction s as [|c s IH]; simpl; [reflexivity|].
  intros H. apply andb_true_iff in H as [Hc Hs].
  unfold PyStr.lower_char. rewrite (isspace_not_upper c Hc). now rewrite IH.
Qed.

Lemma lstrip_blank (s : string) : blank s = true -> PyStr.lstrip s = EmptyString.
Proof.
  induction s as [|c s IH]; simpl; [reflexivity|].
  intros H. apply andb_true_iff in H as [Hc Hs]. rewrite Hc. auto.
Qed.

(** A blank user skill normalizes to the empty string. *)
Lemma normalize_blank (s : string) : blank s = true -> normalize_user s = EmptyString.
Proof.
  intros H. unfold normalize_user, PyStr.strip.
  rewrite (lower_blank s H), (lstrip_blank s H). reflexivity.
Qed.

(** ** The two loops of [analyze_skill_gap] *)

Lemma partial_match_iff (us : list string) (r : string) :
  partial_match us r = true <->
  exists u, In u us /\ (PyStr.contains u r = true \/ PyStr.contains r u = true).
Proof.
  induction us as [|u us IH]; simpl.
  - split; [discriminate | intros [u [[] _]]].
  - destruct (PyStr.contains u r || PyStr.contains r u) eqn:E.
    + split; [intros _ | reflexivity].
      exists u. split; [now left | now apply orb_true_iff].
    + rewrite IH. apply orb_false_iff in E as [E1 E2].
      split; intros [v [Hv Hc]].
      * exists v. split; [now right | exact Hc].
      * destruct Hv as [<-|Hv]; [|now exists v].
        destruct Hc; congruence.
Qed.

(** The outer loop splits the required skills, in the order it visits them,
    by the test [skill_is_matched]. *)
Lemma gap_loop_filter (us required matched missing : list string) :
  gap_loop us required matched missing =
  (matched ++ filter (skill_is_matched us) required,
   missing ++ filter (fun s => negb (skill_is_matched us s)) required).
Proof.
  revert matched missing.
  induction required as [|s rest IH]; intros matched missing; simpl.
  - now rewrite !app_nil_r.
  - assert (H : skill_is_matched us s
                = str_mem (PyStr.lower s) us || partial_match us (PyStr.lower s))
      by reflexivity.
    destruct (str_mem (PyStr.lower s) us);
      [|destruct (partial_match us (PyStr.lower s))];
      simpl in H; rewrite H; simpl; rewrite IH, <- app_assoc; reflexivity.
Qed.

Lemma filter_split_length {A : Type} (f : A -> bool) (l : list A) :
  List.length (filter f l) + List.length (filter (fun x => negb (f x)) l)
  = List.length l.
Proof.
  induction l as [|x l IH]; simpl; [reflexivity|].
  destruct (f x); simpl; lia.
Qed.

Lemma filter_subseq {A : Type} (f : A -> bool) (l : list A) : subseq (filter f l) l.
Proof.
  induction l as [|x l IH]; simpl; [constructor|].
  destruct (f x); now constructor.
Qed.

Lemma filter_split_perm {A : Type} (f : A -> bool) (l : list A) :
  Permutation (filter f l ++ filter (fun x => negb (f x)) l) l.
Proof.
  induction l as [|x l IH]; simpl; [constructor|].
  destruct (f x); simpl.
  - now constructor.
  - apply Permutation_sym, Permutation_cons_app, Permutation_sym, IH.
Qed.

Lemma dict_mem_get {V : Type} (d : dict V) (k : string) :
  dict_mem d k = true <-> exists v, dict_get d k = Some v.
Proof.
  unfold dict_mem. destruct (dict_get d k) as [v|].
  - split; [intros _; now exists v | reflexivity].
  - split; [discriminate | intros [v Hv]; discriminate].
Qed.

Lemma dict_get_In {V : Type} (d : dict V) (k : string) (v : V) :
  dict_get d k = Some v -> In (k, v) d.
Proof.
  induction d as [|[k' v'] d IH]; simpl; [discriminate|].
  destruct (String.eqb_spec k' k) as [->|Hne].
  - intros H. inversion H. now left.
  - intros H. right. auto.
Qed.

Lemma dict_mem_keys {V : Type} (d : dict V) (k : string) :
  dict_mem d k = true <-> In k (dict_keys d).
Proof.
  unfold dict_mem, dict_keys. induction d as [|[k' v'] d IH]; simpl.
  - split; [discriminate | intros []].
  - destruct (String.eqb_spec k' k) as [->|Hne].
    + split; [now left | reflexivity].
    + rewrite IH. split; [now right | intros [H|H]; [contradiction | exact H]].
Qed.

Section GapAnalysis.
Context {rt : PyRuntime}.

Lemma analyze_known (self : Engine) (user_skills : list string)
  (target_career : string) (info : CareerInfo) :
  dict_get (career_database self) target_career = Some info ->
  analyze_skill_gap self user_skills target_career =
  Returns (Report (report_of (set_order (skills info))
                             (set_order (map normalize_user user_skills)))).
Proof.
  intros Hget. unfold analyze_skill_gap, dict_mem, dict_getitem.
  rewrite Hget. simpl. rewrite gap_loop_filter. simpl.
  unfold report_of, normalize_user.
  destruct (set_order (skills info)) as [|r0 rs]; reflexivity.
Qed.

Lemma analyze_unknown (self : Engine) (user_skills : list string)
  (target_career : string) :
  dict_get (career_database self) target_career = None ->
  analyze_skill_gap self user_skills target_career = Returns EmptyDict.
Proof.
  intros Hget. unfold analyze_skill_gap, dict_mem. now rewrite Hget.
Qed.

End GapAnalysis.

(** ** Gap analysis: what is matched *)

Section GapCriterion.
Context {rt : PyRuntime} {ok : PyRuntimeOk rt}.

(** The loop test is the criterion of the source, whatever the iteration
    order of the two sets. *)
Lemma skill_is_matched_iff (user_skills : list string) (r : string) :
  skill_is_matched (set_order (map normalize_user user_skills)) r = true
  <-> match_criterion user_skills r.
Proof.
  unfold skill_is_matched, match_criterion.
  rewrite orb_true_iff, str_mem_iff, partial_match_iff, set_order_in, in_map_iff.
  split; intros [H|H].
  - left. destruct H as [u [Hu Hin]]. now exists u.
  - right. destruct H as [v [Hv Hc]].
    apply set_order_in, in_map_iff in Hv as [u [<- Hin]].
    exists u. split; [exact Hin|].
    destruct Hc as [Hc|Hc]; apply contains_iff in Hc; auto.
  - left. destruct H as [u [Hin Hu]]. now exists u.
  - right. destruct H as [u [Hin Hc]].
    exists (normalize_user u). split.
    + apply set_order_in, in_map_iff. now exists u.
    + destruct Hc as [Hc|Hc]; apply contains_iff in Hc; auto.
Qed.

Lemma set_order_nil_iff (l : list string) : set_order l = [] <-> l = [].
Proof.
  split; intros H.
  - destruct l as [|x l]; [reflexivity|].
    assert (Hin : In x (set_order (x :: l))) by (apply set_order_in; now left).
    rewrite H in Hin. destruct Hin.
  - destruct (set_order l) as [|x r] eqn:E; [reflexivity|].
    assert (Hin : In x l) by (apply set_order_in; rewrite E; now left).
    rewrite H in Hin. destruct Hin.
Qed.

Lemma match_criterion_incl (s s' : list string) (r : string) :
  incl s s' -> match_criterion s r -> match_criterion s' r.
Proof.
  intros Hincl [[u [Hin Hu]]|[u [Hin Hu]]]; [left|right]; exists u; auto.
Qed.

Lemma skill_is_matched_mono (s s' : list string) (r : string) :
  incl s s' ->
  skill_is_matched (set_order (map normalize_user s)) r = true ->
  skill_is_matched (set_order (map normalize_user s')) r = true.
Proof.
  intros Hincl H. apply skill_is_matched_iff.
  apply skill_is_matched_iff in H. eapply match_criterion_incl; eauto.
Qed.

End GapCriterion.

Lemma filter_length_mono {A : Type} (f g : A -> bool) (l : list A) :
  (forall x, In x l -> f x = true -> g x = true) ->
  List.length (filter f l) <= List.length (filter g l).
Proof.
  induction l as [|x l IH]; intros H; simpl; [lia|].
  assert (IH' : List.length (filter f l) <= List.length (filter g l))
    by (apply IH; intros y Hy; apply H; now right).
  destruct (f x) eqn:Ef.
  - rewrite (H x (or_introl eq_refl) Ef). simpl. lia.
  - destruct (g x); simpl; lia.
Qed.

Lemma filter_all {A : Type} (f : A -> bool) (l : list A) :
  (forall x, In x l -> f x = true) -> filter f l = l.
Proof.
  induction l as [|x l IH]; intros H; simpl; [reflexivity|].
  rewrite (H x (or_introl eq_refl)). f_equal. apply IH. intros y Hy. apply H. now right.
Qed.

Lemma filter_none {A : Type} (f : A -> bool) (l : list A) :
  (forall x, In x l -> f x = false) -> filter f l = [].
Proof.
  induction l as [|x l IH]; intros H; simpl; [reflexivity|].
  rewrite (H x (or_introl eq_refl)). apply IH. intros y Hy. apply H. now right.
Qed.

(** ** Percentages *)

Lemma Zpos_of_nat (n : nat) : n <> 0 -> Z.pos (Pos.of_nat n) = Z.of_nat n.
Proof.
  intros Hn. destruct n as [|n]; [contradiction|].
  rewrite <- Pos.of_nat_succ. now rewrite Zpos_P_of_succ_nat, Nat2Z.inj_succ.
Qed.

Lemma percentage_le (m m' : nat) (p : positive) :
  m <= m' -> ((Z.of_nat m # p) * 100 <= (Z.of_nat m' # p) * 100)%Q.
Proof.
  intros H. unfold Qle, Qmult. cbn [Qnum Qden].
  apply Z.mul_le_mono_nonneg_r; [lia|].
  apply Z.mul_le_mono_nonneg_r; lia.
Qed.

Lemma percentage_full (n : nat) :
  n <> 0 -> ((Z.of_nat n # Pos.of_nat n) * 100 == 100)%Q.
Proof.
  intros Hn. unfold Qeq, Qmult. cbn [Qnum Qden].
  rewrite Pos2Z.inj_mul, (Zpos_of_nat n Hn). lia.
Qed.

(** The percentage of [report_of] is [100 * matched / required]. *)
Lemma percentage_value (m n : nat) :
  n <> 0 ->
  ((Z.of_nat m # Pos.of_nat n) * 100
   == 100 * inject_Z (Z.of_nat m) / inject_Z (Z.of_nat n))%Q.
Proof.
  intros Hn. unfold Qdiv, Qinv, inject_Z. simpl Qnum.
  destruct (Z.of_nat n) eqn:E; try lia.
  assert (Hp : Pos.of_nat n = p).
  { apply Pos2Z.inj. rewrite (Zpos_of_nat n Hn). exact E. }
  rewrite Hp. unfold Qeq, Qmult. cbn [Qnum Qden].
  rewrite !Pos2Z.inj_mul. lia.
Qed.

(** ** Gap analysis: the claims *)

Section GapClaims.
Context {rt : PyRuntime} {ok : PyRuntimeOk rt}.

(** C1 (amended). For every user skill list and every career of the catalog,
    [analyze_skill_gap] returns a report in which a required skill [r] is
    matched exactly when the lower-cased [r] (not trimmed) equals the
    lower-cased, trimmed form of some user skill, or some such user skill is
    a substring of the lower-cased [r], or the lower-cased [r] is a substring
    of some such user skill; otherwise [r] is missing. For a required skill
    without surrounding whitespace this is the condition with [r] trimmed as
    well. *)
Theorem gap_matched_iff_criterion (self : Engine) (user_skills : list string)
  (target_career : string) :
  dict_mem (career_database self) target_career = true ->
  exists info g,
    dict_get (career_database self) target_career = Some info
    /\ analyze_skill_gap self user_skills target_career = Returns (Report g)
    /\ forall r, In r (skills info) ->
         (In r (matched_skills g) <-> match_criterion user_skills r)
         /\ (In r (missing_skills g) <-> ~ match_criterion user_skills r)
         /\ (PyStr.strip (PyStr.lower r) = PyStr.lower r ->
             (In r (matched_skills g) <-> spec_match_criterion user_skills r)).
Proof.
  intros Hmem. apply dict_mem_get in Hmem as [info Hget].
  exists info. eexists. split; [exact Hget|]. split.
  - apply analyze_known. exact Hget.
  - intros r Hr. apply (set_order_in (skills info)) in Hr. simpl.
    rewrite !filter_In, <- skill_is_matched_iff.
    split; [tauto|]. split.
    + rewrite negb_true_iff, not_true_iff_false. tauto.
    + intros Htrim. unfold spec_match_criterion. rewrite Htrim.
      fold (match_criterion user_skills r).
      rewrite <- skill_is_matched_iff. tauto.
Qed.

(** C2 (amended). For every user skill list and every career of the catalog,
    the report lists the matched skills and the missing skills each in the
    iteration order of the set of required skills (which need not be the
    declared order); the missing list is the complement of the matched list
    in that order; the two lists hold every required skill exactly once and
    share none; the two counts are the lengths of the set and of the matched
    list; and the percentage is [100 * matched / required], and [0] when
    nothing is required. *)
Theorem gap_report_partition (self : Engine) (user_skills : list string)
  (target_career : string) :
  dict_mem (career_database self) target_career = true ->
  exists info g,
    dict_get (career_database self) target_career = Some info
    /\ analyze_skill_gap self user_skills target_career = Returns (Report g)
    /\ subseq (matched_skills g) (set_order (skills info))
    /\ subseq (missing_skills g) (set_order (skills info))
    /\ missing_skills g
       = filter (fun r => negb (str_mem r (matched_skills g)))
                (set_order (skills info))
    /\ Permutation (matched_skills g ++ missing_skills g) (set_order (skills info))
    /\ NoDup (matched_skills g ++ missing_skills g)
    /\ (forall r, In r (skills info) <->
                  In r (matched_skills g) \/ In r (missing_skills g))
    /\ (forall r, ~ (In r (matched_skills g) /\ In r (missing_skills g)))
    /\ List.length (matched_skills g) + List.length (missing_skills g)
       = List.length (set_order (skills info))
    /\ total_required g = List.length (set_order (skills info))
    /\ total_matched g = List.length (matched_skills g)
    /\ (skills info = [] -> match_percentage g = 0%Q)
    /\ (skills info <> [] ->
        (match_percentage g
         == 100 * inject_Z (Z.of_nat (List.length (matched_skills g)))
            / inject_Z (Z.of_nat (List.length (set_order (skills info)))))%Q)
    /\ (set_order (skills info) = skills info ->
        subseq (matched_skills g) (skills info)
        /\ subseq (missing_skills g) (skills info)).
Proof.
  intros Hmem. apply dict_mem_get in Hmem as [info Hget].
  exists info. eexists. split; [exact Hget|]. split; [apply analyze_known; exact Hget|].
  simpl.
  set (required := set_order (skills info)).
  set (f := skill_is_matched (set_order (map normalize_user user_skills))).
  assert (Hnd : NoDup required) by apply set_order_nodup.
  assert (Hperm : Permutation (filter f required
                               ++ filter (fun s => negb (f s)) required) required)
    by apply filter_split_perm.
  split; [apply filter_subseq|].
  split; [apply filter_subseq|].
  split.
  { apply filter_ext_in. intros r Hr. f_equal.
    destruct (f r) eqn:E; symmetry.
    - apply str_mem_iff, filter_In. now split.
    - apply not_true_iff_false. rewrite str_mem_iff, filter_In.
      intros [_ H]. congruence. }
  split; [exact Hperm|].
  split.
  { eapply Permutation_NoDup; [apply Permutation_sym, Hperm | exact Hnd]. }
  split.
  { intros r. rewrite <- (set_order_in (skills info)). fold required.
    rewrite <- in_app_iff. split; intros Hr.
    - eapply Permutation_in; [apply Permutation_sym, Hperm | exact Hr].
    - eapply Permutation_in; [exact Hperm | exact Hr]. }
  split.
  { intros r [H1 H2]. apply filter_In in H1 as [_ H1].
    apply filter_In in H2 as [_ H2]. rewrite H1 in H2. discriminate. }
  split; [apply filter_split_length|].
  split; [reflexivity|].
  split; [reflexivity|].
  split.
  { intros Hempty. apply set_order_nil_iff in Hempty.
    unfold required. now rewrite Hempty. }
  split.
  { intros Hne. rewrite <- set_order_nil_iff in Hne. fold required in Hne.
    destruct required as [|r0 rs]; [contradiction|].
    apply percentage_value. simpl. discriminate. }
  intros Hid. rewrite <- Hid. split; apply filter_subseq.
Qed.

(** C8. For every career of the catalog and user skill lists [s] and [s']
    with every element of [s] in [s'], the percentage reported for [s'] is
    at least the one reported for [s], and every required skill matched
    under [s] is matched, and not missing, under [s']. *)
Theorem gap_monotone (self : Engine) (s s' : list string) (target_career : string) :
  dict_mem (career_database self) target_career = true ->
  incl s s' ->
  exists g g',
    analyze_skill_gap self s target_career = Returns (Report g)
    /\ analyze_skill_gap self s' target_career = Returns (Report g')
    /\ (match_percentage g <= match_percentage g')%Q
    /\ forall r, In r (matched_skills g) ->
         In r (matched_skills g') /\ ~ In r (missing_skills g').
Proof.
  intros Hmem Hincl. apply dict_mem_get in Hmem as [info Hget].
  do 2 eexists. split; [apply analyze_known; exact Hget|]. split; [apply analyze_known; exact Hget|].
  simpl. split.
  - destruct (set_order (skills info)) as [|r0 rs] eqn:E; [apply Qle_refl|].
    rewrite <- E. apply percentage_le. apply filter_length_mono.
    intros x _. now apply skill_is_matched_mono.
  - intros r Hr. apply filter_In in Hr as [Hin Hm].
    apply (skill_is_matched_mono s s' r Hincl) in Hm.
    split.
    + apply filter_In. now split.
    + rewrite filter_In, Hm. intros [_ H]. discriminate.
Qed.

(** C10. For every career of the catalog with at least one required skill,
    if the user skill list holds a string that is empty or made of
    whitespace only, every required skill is reported matched: the
    percentage is 100, the missing list is empty and [total_matched] equals
    [total_required]. *)
Theorem blank_skill_matches_all (self : Engine) (user_skills : list string)
  (target_career : string) (info : CareerInfo) :
  dict_get (career_database self) target_career = Some info ->
  skills info <> [] ->
  (exists u, In u user_skills /\ blank u = true) ->
  exists g,
    analyze_skill_gap self user_skills target_career = Returns (Report g)
    /\ (match_percentage g == 100)%Q
    /\ missing_skills g = []
    /\ matched_skills g = set_order (skills info)
    /\ total_matched g = total_required g.
Proof.
  intros Hget Hne [u [Hin Hblank]].
  eexists. split; [apply analyze_known; exact Hget|].
  set (uset := set_order (map normalize_user user_skills)).
  assert (Hall : forall r, skill_is_matched uset r = true).
  { intros r. apply skill_is_matched_iff. right. exists u. split; [exact Hin|].
    left. rewrite (normalize_blank u Hblank). apply contains_iff, contains_empty. }
  assert (Hm : filter (skill_is_matched uset) (set_order (skills info))
               = set_order (skills info)) by (apply filter_all; auto).
  simpl. fold uset. rewrite Hm. repeat split.
  - rewrite <- set_order_nil_iff in Hne.
    destruct (set_order (skills info)) as [|r0 rs]; [contradiction|].
    apply percentage_full. discriminate.
  - apply filter_none. intros r _. now rewrite Hall.
Qed.

End GapClaims.

(** ** Learning paths *)

Lemma learning_loop_map (missing : list string) (acc : list PathItem) :
  learning_loop missing acc = Returns (acc ++ map bundle_of missing).
Proof.
  revert acc. induction missing as [|s rest IH]; intros acc; simpl.
  - now rewrite app_nil_r.
  - unfold dict_mem, dict_getitem, bundle_of.
    destruct (dict_get skill_priority s) as [e|]; simpl;
      rewrite IH, <- app_assoc; reflexivity.
Qed.

(** The keys of the table are distinct: an entry is found under its key. *)
Lemma skill_priority_lookup (s : string) (e : PriorityEntry) :
  In (s, e) skill_priority <-> dict_get skill_priority s = Some e.
Proof.
  split.
  - intros H. unfold skill_priority in H. simpl in H.
    repeat (destruct H as [H|H]; [inversion H; subst; reflexivity|]).
    destruct H.
  - apply dict_get_In.
Qed.

Lemma get_learning_path_value (self : Engine) (missing : list string)
  (career_name : string) :
  get_learning_path self missing career_name =
  Returns {| career := career_name;
             skills_to_learn := map bundle_of missing;
             estimated_time :=
               PyStr.str_of_nat (List.length missing * 2) ++ "-"
               ++ PyStr.str_of_nat (List.length missing * 3) ++ " months" |}.
Proof. unfold get_learning_path. rewrite learning_loop_map. reflexivity. Qed.

Lemma bundle_of_skill (s : string) : skill (bundle_of s) = s.
Proof. unfold bundle_of. destruct (dict_get skill_priority s); reflexivity. Qed.

Lemma map_skill_bundles (missing : list string) :
  map skill (map bundle_of missing) = missing.
Proof.
  induction missing as [|s rest IH]; simpl; [reflexivity|].
  now rewrite bundle_of_skill, IH.
Qed.

(** C9. For every list of missing skills and every career name, the plan
    holds one bundle per input skill in the input order; a skill that is a
    key of the priority table (equal character by character) gets that
    entry's level, resources and time, every other skill gets the default
    bundle, and the estimated time reads "2n-3n months" for n input
    skills. *)
Theorem learning_path_bundles (self : Engine) (missing : list string)
  (career_name : string) :
  exists plan,
    get_learning_path self missing career_name = Returns plan
    /\ career plan = career_name
    /\ List.length (skills_to_learn plan) = List.length missing
    /\ map skill (skills_to_learn plan) = missing
    /\ (forall i s, nth_error missing i = Some s ->
        exists item,
          nth_error (skills_to_learn plan) i = Some item
          /\ skill item = s
          /\ (forall e, In (s, e) skill_priority ->
                level item = entry_level e
                /\ resources item = entry_resources e
                /\ time item = entry_time e)
          /\ ((forall e, ~ In (s, e) skill_priority) ->
                item = {| skill := s;
                          level := "Intermediate";
                          resources := ["Online Courses"; "Documentation";
                                        "Practice Projects"];
                          time := "2-3 months" |}))
    /\ estimated_time plan
       = (PyStr.str_of_nat (2 * List.length missing) ++ "-"
          ++ PyStr.str_of_nat (3 * List.length missing) ++ " months")%string.
Proof.
  eexists. split; [apply get_learning_path_value|].
  cbn [career skills_to_learn estimated_time].
  split; [reflexivity|].
  split; [apply length_map|].
  split.
  { apply map_skill_bundles. }
  split.
  { intros i s Hi. exists (bundle_of s). split.
    - rewrite nth_error_map, Hi. reflexivity.
    - unfold bundle_of. destruct (dict_get skill_priority s) as [e0|] eqn:E.
      + split; [reflexivity|]. split.
        * intros e He. apply skill_priority_lookup in He.
          assert (e0 = e) by congruence. subst. auto.
        * intros Hnone. apply skill_priority_lookup in E. now apply Hnone in E.
      + split; [reflexivity|]. split.
        * intros e He. apply skill_priority_lookup in He. congruence.
        * intros _. reflexivity. }
  now rewrite (Nat.mul_comm 2), (Nat.mul_comm 3).
Qed.

(** C4 (amended). For every user skill list and every career name that is
    not a key of the catalog, [analyze_skill_gap] returns the empty
    dictionary and raises nothing, and [get_learning_path] does not look the
    career up: it returns the plan for the given skills under that name. *)
Theorem unknown_career_returns (rt : PyRuntime) (self : Engine)
  (user_skills missing : list string) (target_career : string) :
  dict_mem (career_database self) target_career = false ->
  analyze_skill_gap self user_skills target_career = Returns EmptyDict
  /\ exists plan,
       get_learning_path self missing target_career = Returns plan
       /\ career plan = target_career
       /\ map skill (skills_to_learn plan) = missing.
Proof.
  intros Hmem. split.
  - unfold analyze_skill_gap. now rewrite Hmem.
  - eexists. split; [apply get_learning_path_value|]. simpl.
    split; [reflexivity | apply map_skill_bundles].
Qed.

(** ** The stable argsort meets the contract of [argsort] *)

Section StableArgsort.
Variable xs : list R.

Let key (i : nat) : R := nth i xs 0%R.

Lemma insert_index_perm (i : nat) (acc : list nat) :
  Permutation (insert_index xs i acc) (i :: acc).
Proof.
  induction acc as [|j r IH]; simpl; [reflexivity|].
  destruct (Rlt_dec (nth i xs 0%R) (nth j xs 0%R)); [reflexivity|].
  rewrite IH. apply perm_swap.
Qed.

Lemma insert_index_hd (i j : nat) (acc : list nat) :
  (key j <= key i)%R ->
  HdRel Rle (key j) (map key acc) ->
  HdRel Rle (key j) (map key (insert_index xs i acc)).
Proof.
  intros Hji Hhd. destruct acc as [|k r]; simpl.
  - now constructor.
  - destruct (Rlt_dec (nth i xs 0%R) (nth k xs 0%R)); simpl.
    + now constructor.
    + inversion Hhd. now constructor.
Qed.

Lemma insert_index_sorted (i : nat) (acc : list nat) :
  Sorted Rle (map key acc) -> Sorted Rle (map key (insert_index xs i acc)).
Proof.
  induction acc as [|j r IH]; simpl; intros Hs.
  - repeat constructor.
  - inversion Hs as [|? ? Hr Hhd]; subst.
    destruct (Rlt_dec (nth i xs 0%R) (nth j xs 0%R)) as [Hlt|Hge]; simpl.
    + constructor; [exact Hs|]. constructor. now apply Rlt_le.
    + constructor; [now apply IH|].
      apply insert_index_hd; [|exact Hhd].
      unfold key. now apply Rnot_lt_le.
Qed.

Lemma fold_insert_perm (l acc : list nat) :
  Permutation (fold_left (fun a i => insert_index xs i a) l acc) (acc ++ l).
Proof.
  revert acc. induction l as [|i l IH]; intros acc; simpl.
  - now rewrite app_nil_r.
  - rewrite IH, insert_index_perm. apply Permutation_middle.
Qed.

Lemma fold_insert_sorted (l acc : list nat) :
  Sorted Rle (map key acc) ->
  Sorted Rle (map key (fold_left (fun a i => insert_index xs i a) l acc)).
Proof.
  revert acc. induction l as [|i l IH]; intros acc Hs; simpl; [exact Hs|].
  apply IH. now apply insert_index_sorted.
Qed.

Lemma stable_argsort_perm :
  Permutation (stable_argsort xs) (seq 0 (List.length xs)).
Proof. unfold stable_argsort. now rewrite fold_insert_perm. Qed.

Lemma stable_argsort_sorted :
  Sorted Rle (map (fun i => nth i xs 0%R) (stable_argsort xs)).
Proof. unfold stable_argsort. apply fold_insert_sorted. constructor. Qed.

End StableArgsort.

Lemma declared_order_runtime_ok : PyRuntimeOk declared_order_runtime.
Proof.
  constructor; simpl.
  - intros l. apply NoDup_nodup.
  - intros l x. apply nodup_In.
  - apply stable_argsort_perm.
  - apply stable_argsort_sorted.
Qed.

Lemma reversed_order_runtime_ok : PyRuntimeOk reversed_order_runtime.
Proof.
  constructor; simpl.
  - intros l. apply NoDup_rev, NoDup_nodup.
  - intros l x. rewrite <- in_rev. apply nodup_In.
  - apply stable_argsort_perm.
  - apply stable_argsort_sorted.
Qed.

(** ** Gap analysis and learning paths on concrete catalogs *)

(** The scenario of the shipped catalog: three of the seven skills of a data
    scientist. *)
Example data_scientist_gap :
  analyze_skill_gap (rt := declared_order_runtime) (engine_for CAREER_DATABASE)
    ["Python"; "SQL"; "Statistics"] "Data Scientist"
  = Returns (Report {| matched_skills := ["Python"; "Statistics"; "SQL"];
                       missing_skills := ["Machine Learning"; "Data Visualization";
                                          "Deep Learning"; "NLP"];
                       match_percentage := 300 # 7;
                       total_required := 7;
                       total_matched := 3 |}).
Proof. reflexivity. Qed.

Example data_scientist_path :
  get_learning_path (engine_for CAREER_DATABASE)
    ["Machine Learning"; "Data Visualization"; "Deep Learning"; "NLP"]
    "Data Scientist"
  = Returns
      {| career := "Data Scientist";
         skills_to_learn :=
           [ {| skill := "Machine Learning"; level := "Intermediate-Advanced";
                resources := ["Coursera ML Course"; "Fast.ai"; "Kaggle"];
                time := "3-4 months" |};
             {| skill := "Data Visualization"; level := "Beginner-Intermediate";
                resources := ["Tableau Public"; "DataCamp"; "Storytelling with Data"];
                time := "1-2 months" |};
             default_item "Deep Learning";
             default_item "NLP" ];
         estimated_time := "8-12 months" |}.
Proof. reflexivity. Qed.

(** The table is looked up by the skill as written: "python" is not the key
    "Python". *)
Example lower_case_key_gets_default :
  bundle_of "Python" = item_of_entry "Python"
                         {| entry_level := "Beginner-Intermediate";
                            entry_resources := ["Python.org"; "Real Python";
                                                "Codecademy"];
                            entry_time := "2-3 months" |}
  /\ bundle_of "python" = default_item "python".
Proof. split; reflexivity. Qed.

Lemma gap_matched_iff_criterion_witness :
  dict_mem (career_database (engine_for CAREER_DATABASE)) "Data Scientist" = true
  /\ exists info g,
       dict_get (career_database (engine_for CAREER_DATABASE)) "Data Scientist"
       = Some info
       /\ analyze_skill_gap (rt := declared_order_runtime)
            (engine_for CAREER_DATABASE) ["Python"; "SQL"] "Data Scientist"
          = Returns (Report g)
       /\ forall r, In r (skills info) ->
            (In r (matched_skills g) <-> match_criterion ["Python"; "SQL"] r)
            /\ (In r (missing_skills g) <-> ~ match_criterion ["Python"; "SQL"] r)
            /\ (PyStr.strip (PyStr.lower r) = PyStr.lower r ->
                (In r (matched_skills g)
                 <-> spec_match_criterion ["Python"; "SQL"] r)).
Proof.
  split; [reflexivity|].
  apply (@gap_matched_iff_criterion declared_order_runtime
           declared_order_runtime_ok).
  reflexivity.
Defined.

(** C1, as stated, fails where a required skill carries surrounding blanks:
    trimmed, [" py "] is a substring of the user skill ["python"], so the
    stated condition holds, yet the source, which does not trim the
    required skill, reports it missing. *)
Lemma gap_trimmed_criterion_fails :
  exists g,
    analyze_skill_gap (rt := declared_order_runtime) (engine_for padded_catalog)
      ["python"] "Scripter" = Returns (Report g)
    /\ In " py " (skills (mk_info [" py "]))
    /\ spec_match_criterion ["python"] " py "
    /\ ~ In " py " (matched_skills g)
    /\ missing_skills g = [" py "].
Proof.
  eexists. split; [reflexivity|]. split; [now left|]. split.
  - right. exists "python". split; [now left|]. right.
    exists "", "thon". reflexivity.
  - split; [intros [] | reflexivity].
Qed.

Lemma gap_report_partition_witness :
  dict_mem (career_database (engine_for CAREER_DATABASE)) "Data Engineer" = true
  /\ exists info g,
       dict_get (career_database (engine_for CAREER_DATABASE)) "Data Engineer"
       = Some info
       /\ analyze_skill_gap (rt := declared_order_runtime)
            (engine_for CAREER_DATABASE) ["sql"; "spark"] "Data Engineer"
          = Returns (Report g)
       /\ Permutation (matched_skills g ++ missing_skills g)
            (@set_order declared_order_runtime (skills info))
       /\ total_matched g = List.length (matched_skills g).
Proof.
  split; [reflexivity|].
  destruct (@gap_report_partition declared_order_runtime
              declared_order_runtime_ok (engine_for CAREER_DATABASE)
              ["sql"; "spark"] "Data Engineer" eq_refl)
    as [info [g [H1 [H2 [_ [_ [_ [H3 [_ [_ [_ [_ [_ [H4 _]]]]]]]]]]]]]].
  exists info, g. auto.
Defined.

(** C2, as stated, fails on the order: in a runtime whose sets iterate
    against the declared order, the matched list comes out as
    [["SQL"; "Python"]], which is not the declared [["Python"; "SQL"]] with
    elements removed. *)
Lemma gap_order_not_declared :
  PyRuntimeOk reversed_order_runtime
  /\ analyze_skill_gap (rt := reversed_order_runtime) (engine_for small_catalog)
       ["python"; "sql"] "Analyst"
     = Returns (Report {| matched_skills := ["SQL"; "Python"];
                          missing_skills := [];
                          match_percentage := 200 # 2;
                          total_required := 2;
                          total_matched := 2 |})
  /\ ~ subseq ["SQL"; "Python"] (skills (mk_info ["Python"; "SQL"])).
Proof.
  split; [exact reversed_order_runtime_ok|]. split; [reflexivity|].
  simpl. intros H.
  inversion H as [|x l1 l2 H1|]; subst.
  inversion H1 as [|x l1 l2 H2|x l1 l2 H2]; subst.
  - inversion H2.
  - inversion H2.
Qed.

Lemma gap_monotone_witness :
  exists g g',
    analyze_skill_gap (rt := declared_order_runtime) (engine_for CAREER_DATABASE)
      ["Python"] "Data Scientist" = Returns (Report g)
    /\ analyze_skill_gap (rt := declared_order_runtime) (engine_for CAREER_DATABASE)
         ["SQL"; "Python"] "Data Scientist" = Returns (Report g')
    /\ (match_percentage g <= match_percentage g')%Q
    /\ forall r, In r (matched_skills g) ->
         In r (matched_skills g') /\ ~ In r (missing_skills g').
Proof.
  apply (@gap_monotone declared_order_runtime declared_order_runtime_ok).
  - reflexivity.
  - intros x [<-|[]]. simpl. auto.
Defined.

Lemma blank_skill_matches_all_witness :
  exists g,
    analyze_skill_gap (rt := declared_order_runtime) (engine_for CAREER_DATABASE)
      ["Java"; "  "] "UX Designer" = Returns (Report g)
    /\ (match_percentage g == 100)%Q
    /\ missing_skills g = []
    /\ matched_skills g
       = ["Figma"; "User Research"; "Prototyping"; "Design Thinking";
          "HTML/CSS"; "Wireframing"; "Usability Testing"]
    /\ total_matched g = total_required g.
Proof.
  pose proof (@blank_skill_matches_all declared_order_runtime
                declared_order_runtime_ok (engine_for CAREER_DATABASE)
                ["Java"; "  "] "UX Designer"
                {| skills := ["Figma"; "User Research"; "Prototyping";
                              "Design Thinking"; "HTML/CSS"; "Wireframing";
                              "Usability Testing"];
                   description := "Create intuitive and user-friendly digital experiences";
                   salary_range := "$70,000 - $120,000";
                   growth := "High";
                   experience_level := "1-4 years" |} eq_refl) as H.
  assert (Hne : ["Figma"; "User Research"; "Prototyping"; "Design Thinking";
                 "HTML/CSS"; "Wireframing"; "Usability Testing"] <> [])
    by discriminate.
  assert (Hblank : exists u, In u ["Java"; "  "] /\ blank u = true)
    by (exists "  "; split; [simpl; auto | reflexivity]).
  exact (H Hne Hblank).
Defined.

Lemma unknown_career_returns_witness :
  analyze_skill_gap (rt := declared_order_runtime) (engine_for CAREER_DATABASE)
    ["Python"] "Astronaut" = Returns EmptyDict
  /\ exists plan,
       get_learning_path (engine_for CAREER_DATABASE) ["SQL"; "Rust"] "Astronaut"
       = Returns plan
       /\ career plan = "Astronaut"
       /\ map skill (skills_to_learn plan) = ["SQL"; "Rust"].
Proof.
  apply (unknown_career_returns declared_order_runtime). reflexivity.
Defined.

(** C4, as stated, fails: for a career that is not in the catalog the gap
    analysis returns the empty dictionary, and the learning path is composed
    all the same; neither call raises. *)
Lemma unknown_career_not_raised :
  dict_mem CAREER_DATABASE "Astronaut" = false
  /\ analyze_skill_gap (rt := declared_order_runtime) (engine_for CAREER_DATABASE)
       ["Python"] "Astronaut" = Returns EmptyDict
  /\ analyze_skill_gap (rt := declared_order_runtime) (engine_for CAREER_DATABASE)
       ["Python"] "Astronaut" <> Raises UnknownCareer
  /\ get_learning_path (engine_for CAREER_DATABASE) ["SQL"; "Rust"] "Astronaut"
     = Returns {| career := "Astronaut";
                  skills_to_learn :=
                    [ {| skill := "SQL"; level := "Beginner";
                         resources := ["SQLBolt"; "Mode Analytics"; "LeetCode"];
                         time := "1-2 months" |};
                      default_item "Rust" ];
                  estimated_time := "4-6 months" |}
  /\ get_learning_path (engine_for CAREER_DATABASE) ["SQL"; "Rust"] "Astronaut"
     <> Raises UnknownCareer.
Proof.
  assert (Hgap : analyze_skill_gap (rt := declared_order_runtime)
                   (engine_for CAREER_DATABASE) ["Python"] "Astronaut"
                 = Returns EmptyDict) by reflexivity.
  split; [reflexivity|].
  split; [exact Hgap|].
  split; [rewrite Hgap; discriminate|].
  rewrite get_learning_path_value.
  split.
  - reflexivity.
  - discriminate.
Qed.

(** ** The engine built by [init] *)

Lemma init_inv (db : dict CareerInfo) (self : Engine) :
  init db = Returns self ->
  career_database self = db
  /\ career_names self = dict_keys db
  /\ List.length (skill_matrix self) = List.length db.
Proof.
  unfold init, build_model, Sklearn.fit_transform.
  destruct (Sklearn.fit _) as [v|e]; simpl; [|discriminate].
  intros H. inversion H; subst; clear H. simpl.
  split; [reflexivity|]. split; [reflexivity|].
  unfold Sklearn.transform. now rewrite !length_map.
Qed.

Lemma py_index_nth {A : Type} (l : list A) (i : nat) (d : A) :
  i < List.length l -> py_index l i = Returns (nth i l d).
Proof.
  intros Hi. unfold py_index.
  destruct (nth_error l i) as [a|] eqn:E.
  - now rewrite (nth_error_nth l i d E).
  - apply nth_error_None in E. lia.
Qed.

Lemma similarities_of_length (self : Engine) (user_skills : list string) :
  List.length (similarities_of self user_skills) = List.length (skill_matrix self).
Proof. unfold similarities_of. apply length_map. Qed.

Section Recommend.
Context {rt : PyRuntime}.

Lemma rec_name_at (self : Engine) (us : list string) (sims : list R) (idx : nat) :
  rec_name (recommendation_at self us sims idx) = nth idx (career_names self) "".
Proof.
  unfold recommendation_at. destruct (dict_get _ _); reflexivity.
Qed.

Lemma rec_score_at (self : Engine) (us : list string) (sims : list R) (idx : nat) :
  rec_score (recommendation_at self us sims idx) = (nth idx sims 0 * 100)%R.
Proof.
  unfold recommendation_at. destruct (dict_get _ _); reflexivity.
Qed.

(** The loop appends one tuple per index, provided every index selects a
    career. *)
Lemma recommend_loop_map (self : Engine) (us : list string) (sims : list R)
  (tops : list nat) (acc : list Recommendation) :
  career_names self = dict_keys (career_database self) ->
  List.length sims = List.length (career_names self) ->
  (forall i, In i tops -> i < List.length (career_names self)) ->
  recommend_loop self us sims tops acc
  = Returns (acc ++ map (recommendation_at self us sims) tops).
Proof.
  intros Hnames Hlen. revert acc.
  induction tops as [|idx rest IH]; intros acc Hin; simpl.
  - now rewrite app_nil_r.
  - assert (Hidx : idx < List.length (career_names self)) by (apply Hin; now left).
    rewrite (py_index_nth _ idx "" Hidx). simpl.
    rewrite (py_index_nth sims idx 0%R) by lia. simpl.
    assert (Hkey : In (nth idx (career_names self) "")
                      (dict_keys (career_database self))).
    { rewrite <- Hnames. now apply nth_In. }
    apply dict_mem_keys, dict_mem_get in Hkey as [info Hget].
    rewrite (analyze_known self us _ info Hget). simpl.
    unfold dict_getitem. rewrite Hget. simpl.
    rewrite IH by (intros i Hi; apply Hin; now right).
    rewrite <- app_assoc. simpl. unfold recommendation_at at 2. now rewrite Hget.
Qed.

End Recommend.

(** ** Sorted lists, reversal and slices *)

Lemma StronglySorted_app {A : Type} (P : A -> A -> Prop) (l1 l2 : list A) :
  StronglySorted P l1 -> StronglySorted P l2 ->
  (forall a b, In a l1 -> In b l2 -> P a b) ->
  StronglySorted P (l1 ++ l2).
Proof.
  intros H1 H2 H12. induction H1 as [|a l1 Hs IH Hall]; simpl; [exact H2|].
  constructor.
  - apply IH. intros x y Hx Hy. apply H12; [now right | exact Hy].
  - apply Forall_app. split; [exact Hall|].
    apply Forall_forall. intros y Hy. apply H12; [now left | exact Hy].
Qed.

Lemma StronglySorted_rev {A : Type} (P : A -> A -> Prop) (l : list A) :
  StronglySorted P l -> StronglySorted (fun a b => P b a) (rev l).
Proof.
  intros H. induction H as [|a l Hs IH Hall]; simpl; [constructor|].
  apply StronglySorted_app; [exact IH | repeat constructor |].
  intros x y Hx [<-|[]]. apply in_rev in Hx.
  rewrite Forall_forall in Hall. now apply Hall.
Qed.

Lemma firstn_In {A : Type} (n : nat) (l : list A) (x : A) :
  In x (firstn n l) -> In x l.
Proof.
  revert l. induction n as [|n IH]; intros l; simpl; [intros []|].
  destruct l as [|a l]; simpl; [intros []|].
  intros [H|H]; [now left | right; now apply IH].
Qed.

Lemma StronglySorted_firstn {A : Type} (P : A -> A -> Prop) (n : nat) (l : list A) :
  StronglySorted P l -> StronglySorted P (firstn n l).
Proof.
  intros H. revert n. induction H as [|a l Hs IH Hall]; intros n.
  - rewrite firstn_nil. constructor.
  - destruct n as [|n]; simpl; [constructor|].
    constructor; [apply IH|].
    rewrite Forall_forall in *. intros x Hx. apply Hall.
    eapply firstn_In; eauto.
Qed.

Lemma StronglySorted_map {A B : Type} (P : B -> B -> Prop) (f : A -> B) (l : list A) :
  StronglySorted (fun a b => P (f a) (f b)) l -> StronglySorted P (map f l).
Proof.
  intros H. induction H as [|a l Hs IH Hall]; simpl; constructor; [exact IH|].
  rewrite Forall_forall in *. intros y Hy.
  apply in_map_iff in Hy as [x [<- Hx]]. now apply Hall.
Qed.

Lemma StronglySorted_unmap {A B : Type} (P : B -> B -> Prop) (f : A -> B) (l : list A) :
  StronglySorted P (map f l) -> StronglySorted (fun a b => P (f a) (f b)) l.
Proof.
  induction l as [|a l IH]; simpl; intros H; [constructor|].
  inversion H as [|? ? Hs Hall]; subst. constructor; [now apply IH|].
  rewrite Forall_forall in *. intros x Hx. apply Hall. now apply in_map.
Qed.

Lemma StronglySorted_weaken {A : Type} (P Q : A -> A -> Prop) (l : list A) :
  (forall a b, P a b -> Q a b) -> StronglySorted P l -> StronglySorted Q l.
Proof.
  intros HPQ H. induction H as [|a l Hs IH Hall]; constructor; [exact IH|].
  eapply Forall_impl; [|exact Hall]. intros b. apply HPQ.
Qed.

Lemma slice_to_In {A : Type} (l : list A) (k : Z) (x : A) :
  In x (slice_to l k) -> In x l.
Proof.
  unfold slice_to. destruct (0 <=? k)%Z; apply firstn_In.
Qed.

Lemma slice_to_pos {A : Type} (l : list A) (k : Z) :
  (0 <= k)%Z -> slice_to l k = firstn (Z.to_nat k) l.
Proof. intros H. unfold slice_to. apply Z.leb_le in H. now rewrite H. Qed.

Lemma slice_to_neg {A : Type} (l : list A) (k : Z) :
  (k < 0)%Z -> slice_to l k = firstn (List.length l - Z.to_nat (- k)) l.
Proof. intros H. unfold slice_to. apply Z.leb_gt in H. now rewrite H. Qed.

Lemma slice_to_all {A : Type} (l : list A) (k : Z) :
  (Z.of_nat (List.length l) <= k)%Z -> slice_to l k = l.
Proof.
  intros H. rewrite slice_to_pos by lia. apply firstn_all2. lia.
Qed.

(** ** What the contract of [argsort] gives [recommend_careers] *)

Section Ranking.
Context {rt : PyRuntime} {ok : PyRuntimeOk rt}.

Lemma argsort_length (xs : list R) : List.length (argsort xs) = List.length xs.
Proof. rewrite (Permutation_length (argsort_perm xs)). apply length_seq. Qed.

Lemma argsort_bound (xs : list R) (i : nat) :
  In i (argsort xs) -> i < List.length xs.
Proof.
  intros H. apply (Permutation_in _ (argsort_perm xs)) in H.
  apply in_seq in H. lia.
Qed.

(** The reversed argsort lists the indices from the largest value down. *)
Lemma rev_argsort_descending (xs : list R) :
  StronglySorted (fun i j => (nth j xs 0 <= nth i xs 0)%R) (rev (argsort xs)).
Proof.
  apply (StronglySorted_rev (fun i j => (nth i xs 0 <= nth j xs 0)%R)).
  apply (StronglySorted_unmap Rle (fun i => nth i xs 0%R)).
  apply Sorted_StronglySorted; [|apply argsort_sorted].
  intros a b c. apply Rle_trans.
Qed.

Lemma top_indices_bound (xs : list R) (k : Z) (i : nat) :
  In i (top_indices_of xs k) -> i < List.length xs.
Proof.
  unfold top_indices_of. intros H. apply slice_to_In, in_rev in H.
  now apply argsort_bound.
Qed.

Lemma top_indices_descending (xs : list R) (k : Z) :
  StronglySorted (fun i j => (nth j xs 0 <= nth i xs 0)%R) (top_indices_of xs k).
Proof.
  unfold top_indices_of, slice_to.
  destruct (0 <=? k)%Z; apply StronglySorted_firstn, rev_argsort_descending.
Qed.

Lemma top_indices_length_pos (xs : list R) (k : Z) :
  (0 <= k)%Z ->
  List.length (top_indices_of xs k) = Nat.min (Z.to_nat k) (List.length xs).
Proof.
  intros H. unfold top_indices_of. rewrite slice_to_pos by exact H.
  now rewrite length_firstn, length_rev, argsort_length.
Qed.

Lemma top_indices_length_neg (xs : list R) (k : Z) :
  (k < 0)%Z ->
  List.length (top_indices_of xs k) = List.length xs - Z.to_nat (- k).
Proof.
  intros H. unfold top_indices_of. rewrite slice_to_neg by exact H.
  rewrite length_firstn, length_rev, argsort_length. lia.
Qed.

Lemma top_indices_all (xs : list R) (k : Z) :
  (Z.of_nat (List.length xs) <= k)%Z ->
  Permutation (top_indices_of xs k) (seq 0 (List.length xs)).
Proof.
  intros H. unfold top_indices_of.
  rewrite slice_to_all by (rewrite length_rev, argsort_length; exact H).
  rewrite <- (argsort_perm xs). apply Permutation_sym, Permutation_rev.
Qed.

(** [recommend_careers] on an engine built by [init] always returns: one
    tuple per selected index. *)
Lemma recommend_value (db : dict CareerInfo) (self : Engine)
  (user_skills : list string) (top_n : Z) :
  init db = Returns self ->
  recommend_careers self user_skills top_n
  = Returns (map (recommendation_at self user_skills
                    (similarities_of self user_skills))
                 (top_indices_of (similarities_of self user_skills) top_n)).
Proof.
  intros Hinit. destruct (init_inv db self Hinit) as [Hdb [Hnames Hlen]].
  unfold recommend_careers, Sklearn.cosine_similarity, Sklearn.transform.
  simpl. rewrite map_map. fold (similarities_of self user_skills).
  rewrite recommend_loop_map.
  - reflexivity.
  - now rewrite Hnames, Hdb.
  - rewrite similarities_of_length, Hlen, Hnames.
    unfold dict_keys. now rewrite length_map.
  - intros i Hi. apply top_indices_bound in Hi.
    rewrite similarities_of_length, Hlen in Hi.
    rewrite Hnames. unfold dict_keys. now rewrite length_map.
Qed.

Lemma recommendations_sorted (self : Engine) (us : list string) (sims : list R)
  (tops : list nat) :
  StronglySorted (fun i j => (nth j sims 0 <= nth i sims 0)%R) tops ->
  StronglySorted score_ge (map (recommendation_at self us sims) tops).
Proof.
  intros H. apply StronglySorted_map.
  eapply StronglySorted_weaken; [|exact H].
  intros i j Hij. unfold score_ge. rewrite !rec_score_at.
  apply Rmult_le_compat_r; [lra | exact Hij].
Qed.

Lemma recommendation_names (self : Engine) (us : list string) (sims : list R)
  (tops : list nat) :
  map rec_name (map (recommendation_at self us sims) tops)
  = map (fun i => nth i (career_names self) "") tops.
Proof.
  rewrite map_map. apply map_ext. intros i. apply rec_name_at.
Qed.

End Ranking.

(** ** Ties under the stable argsort *)

Lemma StronglySorted_nth_error {A : Type} (P : A -> A -> Prop) (l : list A)
  (p q : nat) (a b : A) :
  StronglySorted P l -> p < q ->
  nth_error l p = Some a -> nth_error l q = Some b -> P a b.
Proof.
  intros H. revert p q. induction H as [|x l Hs IH Hall]; intros p q Hpq Hp Hq.
  - destruct p; discriminate.
  - destruct q as [|q]; [lia|]. simpl in Hq.
    destruct p as [|p]; simpl in Hp.
    + inversion Hp; subst. rewrite Forall_forall in Hall.
      apply Hall. eapply nth_error_In; eauto.
    + apply (IH p q); [lia | exact Hp | exact Hq].
Qed.

Section Stability.
Variable xs : list R.

Lemma stable_before_trans (i j k : nat) :
  stable_before xs i j -> stable_before xs j k -> stable_before xs i k.
Proof.
  unfold stable_before. intros [H1|[H1 H1']] [H2|[H2 H2']].
  - left. lra.
  - left. lra.
  - left. lra.
  - right. split; [lra | lia].
Qed.

Lemma insert_index_stable (i : nat) (acc : list nat) :
  StronglySorted (stable_before xs) acc ->
  (forall j, In j acc -> j < i) ->
  StronglySorted (stable_before xs) (insert_index xs i acc).
Proof.
  intros Hs. induction Hs as [|j r Hr IH Hall]; intros Hlt; simpl.
  - repeat constructor.
  - destruct (Rlt_dec (nth i xs 0%R) (nth j xs 0%R)) as [Hij|Hij].
    + constructor; [now constructor|].
      assert (Hb : stable_before xs i j) by now left.
      constructor; [exact Hb|].
      eapply Forall_impl; [|exact Hall].
      intros k Hk. eapply stable_before_trans; eauto.
    + constructor.
      * apply IH. intros k Hk. apply Hlt. now right.
      * apply Forall_forall. intros k Hk.
        apply (Permutation_in _ (insert_index_perm xs i r)) in Hk.
        destruct Hk as [<-|Hk].
        -- assert (Hji : j < i) by (apply Hlt; now left).
           apply Rnot_lt_le in Hij. unfold stable_before.
           destruct Hij as [Hlt'|Heq]; [now left | right; split; [now symmetry | exact Hji]].
        -- rewrite Forall_forall in Hall. now apply Hall.
Qed.

Lemma fold_insert_stable (len start : nat) (acc : list nat) :
  StronglySorted (stable_before xs) acc ->
  (forall j, In j acc -> j < start) ->
  StronglySorted (stable_before xs)
    (fold_left (fun a i => insert_index xs i a) (seq start len) acc).
Proof.
  revert start acc. induction len as [|len IH]; intros start acc Hs Hlt; simpl.
  - exact Hs.
  - apply IH.
    + now apply insert_index_stable.
    + intros j Hj. apply (Permutation_in _ (insert_index_perm xs start acc)) in Hj.
      destruct Hj as [<-|Hj]; [lia|]. apply Hlt in Hj. lia.
Qed.

(** The stable argsort lists equal values by increasing index. *)
Lemma stable_argsort_stable : StronglySorted (stable_before xs) (stable_argsort xs).
Proof.
  unfold stable_argsort. apply fold_insert_stable; [constructor | intros j []].
Qed.

(** On a row of equal values the stable argsort is the identity. *)
Lemma insert_index_flat (i : nat) (acc : list nat) :
  (forall k, nth k xs 0%R = 0%R) -> insert_index xs i acc = acc ++ [i].
Proof.
  intros Hflat. induction acc as [|j r IH]; simpl; [reflexivity|].
  destruct (Rlt_dec (nth i xs 0%R) (nth j xs 0%R)) as [Hlt|_].
  - rewrite !Hflat in Hlt. lra.
  - now rewrite IH.
Qed.

Lemma stable_argsort_flat :
  (forall k, nth k xs 0%R = 0%R) -> stable_argsort xs = seq 0 (List.length xs).
Proof.
  intros Hflat. unfold stable_argsort.
  assert (H : forall l acc,
             fold_left (fun a i => insert_index xs i a) l acc = acc ++ l).
  { induction l as [|i l IH]; intros acc; simpl.
    - now rewrite app_nil_r.
    - rewrite IH, insert_index_flat by exact Hflat. now rewrite <- app_assoc. }
  apply H.
Qed.

End Stability.

Lemma map_nth_seq {A : Type} (l : list A) (d : A) :
  map (fun i => nth i l d) (seq 0 (List.length l)) = l.
Proof.
  induction l as [|a l IH]; simpl; [reflexivity|].
  f_equal. rewrite <- seq_shift, map_map. exact IH.
Qed.

Lemma map_slice_to {A B : Type} (f : A -> B) (l : list A) (k : Z) :
  map f (slice_to l k) = slice_to (map f l) k.
Proof.
  unfold slice_to. rewrite length_map.
  destruct (0 <=? k)%Z; now rewrite firstn_map.
Qed.

(** ** The similarity row of an empty skill list *)

Lemma dot_zero_l (u v : list R) :
  Forall (fun x => x = 0%R) u -> Sklearn.dot u v = 0%R.
Proof.
  intros H. revert v. induction H as [|x u Hx Hu IH]; intros v.
  - reflexivity.
  - destruct v as [|y v]; [reflexivity|].
    unfold Sklearn.dot in *. simpl. rewrite IH, Hx. lra.
Qed.

Lemma normalize_zero (u : list R) :
  Forall (fun x => x = 0%R) u -> Sklearn.normalize u = u.
Proof.
  intros H. unfold Sklearn.normalize, Sklearn.l2norm.
  rewrite (dot_zero_l u u H), sqrt_0.
  destruct (Req_dec_T 0 0) as [_|Hne]; [reflexivity | contradiction].
Qed.

Lemma tokenize_join_nil : Sklearn.tokenize (PyStr.join " " []) = [].
Proof. reflexivity. Qed.

(** When no token of the user's text is in the vocabulary every similarity
    is zero: the zero row stays as it is under [normalize], no division
    takes place. *)
Lemma similarities_of_unseen (self : Engine) (us : list string) (i : nat) :
  Forall (fun x => x = 0%R)
    (Sklearn.count_row (Sklearn.vocabulary_ (vectorizer self))
       (Sklearn.tokenize (PyStr.join " " us))) ->
  nth i (similarities_of self us) 0%R = 0%R.
Proof.
  intros Hcount. unfold similarities_of, Sklearn.tfidf_row.
  assert (Hw : Forall (fun x => x = 0%R)
                 (map (fun p => (fst p * snd p)%R)
                    (combine
                       (Sklearn.count_row (Sklearn.vocabulary_ (vectorizer self))
                          (Sklearn.tokenize (PyStr.join " " us)))
                       (Sklearn.idf_ (vectorizer self))))).
  { revert Hcount. generalize (Sklearn.idf_ (vectorizer self)).
    generalize (Sklearn.count_row (Sklearn.vocabulary_ (vectorizer self))
                  (Sklearn.tokenize (PyStr.join " " us))).
    intros cs ws H. revert ws. induction H as [|c cs Hc Hcs IH]; intros ws; simpl.
    - constructor.
    - destruct ws as [|w ws]; simpl; constructor; [rewrite Hc; lra | apply IH]. }
  rewrite !(normalize_zero _ Hw).
  revert i. induction (skill_matrix self) as [|y m IH]; intros i; simpl.
  - now destruct i.
  - destruct i as [|i]; [now apply dot_zero_l | apply IH].
Qed.

Lemma count_row_nil (vocab : list string) :
  Forall (fun x => x = 0%R) (Sklearn.count_row vocab []).
Proof.
  unfold Sklearn.count_row. apply Forall_forall. intros x Hx.
  apply in_map_iff in Hx as [t [<- _]]. reflexivity.
Qed.

Lemma similarities_of_nil (self : Engine) (i : nat) :
  nth i (similarities_of self []) 0%R = 0%R.
Proof.
  apply similarities_of_unseen. rewrite tokenize_join_nil. apply count_row_nil.
Qed.

(** ** Ranking: the claims *)

Section RankingClaims.
Context {rt : PyRuntime} {ok : PyRuntimeOk rt}.

(** C3 (amended). For every user skill list and every positive [top_n],
    [recommend_careers] returns [min top_n (size of the catalog)] entries,
    hence at most [top_n], every earlier entry scoring at least as much as
    every later one; when [top_n] is at least the size of the catalog every
    career is returned. Entries with equal scores come in the reverse of the
    order in which [argsort] lists their indices: under the stable argsort,
    in the reverse of catalog insertion order. *)
Theorem recommend_top_n_sorted (db : dict CareerInfo) (self : Engine)
  (user_skills : list string) (top_n : Z) :
  init db = Returns self ->
  (0 < top_n)%Z ->
  exists recs,
    recommend_careers self user_skills top_n = Returns recs
    /\ List.length recs = Nat.min (Z.to_nat top_n) (List.length db)
    /\ (Z.of_nat (List.length recs) <= top_n)%Z
    /\ StronglySorted score_ge recs
    /\ (forall r, In r recs -> In (rec_name r) (dict_keys db))
    /\ ((Z.of_nat (List.length db) <= top_n)%Z ->
        Permutation (map rec_name recs) (dict_keys db))
    /\ recs = map (recommendation_at self user_skills
                     (similarities_of self user_skills))
                  (firstn (Z.to_nat top_n)
                     (rev (argsort (similarities_of self user_skills))))
    /\ ((forall xs, argsort xs = stable_argsort xs) ->
        forall p q rp rq,
          p < q ->
          nth_error recs p = Some rp -> nth_error recs q = Some rq ->
          rec_score rp = rec_score rq ->
          exists i j,
            j < i
            /\ nth_error (dict_keys db) i = Some (rec_name rp)
            /\ nth_error (dict_keys db) j = Some (rec_name rq)).
Proof.
  intros Hinit Hpos.
  destruct (init_inv db self Hinit) as [Hdb [Hnames Hlen]].
  set (sims := similarities_of self user_skills).
  assert (Hsims : List.length sims = List.length db).
  { unfold sims. now rewrite similarities_of_length. }
  assert (Hkeys : List.length (dict_keys db) = List.length db).
  { unfold dict_keys. apply length_map. }
  exists (map (recommendation_at self user_skills sims) (top_indices_of sims top_n)).
  split; [apply (recommend_value db); exact Hinit|].
  assert (Hlength : List.length (map (recommendation_at self user_skills sims)
                                     (top_indices_of sims top_n))
                    = Nat.min (Z.to_nat top_n) (List.length db)).
  { rewrite length_map, top_indices_length_pos by lia. now rewrite Hsims. }
  split; [exact Hlength|].
  split; [rewrite Hlength; lia|].
  split; [apply recommendations_sorted, top_indices_descending|].
  split.
  { intros r Hr. apply in_map_iff in Hr as [i [<- Hi]].
    rewrite rec_name_at, Hnames. apply nth_In.
    apply top_indices_bound in Hi. lia. }
  split.
  { intros Hall. rewrite recommendation_names, Hnames.
    rewrite (top_indices_all sims top_n) by lia.
    rewrite Hsims, <- Hkeys. now rewrite map_nth_seq. }
  split.
  { unfold top_indices_of. now rewrite slice_to_pos by lia. }
  intros Hstable p q rp rq Hpq Hp Hq Hscore.
  rewrite nth_error_map in Hp, Hq.
  destruct (nth_error (top_indices_of sims top_n) p) as [i|] eqn:Ei; [|discriminate].
  destruct (nth_error (top_indices_of sims top_n) q) as [j|] eqn:Ej; [|discriminate].
  simpl in Hp, Hq. inversion Hp; subst rp. inversion Hq; subst rq.
  rewrite !rec_score_at in Hscore. rewrite !rec_name_at, Hnames.
  assert (Hi : i < List.length sims).
  { eapply top_indices_bound, nth_error_In; eauto. }
  assert (Hj : j < List.length sims).
  { eapply top_indices_bound, nth_error_In; eauto. }
  assert (Hord : stable_before sims j i).
  { apply (StronglySorted_nth_error (fun a b => stable_before sims b a)
             (top_indices_of sims top_n) p q i j); [|exact Hpq|exact Ei|exact Ej].
    unfold top_indices_of, slice_to.
    destruct (0 <=? top_n)%Z; apply StronglySorted_firstn, StronglySorted_rev;
      rewrite Hstable; apply stable_argsort_stable. }
  exists i, j. split.
  - destruct Hord as [Hlt|[_ Hlt]]; [lra | exact Hlt].
  - split; apply nth_error_nth'; lia.
Qed.

(** C7 (amended). For every user skill list, [recommend_careers] with a
    non-positive [top_n] raises nothing: with [top_n = 0] it returns the
    empty list, and with a negative [top_n] it returns the ranking without
    its last [- top_n] entries. The ranking is what the call returns when
    asked for as many careers as the catalog holds: every career, from the
    reversed argsort of the similarities. *)
Theorem recommend_nonpositive_top_n (db : dict CareerInfo) (self : Engine)
  (user_skills : list string) (top_n : Z) :
  init db = Returns self ->
  (top_n <= 0)%Z ->
  exists recs ranking,
    recommend_careers self user_skills top_n = Returns recs
    /\ recommend_careers self user_skills (Z.of_nat (List.length db))
       = Returns ranking
    /\ ranking = map (recommendation_at self user_skills
                        (similarities_of self user_skills))
                     (rev (argsort (similarities_of self user_skills)))
    /\ List.length ranking = List.length db
    /\ (top_n = 0%Z -> recs = [])
    /\ ((top_n < 0)%Z ->
        recs = firstn (List.length ranking - Z.to_nat (- top_n)) ranking
        /\ List.length recs = List.length db - Z.to_nat (- top_n)).
Proof.
  intros Hinit Hle.
  destruct (init_inv db self Hinit) as [Hdb [Hnames Hlen]].
  set (sims := similarities_of self user_skills).
  assert (Hsims : List.length sims = List.length db).
  { unfold sims. now rewrite similarities_of_length. }
  assert (Hfull : top_indices_of sims (Z.of_nat (List.length db))
                  = rev (argsort sims)).
  { unfold top_indices_of. apply slice_to_all.
    rewrite length_rev, argsort_length, Hsims. lia. }
  exists (map (recommendation_at self user_skills sims)
              (top_indices_of sims top_n)),
         (map (recommendation_at self user_skills sims) (rev (argsort sims))).
  split; [apply (recommend_value db); exact Hinit|].
  split; [rewrite <- Hfull; apply (recommend_value db); exact Hinit|].
  split; [reflexivity|].
  split; [now rewrite length_map, length_rev, argsort_length|].
  split.
  - intros ->. reflexivity.
  - intros Hneg. split.
    + rewrite firstn_map. f_equal.
      unfold top_indices_of. rewrite slice_to_neg by exact Hneg.
      now rewrite length_map.
    + rewrite length_map, top_indices_length_neg by exact Hneg.
      now rewrite Hsims.
Qed.

(** C6 (amended). For the empty user skill list [recommend_careers] raises
    nothing, whatever [top_n]: every similarity is zero without any
    division, and every returned career has score 0. It returns
    [min top_n (size of the catalog)] careers for [top_n >= 0], hence every
    career only when [top_n] is at least the size of the catalog; their
    order is the reverse of the order in which [argsort] lists the indices
    of a row of zeros: under the stable argsort, the reverse of catalog
    order. *)
Theorem recommend_empty_skills (db : dict CareerInfo) (self : Engine) (top_n : Z) :
  init db = Returns self ->
  exists recs,
    recommend_careers self [] top_n = Returns recs
    /\ (forall r, In r recs -> rec_score r = 0%R)
    /\ (forall r, In r recs -> In (rec_name r) (dict_keys db))
    /\ ((0 <= top_n)%Z ->
        List.length recs = Nat.min (Z.to_nat top_n) (List.length db))
    /\ ((Z.of_nat (List.length db) <= top_n)%Z ->
        Permutation (map rec_name recs) (dict_keys db))
    /\ ((forall xs, argsort xs = stable_argsort xs) ->
        map rec_name recs = slice_to (rev (dict_keys db)) top_n).
Proof.
  intros Hinit.
  destruct (init_inv db self Hinit) as [Hdb [Hnames Hlen]].
  set (sims := similarities_of self []).
  assert (Hsims : List.length sims = List.length db).
  { unfold sims. now rewrite similarities_of_length. }
  assert (Hkeys : List.length (dict_keys db) = List.length db).
  { unfold dict_keys. apply length_map. }
  exists (map (recommendation_at self [] sims) (top_indices_of sims top_n)).
  split; [apply (recommend_value db); exact Hinit|].
  split.
  { intros r Hr. apply in_map_iff in Hr as [i [<- _]].
    rewrite rec_score_at. unfold sims. rewrite similarities_of_nil. lra. }
  split.
  { intros r Hr. apply in_map_iff in Hr as [i [<- Hi]].
    rewrite rec_name_at, Hnames. apply nth_In.
    apply top_indices_bound in Hi. lia. }
  split.
  { intros Hpos. rewrite length_map, top_indices_length_pos by exact Hpos.
    now rewrite Hsims. }
  split.
  { intros Hall. rewrite recommendation_names, Hnames.
    rewrite (top_indices_all sims top_n) by lia.
    rewrite Hsims, <- Hkeys. now rewrite map_nth_seq. }
  intros Hstable. rewrite recommendation_names, Hnames.
  unfold top_indices_of. rewrite Hstable, stable_argsort_flat
    by (intros k; apply similarities_of_nil).
  rewrite map_slice_to, map_rev. fold sims.
  rewrite Hsims, <- Hkeys. now rewrite map_nth_seq.
Qed.

End RankingClaims.

(** ** The user's text is a bag of tokens *)

Lemma lower_app (a b : string) :
  PyStr.lower (a ++ b) = (PyStr.lower a ++ PyStr.lower b)%string.
Proof. induction a as [|c a IH]; simpl; [reflexivity | now rewrite IH]. Qed.

(** A blank ends the current run: the words on its two sides are split
    independently. *)
Lemma split_words_blank (a b run : string) :
  Sklearn.split_words (a ++ String " " b) run
  = Sklearn.split_words a run ++ Sklearn.split_words b EmptyString.
Proof.
  revert run. induction a as [|c a IH]; intros run; simpl.
  - reflexivity.
  - destruct (Sklearn.is_word_char c).
    + apply IH.
    + rewrite IH. now rewrite app_assoc.
Qed.

Lemma tokenize_blank (a b : string) :
  Sklearn.tokenize (a ++ String " " b) = Sklearn.tokenize a ++ Sklearn.tokenize b.
Proof.
  unfold Sklearn.tokenize. rewrite lower_app. simpl PyStr.lower.
  change (PyStr.lower_char " ") with " "%char. apply split_words_blank.
Qed.

Lemma tokenize_join (l : list string) :
  Sklearn.tokenize (PyStr.join " " l) = flat_map Sklearn.tokenize l.
Proof.
  unfold PyStr.join. induction l as [|x l IH]; [reflexivity|].
  destruct l as [|y l].
  - simpl. now rewrite app_nil_r.
  - change (String.concat " " (x :: y :: l))
      with (x ++ String " " (String.concat " " (y :: l)))%string.
    rewrite tokenize_blank, IH. reflexivity.
Qed.

Lemma count_row_perm (vocab d1 d2 : list string) :
  Permutation d1 d2 -> Sklearn.count_row vocab d1 = Sklearn.count_row vocab d2.
Proof.
  intros H. unfold Sklearn.count_row. apply map_ext. intros t.
  f_equal. now apply Permutation_count_occ.
Qed.

Lemma similarities_of_perm (self : Engine) (us us' : list string) :
  Permutation us us' -> similarities_of self us = similarities_of self us'.
Proof.
  intros H. unfold similarities_of, Sklearn.tfidf_row.
  rewrite !tokenize_join.
  rewrite (count_row_perm _ (flat_map Sklearn.tokenize us)
             (flat_map Sklearn.tokenize us')); [reflexivity|].
  now apply Permutation_flat_map.
Qed.

Section SameSkills.
Context {rt : PyRuntime} {ok : PyRuntimeOk rt}.

(** The report depends on the user skills through their set only. *)
Lemma report_of_same_set (required us us' : list string) :
  (forall x, In x us <-> In x us') ->
  report_of required (set_order (map normalize_user us))
  = report_of required (set_order (map normalize_user us')).
Proof.
  intros Hsame.
  assert (Hf : forall r,
             skill_is_matched (set_order (map normalize_user us)) r
             = skill_is_matched (set_order (map normalize_user us')) r).
  { intros r. apply eq_iff_eq_true. rewrite !skill_is_matched_iff.
    split; apply match_criterion_incl; intros x Hx; now apply Hsame. }
  unfold report_of.
  rewrite (filter_ext _ _ Hf).
  rewrite (filter_ext (fun s => negb (skill_is_matched _ s))
             (fun s => negb (skill_is_matched
                               (set_order (map normalize_user us')) s))).
  - reflexivity.
  - intros r. now rewrite Hf.
Qed.

Lemma analyze_same_set (self : Engine) (us us' : list string) (name : string) :
  (forall x, In x us <-> In x us') ->
  analyze_skill_gap self us name = analyze_skill_gap self us' name.
Proof.
  intros Hsame.
  destruct (dict_get (career_database self) name) as [info|] eqn:Hget.
  - rewrite !(analyze_known self _ name info Hget).
    now rewrite (report_of_same_set _ us us' Hsame).
  - now rewrite !(analyze_unknown self _ name Hget).
Qed.

Lemma recommendation_at_same_set (self : Engine) (us us' : list string)
  (sims : list R) (idx : nat) :
  (forall x, In x us <-> In x us') ->
  recommendation_at self us sims idx = recommendation_at self us' sims idx.
Proof.
  intros Hsame. unfold recommendation_at.
  destruct (dict_get _ _); [|reflexivity].
  now rewrite (report_of_same_set _ us us' Hsame).
Qed.

(** C5 (amended). [recommend_careers] is a function of the engine and the
    user skill list, and two lists that differ only in the order of their
    elements give the same recommendations, scores included. Two lists with
    the same elements but different repetitions give the same gap analysis
    for every career; their similarity scores are not claimed equal (the
    text that is vectorized counts each repetition). *)
Theorem recommend_order_invariant (db : dict CareerInfo) (self : Engine)
  (us us' : list string) (top_n : Z) :
  init db = Returns self ->
  (Permutation us us' ->
   recommend_careers self us top_n = recommend_careers self us' top_n)
  /\ ((forall x, In x us <-> In x us') ->
      forall name,
        analyze_skill_gap self us name = analyze_skill_gap self us' name).
Proof.
  intros Hinit. split.
  - intros Hperm. rewrite !(recommend_value db self _ top_n Hinit).
    rewrite (similarities_of_perm self us us' Hperm).
    f_equal. apply map_ext. intros idx.
    apply recommendation_at_same_set.
    intros x. split; apply Permutation_in; [exact Hperm | now apply Permutation_sym].
  - intros Hsame name. now apply analyze_same_set.
Qed.

End SameSkills.

(** ** Engines of concrete catalogs *)

Lemma init_engine_for (db : dict CareerInfo) :
  has_vocabulary db = true -> init db = Returns (engine_for db).
Proof.
  intros H. unfold engine_for.
  assert (Hinit : exists e, init db = Returns e).
  { unfold init, build_model, Sklearn.fit_transform, Sklearn.fit.
    unfold has_vocabulary in H.
    destruct (Sklearn.sorted _) as [|t vocab]; [discriminate|].
    simpl. eexists. reflexivity. }
  destruct Hinit as [e He]. now rewrite He.
Qed.

(** ** Cosine similarity in closed form *)

Lemma dot_scale (a b : R) (u v : list R) :
  a <> 0%R -> b <> 0%R ->
  Sklearn.dot (map (fun x => (x / a)%R) u) (map (fun y => (y / b)%R) v)
  = (Sklearn.dot u v / (a * b))%R.
Proof.
  intros Ha Hb. revert v. unfold Sklearn.dot.
  induction u as [|x u IH]; intros v; simpl.
  - field. now split.
  - destruct v as [|y v]; simpl.
    + field. now split.
    + rewrite IH. field. now split.
Qed.

Lemma dot_self_nonneg (u : list R) : (0 <= Sklearn.dot u u)%R.
Proof.
  unfold Sklearn.dot. induction u as [|x u IH]; simpl; [lra|].
  assert (0 <= x * x)%R by nra. lra.
Qed.

Lemma normalize_nonzero (u : list R) :
  Sklearn.l2norm u <> 0%R ->
  Sklearn.normalize u = map (fun x => (x / Sklearn.l2norm u)%R) u.
Proof.
  intros H. unfold Sklearn.normalize.
  destruct (Req_dec_T (Sklearn.l2norm u) 0) as [H0|_]; [contradiction | reflexivity].
Qed.

Lemma l2norm_normalize (u : list R) :
  Sklearn.l2norm u <> 0%R -> Sklearn.l2norm (Sklearn.normalize u) = 1%R.
Proof.
  intros H. rewrite (normalize_nonzero u H).
  unfold Sklearn.l2norm at 1. rewrite (dot_scale _ _ u u H H).
  unfold Sklearn.l2norm. rewrite sqrt_sqrt by apply dot_self_nonneg.
  assert (Hd : Sklearn.dot u u <> 0%R).
  { intros Hd. apply H. unfold Sklearn.l2norm. rewrite Hd. apply sqrt_0. }
  replace (Sklearn.dot u u / Sklearn.dot u u)%R with 1%R by (field; exact Hd).
  apply sqrt_1.
Qed.

Lemma normalize_unit (u : list R) :
  Sklearn.l2norm u = 1%R -> Sklearn.normalize u = u.
Proof.
  intros H. rewrite normalize_nonzero by (rewrite H; lra).
  rewrite H. rewrite <- (map_id u) at 2. apply map_ext. intros x. field.
Qed.

(** The entry [cosine_similarity] computes from two rows that went through
    [normalize] once already, as the rows of the vectorizer have. *)
Lemma cosine_entry (a b : list R) :
  Sklearn.l2norm a <> 0%R -> Sklearn.l2norm b <> 0%R ->
  Sklearn.dot (Sklearn.normalize (Sklearn.normalize a))
              (Sklearn.normalize (Sklearn.normalize b))
  = (Sklearn.dot a b / (Sklearn.l2norm a * Sklearn.l2norm b))%R.
Proof.
  intros Ha Hb.
  rewrite (normalize_unit _ (l2norm_normalize a Ha)).
  rewrite (normalize_unit _ (l2norm_normalize b Hb)).
  rewrite (normalize_nonzero a Ha), (normalize_nonzero b Hb).
  now apply dot_scale.
Qed.

Lemma idf_weight_all_docs (n : nat) : Sklearn.idf_weight n n = 1%R.
Proof.
  unfold Sklearn.idf_weight.
  replace (INR (1 + n) / INR (1 + n))%R with 1%R.
  - rewrite ln_1. lra.
  - field. apply not_0_INR. lia.
Qed.

(** ** Rankings on concrete catalogs *)

(** Under the stable argsort a row of zeros ranks the catalog backwards. *)
Lemma recommend_flat {rt : PyRuntime} {ok : PyRuntimeOk rt}
  (db : dict CareerInfo) (self : Engine) (us : list string) (top_n : Z) :
  init db = Returns self ->
  (forall xs, argsort xs = stable_argsort xs) ->
  (forall i, nth i (similarities_of self us) 0%R = 0%R) ->
  exists recs,
    recommend_careers self us top_n = Returns recs
    /\ map rec_name recs = slice_to (rev (dict_keys db)) top_n
    /\ (forall r, In r recs -> rec_score r = 0%R).
Proof.
  intros Hinit Hstable Hflat.
  destruct (init_inv db self Hinit) as [Hdb [Hnames Hlen]].
  eexists. split; [apply (recommend_value db); exact Hinit|]. split.
  - rewrite recommendation_names, Hnames. unfold top_indices_of.
    rewrite Hstable, (stable_argsort_flat _ Hflat).
    rewrite map_slice_to, map_rev, similarities_of_length, Hlen.
    replace (List.length db) with (List.length (dict_keys db))
      by (unfold dict_keys; apply length_map).
    now rewrite map_nth_seq.
  - intros r Hr. apply in_map_iff in Hr as [i [<- _]].
    rewrite rec_score_at, Hflat. lra.
Qed.

Lemma single_weights (c1 c2 : R) :
  map (fun p => (fst p * snd p)%R)
      (combine [c1; c2] [Sklearn.idf_weight 1 1; Sklearn.idf_weight 1 1])
  = [c1; c2].
Proof. rewrite idf_weight_all_docs. simpl. repeat f_equal; lra. Qed.

Lemma l2norm_pair (c1 c2 : R) :
  Sklearn.l2norm [c1; c2] = sqrt (c1 * c1 + c2 * c2).
Proof. unfold Sklearn.l2norm, Sklearn.dot. simpl. f_equal. lra. Qed.

(** The similarity to the one career of [single_catalog] of a text in which
    "python" occurs [c1] times and "sql" [c2] times. *)
Lemma single_similarity (us : list string) (c1 c2 : R) :
  Sklearn.count_row ["python"; "sql"] (Sklearn.tokenize (PyStr.join " " us))
  = [c1; c2] ->
  (0 < c1 * c1 + c2 * c2)%R ->
  similarities_of (engine_for single_catalog) us
  = [((c1 + c2) / (sqrt (c1 * c1 + c2 * c2) * sqrt 2))%R].
Proof.
  intros Hrow Hpos.
  assert (Hv : vectorizer (engine_for single_catalog) = single_vectorizer)
    by reflexivity.
  assert (Hm : skill_matrix (engine_for single_catalog)
               = [Sklearn.tfidf_row single_vectorizer ["python"; "sql"]])
    by reflexivity.
  assert (Hc : Sklearn.count_row ["python"; "sql"] ["python"; "sql"]
               = [1%R; 1%R]) by reflexivity.
  unfold similarities_of. rewrite Hv, Hm. cbn [map].
  unfold Sklearn.tfidf_row.
  cbn [Sklearn.vocabulary_ Sklearn.idf_ single_vectorizer].
  rewrite Hrow, Hc, !single_weights.
  assert (Hn1 : Sklearn.l2norm [c1; c2] <> 0%R).
  { rewrite l2norm_pair. intros H0. apply sqrt_eq_0 in H0; lra. }
  assert (Hn2 : Sklearn.l2norm [1%R; 1%R] <> 0%R).
  { rewrite l2norm_pair. intros H0. apply sqrt_eq_0 in H0; lra. }
  rewrite (cosine_entry _ _ Hn1 Hn2), !l2norm_pair.
  f_equal. unfold Sklearn.dot. simpl.
  replace (1 * 1 + 1 * 1)%R with 2%R by lra. f_equal. lra.
Qed.

Lemma similarity_python_sql :
  similarities_of (engine_for single_catalog) ["Python"; "SQL"] = [1%R].
Proof.
  rewrite (single_similarity _ 1 1); [|reflexivity|lra].
  f_equal. replace (1 * 1 + 1 * 1)%R with 2%R by lra.
  rewrite sqrt_sqrt by lra. lra.
Qed.

Lemma similarity_python_python_sql :
  similarities_of (engine_for single_catalog) ["Python"; "Python"; "SQL"]
  = [(3 / sqrt 10)%R].
Proof.
  rewrite (single_similarity _ 2 1); [|reflexivity|lra].
  f_equal. replace (2 * 2 + 1 * 1)%R with 5%R by lra.
  rewrite <- sqrt_mult by lra. replace (5 * 2)%R with 10%R by lra.
  f_equal. lra.
Qed.

Lemma three_lt_sqrt10 : (3 < sqrt 10)%R.
Proof.
  replace 3%R with (sqrt 9).
  - apply sqrt_lt_1; lra.
  - replace 9%R with (3 * 3)%R by lra. apply sqrt_square. lra.
Qed.

Lemma init_small : init small_catalog = Returns (engine_for small_catalog).
Proof. apply init_engine_for. reflexivity. Qed.

Lemma init_single : init single_catalog = Returns (engine_for single_catalog).
Proof. apply init_engine_for. reflexivity. Qed.

Lemma init_shipped : init CAREER_DATABASE = Returns (engine_for CAREER_DATABASE).
Proof. apply init_engine_for. vm_compute. reflexivity. Qed.

(** No token of ["Cooking"] is in the vocabulary of [small_catalog]. *)
Lemma cooking_similarities (i : nat) :
  nth i (similarities_of (engine_for small_catalog) ["Cooking"]) 0%R = 0%R.
Proof.
  apply similarities_of_unseen.
  assert (Hvocab : Sklearn.vocabulary_ (vectorizer (engine_for small_catalog))
                   = ["figma"; "prototyping"; "python"; "sql"]) by reflexivity.
  rewrite Hvocab. repeat constructor.
Qed.

Lemma recommend_top_n_sorted_witness :
  (exists recs,
     recommend_careers (rt := declared_order_runtime) (engine_for small_catalog)
       ["Python"] 5 = Returns recs
     /\ List.length recs = 2
     /\ StronglySorted score_ge recs
     /\ Permutation (map rec_name recs) ["Analyst"; "Designer"])
  /\ (exists r0 r1,
        recommend_careers (rt := declared_order_runtime)
          (engine_for small_catalog) ["Cooking"] 5 = Returns [r0; r1]
        /\ StronglySorted score_ge [r0; r1]
        /\ rec_score r0 = rec_score r1
        /\ rec_name r0 = "Designer"
        /\ rec_name r1 = "Analyst").
Proof.
  split.
  - destruct (@recommend_top_n_sorted declared_order_runtime
                declared_order_runtime_ok small_catalog
                (engine_for small_catalog) ["Python"] 5%Z init_small
                ltac:(lia))
      as [recs [H1 [H2 [_ [H3 [_ [H4 _]]]]]]].
    exists recs. split; [exact H1|]. split; [exact H2|]. split; [exact H3|].
    apply H4. simpl. lia.
  - destruct (@recommend_top_n_sorted declared_order_runtime
                declared_order_runtime_ok small_catalog
                (engine_for small_catalog) ["Cooking"] 5%Z init_small
                ltac:(lia))
      as [recs [H1 [H2 [_ [H3 [_ [_ [H5 H6]]]]]]]].
    assert (Hz : forall r, In r recs -> rec_score r = 0%R).
    { intros r Hr. rewrite H5 in Hr. apply in_map_iff in Hr as [i [<- _]].
      rewrite rec_score_at, cooking_similarities. lra. }
    clear H5.
    change (Nat.min (Z.to_nat 5) (List.length small_catalog)) with 2 in H2.
    destruct recs as [|r0 [|r1 [|r2 recs]]]; try discriminate.
    assert (Hscore : rec_score r0 = rec_score r1).
    { rewrite (Hz r0), (Hz r1); [reflexivity | right; now left | now left]. }
    destruct (H6 (fun xs => eq_refl) 0 1 r0 r1 ltac:(lia) eq_refl eq_refl Hscore)
      as [i [j [Hji [Hi Hj]]]].
    exists r0, r1. split; [exact H1|]. split; [exact H3|].
    split; [exact Hscore|].
    change (dict_keys small_catalog) with ["Analyst"; "Designer"] in Hi, Hj.
    destruct i as [|[|i]]; [lia | | destruct i; discriminate].
    destruct j as [|j]; [|lia].
    simpl in Hi, Hj. split; congruence.
Defined.

(** C3, as stated, fails on ties: a skill unknown to the vocabulary scores
    every career 0, and under the stable argsort the two careers of the
    catalog come back in the reverse of their insertion order. *)
Lemma recommend_ties_reversed :
  dict_keys small_catalog = ["Analyst"; "Designer"]
  /\ exists recs,
       recommend_careers (rt := declared_order_runtime)
         (engine_for small_catalog) ["Cooking"] 5 = Returns recs
       /\ map rec_name recs = ["Designer"; "Analyst"]
       /\ (forall r, In r recs -> rec_score r = 0%R).
Proof.
  split; [reflexivity|].
  destruct (@recommend_flat declared_order_runtime declared_order_runtime_ok
              small_catalog (engine_for small_catalog) ["Cooking"] 5%Z
              init_small (fun xs => eq_refl))
    as [recs [H1 [H2 H3]]].
  - intros i. apply similarities_of_unseen.
    assert (Hvocab : Sklearn.vocabulary_ (vectorizer (engine_for small_catalog))
                     = ["figma"; "prototyping"; "python"; "sql"]) by reflexivity.
    rewrite Hvocab. repeat constructor.
  - exists recs. split; [exact H1|]. split; [exact H2 | exact H3].
Qed.

Lemma recommend_nonpositive_top_n_witness :
  exists recs ranking,
    recommend_careers (rt := declared_order_runtime) (engine_for small_catalog)
      ["Python"] (-1) = Returns recs
    /\ recommend_careers (rt := declared_order_runtime)
         (engine_for small_catalog) ["Python"] 2 = Returns ranking
    /\ List.length ranking = 2
    /\ recs = firstn 1 ranking
    /\ List.length recs = 1.
Proof.
  destruct (@recommend_nonpositive_top_n declared_order_runtime
              declared_order_runtime_ok small_catalog
              (engine_for small_catalog) ["Python"] (-1)%Z init_small
              ltac:(lia))
    as [recs [ranking [H1 [H2 [_ [H3 [_ H4]]]]]]].
  destruct (H4 ltac:(lia)) as [H5 H6].
  exists recs, ranking. split; [exact H1|]. split; [exact H2|].
  split; [exact H3|]. split; [|exact H6].
  rewrite H5. change (List.length small_catalog) with 2 in H3.
  rewrite H3. reflexivity.
Defined.

(** C7, as stated, fails: with [top_n = 0] the call returns the empty list,
    and with [top_n = -1] it returns one of the two careers; no error is
    raised. *)
Lemma nonpositive_top_n_not_raised :
  recommend_careers (rt := declared_order_runtime) (engine_for small_catalog)
    ["Python"] 0 = Returns []
  /\ recommend_careers (rt := declared_order_runtime) (engine_for small_catalog)
       ["Python"] 0 <> Raises InvalidArgument
  /\ exists recs,
       recommend_careers (rt := declared_order_runtime)
         (engine_for small_catalog) ["Python"] (-1) = Returns recs
       /\ List.length recs = 1.
Proof.
  assert (H0 : recommend_careers (rt := declared_order_runtime)
                 (engine_for small_catalog) ["Python"] 0 = Returns []).
  { rewrite (@recommend_value declared_order_runtime declared_order_runtime_ok
               small_catalog _ _ _ init_small).
    reflexivity. }
  split; [exact H0|]. split; [rewrite H0; discriminate|].
  eexists. split.
  - apply (@recommend_value declared_order_runtime declared_order_runtime_ok
             small_catalog _ _ _ init_small).
  - rewrite length_map.
    rewrite (@top_indices_length_neg declared_order_runtime
               declared_order_runtime_ok) by lia.
    rewrite similarities_of_length.
    destruct (init_inv _ _ init_small) as [_ [_ Hlen]]. rewrite Hlen. reflexivity.
Qed.

Lemma recommend_empty_skills_witness :
  exists recs,
    recommend_careers (rt := declared_order_runtime) (engine_for small_catalog)
      [] 5 = Returns recs
    /\ (forall r, In r recs -> rec_score r = 0%R)
    /\ map rec_name recs = ["Designer"; "Analyst"].
Proof.
  destruct (@recommend_empty_skills declared_order_runtime
              declared_order_runtime_ok small_catalog
              (engine_for small_catalog) 5%Z init_small)
    as [recs [H1 [H2 [_ [_ [_ H3]]]]]].
  exists recs. split; [exact H1|]. split; [exact H2|].
  exact (H3 (fun xs => eq_refl)).
Defined.

(** C6, as stated, fails: on the shipped catalog of ten careers the empty
    skill list with the default [top_n = 5] returns five careers, not all
    of them, and under the stable argsort they are the last five of the
    catalog in reverse order. *)
Lemma empty_skills_not_catalog_order :
  List.length CAREER_DATABASE = 10
  /\ firstn 5 (dict_keys CAREER_DATABASE)
     = ["Data Scientist"; "Software Engineer"; "Product Manager";
        "DevOps Engineer"; "UX Designer"]
  /\ exists recs,
       recommend_careers (rt := declared_order_runtime)
         (engine_for CAREER_DATABASE) [] 5 = Returns recs
       /\ map rec_name recs
          = ["Data Engineer"; "Cybersecurity Specialist"; "Business Analyst";
             "AI Engineer"; "Cloud Architect"]
       /\ (forall r, In r recs -> rec_score r = 0%R).
Proof.
  split; [reflexivity|]. split; [reflexivity|].
  destruct (@recommend_flat declared_order_runtime declared_order_runtime_ok
              CAREER_DATABASE (engine_for CAREER_DATABASE) [] 5%Z
              init_shipped (fun xs => eq_refl)
              (similarities_of_nil (engine_for CAREER_DATABASE)))
    as [recs [H1 [H2 H3]]].
  exists recs. split; [exact H1|]. split; [exact H2 | exact H3].
Qed.

Lemma recommend_order_invariant_witness :
  recommend_careers (rt := declared_order_runtime) (engine_for small_catalog)
    ["Python"; "Figma"] 5
  = recommend_careers (rt := declared_order_runtime) (engine_for small_catalog)
      ["Figma"; "Python"] 5
  /\ analyze_skill_gap (rt := declared_order_runtime) (engine_for small_catalog)
       ["Python"; "Figma"] "Analyst"
     = analyze_skill_gap (rt := declared_order_runtime) (engine_for small_catalog)
         ["Figma"; "Python"; "Figma"] "Analyst".
Proof.
  destruct (@recommend_order_invariant declared_order_runtime
              declared_order_runtime_ok small_catalog
              (engine_for small_catalog) ["Python"; "Figma"] ["Figma"; "Python"]
              5%Z init_small) as [H1 _].
  destruct (@recommend_order_invariant declared_order_runtime
              declared_order_runtime_ok small_catalog
              (engine_for small_catalog) ["Python"; "Figma"]
              ["Figma"; "Python"; "Figma"] 5%Z init_small) as [_ H2].
  split.
  - apply H1. apply perm_swap.
  - apply H2. intros x. simpl. tauto.
Defined.

(** C5, as stated, fails on repeated elements: ["Python"; "SQL"] and
    ["Python"; "Python"; "SQL"] denote the same set, yet the one career of
    the catalog scores 100 for the first and 300 / sqrt 10 (about 94.87) for
    the second, because the vectorized text counts "python" twice. *)
Lemma recommend_counts_repetitions :
  (forall x, In x ["Python"; "SQL"] <-> In x ["Python"; "Python"; "SQL"])
  /\ exists r1 r2,
       recommend_careers (rt := declared_order_runtime)
         (engine_for single_catalog) ["Python"; "SQL"] 5 = Returns [r1]
       /\ recommend_careers (rt := declared_order_runtime)
            (engine_for single_catalog) ["Python"; "Python"; "SQL"] 5
          = Returns [r2]
       /\ rec_name r1 = "Analyst" /\ rec_name r2 = "Analyst"
       /\ rec_score r1 = 100%R
       /\ rec_score r2 = (300 / sqrt 10)%R
       /\ rec_score r1 <> rec_score r2.
Proof.
  split; [intros x; simpl; tauto|].
  assert (Hs := three_lt_sqrt10).
  assert (Hscore1 : forall us,
             rec_score (recommendation_at (rt := declared_order_runtime)
                          (engine_for single_catalog) us [1%R] 0) = 100%R).
  { intros us. rewrite rec_score_at. simpl. lra. }
  assert (Hscore2 : forall us,
             rec_score (recommendation_at (rt := declared_order_runtime)
                          (engine_for single_catalog) us [(3 / sqrt 10)%R] 0)
             = (300 / sqrt 10)%R).
  { intros us. rewrite rec_score_at. simpl. field. lra. }
  do 2 eexists.
  split.
  { rewrite (@recommend_value declared_order_runtime declared_order_runtime_ok
               single_catalog _ _ _ init_single).
    rewrite similarity_python_sql. reflexivity. }
  split.
  { rewrite (@recommend_value declared_order_runtime declared_order_runtime_ok
               single_catalog _ _ _ init_single).
    rewrite similarity_python_python_sql. reflexivity. }
  split; [rewrite rec_name_at; reflexivity|].
  split; [rewrite rec_name_at; reflexivity|].
  split; [apply Hscore1|].
  split; [apply Hscore2|].
  rewrite Hscore1, Hscore2. intros H.
  assert (H1 : (300 = 100 * sqrt 10)%R).
  { apply (Rmult_eq_compat_r (sqrt 10)) in H.
    unfold Rdiv in H. rewrite Rmult_assoc, Rinv_l in H; lra. }
  lra.
Qed.

(** * Further properties of the engine and of [main] *)

(** ** Stripping *)

Lemma rstrip_idem (s : string) : PyStr.rstrip (PyStr.rstrip s) = PyStr.rstrip s.
Proof.
  induction s as [|c s IH]; simpl; [reflexivity|].
  destruct (PyStr.isspace c && (PyStr.rstrip s =? "")%string) eqn:E.
  - reflexivity.
  - simpl. rewrite IH, E. reflexivity.
Qed.

Lemma lstrip_head (s : string) :
  PyStr.lstrip s = EmptyString
  \/ exists c r, PyStr.lstrip s = String c r /\ PyStr.isspace c = false.
Proof.
  induction s as [|c s IH]; simpl; [now left|].
  destruct (PyStr.isspace c) eqn:E; [exact IH|].
  right. now exists c, s.
Qed.

Lemma rstrip_head (c : ascii) (r : string) :
  PyStr.isspace c = false -> PyStr.rstrip (String c r) = String c (PyStr.rstrip r).
Proof. intros H. simpl. now rewrite H. Qed.

(** A stripped string is empty or starts with a character that is not
    whitespace. *)
Lemma strip_head (s : string) :
  PyStr.strip s = EmptyString
  \/ exists c r, PyStr.strip s = String c r /\ PyStr.isspace c = false.
Proof.
  unfold PyStr.strip. destruct (lstrip_head s) as [H|[c [r [H Hc]]]]; rewrite H.
  - now left.
  - right. rewrite (rstrip_head c r Hc). now exists c, (PyStr.rstrip r).
Qed.

Lemma strip_idem (s : string) : PyStr.strip (PyStr.strip s) = PyStr.strip s.
Proof.
  destruct (strip_head s) as [H|[c [r [H Hc]]]].
  - rewrite H. reflexivity.
  - unfold PyStr.strip at 1. rewrite H. simpl PyStr.lstrip. rewrite Hc.
    rewrite <- H. unfold PyStr.strip. apply rstrip_idem.
Qed.

Lemma lower_char_not_space (c : ascii) :
  PyStr.isspace c = false -> PyStr.isspace (PyStr.lower_char c) = false.
Proof.
  destruct c as [b0 b1 b2 b3 b4 b5 b6 b7].
  destruct b0, b1, b2, b3, b4, b5, b6, b7; vm_compute; intros H;
    (reflexivity || discriminate).
Qed.

(** A non-empty stripped skill stays non-empty under the normalization of
    [analyze_skill_gap]. *)
Lemma normalize_user_nonempty (s : string) :
  str_bool (PyStr.strip s) = true ->
  str_bool (normalize_user (PyStr.strip s)) = true.
Proof.
  intros H. destruct (strip_head s) as [H0|[c [r [H0 Hc]]]]; rewrite H0 in *.
  - discriminate.
  - unfold normalize_user, PyStr.strip. simpl PyStr.lower.
    simpl PyStr.lstrip. rewrite (lower_char_not_space c Hc).
    rewrite rstrip_head by now apply lower_char_not_space. reflexivity.
Qed.

Lemma has_char_app (c : ascii) (a b : string) :
  has_char c (a ++ b) = has_char c a || has_char c b.
Proof.
  induction a as [|d a IH]; simpl; [reflexivity|].
  rewrite IH. now rewrite orb_assoc.
Qed.

Lemma has_char_lstrip (c : ascii) (s : string) :
  has_char c s = false -> has_char c (PyStr.lstrip s) = false.
Proof.
  induction s as [|d s IH]; simpl; [reflexivity|].
  intros H. apply orb_false_iff in H as [H1 H2].
  destruct (PyStr.isspace d); [now apply IH|]. simpl. now rewrite H1, H2.
Qed.

Lemma has_char_rstrip (c : ascii) (s : string) :
  has_char c s = false -> has_char c (PyStr.rstrip s) = false.
Proof.
  induction s as [|d s IH]; simpl; [reflexivity|].
  intros H. apply orb_false_iff in H as [H1 H2].
  destruct (PyStr.isspace d && (PyStr.rstrip s =? "")%string); [reflexivity|].
  simpl. rewrite H1. now apply IH.
Qed.

Lemma has_char_strip (c : ascii) (s : string) :
  has_char c s = false -> has_char c (PyStr.strip s) = false.
Proof. intros H. now apply has_char_rstrip, has_char_lstrip. Qed.

(** ** Reading the text area *)

Lemma replace_char_app (old new : ascii) (a b : string) :
  replace_char old new (a ++ b)
  = (replace_char old new a ++ replace_char old new b)%string.
Proof. induction a as [|c a IH]; simpl; [reflexivity | now rewrite IH]. Qed.

Lemma replace_char_free (old new : ascii) (s : string) :
  has_char old s = false -> replace_char old new s = s.
Proof.
  induction s as [|c s IH]; simpl; [reflexivity|].
  intros H. apply orb_false_iff in H as [H1 H2]. now rewrite H1, IH.
Qed.

Lemma replace_char_gone (old new : ascii) (s : string) :
  old <> new -> has_char old (replace_char old new s) = false.
Proof.
  intros Hne. induction s as [|c s IH]; simpl; [reflexivity|].
  rewrite IH, orb_false_r.
  destruct (Ascii.eqb_spec c old) as [->|Hc]; apply Ascii.eqb_neq; auto.
Qed.

Lemma split_char_free (sep : ascii) (a piece : string) :
  has_char sep a = false -> split_char sep a piece = [(piece ++ a)%string].
Proof.
  revert piece. induction a as [|c a IH]; intros piece; simpl.
  - intros _. f_equal. clear. induction piece; simpl; congruence.
  - intros H. apply orb_false_iff in H as [H1 H2]. rewrite H1, IH by exact H2.
    f_equal. clear. induction piece; simpl; congruence.
Qed.

Lemma split_char_sep (sep : ascii) (a rest piece : string) :
  has_char sep a = false ->
  split_char sep (a ++ String sep rest) piece
  = (piece ++ a)%string :: split_char sep rest EmptyString.
Proof.
  revert piece. induction a as [|c a IH]; intros piece; simpl.
  - intros _. rewrite Ascii.eqb_refl. f_equal. clear.
    induction piece; simpl; congruence.
  - intros H. apply orb_false_iff in H as [H1 H2]. rewrite H1, IH by exact H2.
    f_equal. clear. induction piece; simpl; congruence.
Qed.

(** No piece of a split holds a character that the text and the pending
    piece do not hold; in particular none holds the separator. *)
Lemma split_char_pieces (sep c : ascii) (s piece : string) :
  (c = sep \/ has_char c s = false) ->
  has_char c piece = false ->
  Forall (fun p => has_char c p = false) (split_char sep s piece).
Proof.
  revert piece. induction s as [|d s IH]; intros piece Hs Hp; simpl.
  - now constructor.
  - assert (Hs' : c = sep \/ has_char c s = false).
    { destruct Hs as [->|Hs]; [now left|].
      simpl in Hs. apply orb_false_iff in Hs as [_ Hs]. now right. }
    destruct (Ascii.eqb_spec d sep) as [->|Hd].
    + constructor; [exact Hp | now apply IH].
    + apply IH; [exact Hs'|].
      rewrite has_char_app, Hp. simpl. rewrite orb_false_r.
      destruct Hs as [->|Hs]; [now apply Ascii.eqb_neq|].
      simpl in Hs. now apply orb_false_iff in Hs as [Hs _].
Qed.

Lemma split_concat (sep : ascii) (pieces : list string) :
  pieces <> [] ->
  Forall (fun p => has_char sep p = false) pieces ->
  split_char sep (String.concat (String sep EmptyString) pieces) EmptyString
  = pieces.
Proof.
  intros Hne H. induction H as [|x rest Hx Hrest IH]; [contradiction|].
  destruct rest as [|y rest].
  - simpl. now rewrite split_char_free.
  - change (String.concat (String sep "") (x :: y :: rest))
      with (x ++ String sep (String.concat (String sep "") (y :: rest)))%string.
    rewrite split_char_sep by exact Hx. simpl append. f_equal.
    apply IH. discriminate.
Qed.

Lemma replace_concat_newline (pieces : list string) :
  Forall (fun p => has_char newline p = false) pieces ->
  replace_char newline comma (String.concat (String newline EmptyString) pieces)
  = String.concat (String comma EmptyString) pieces.
Proof.
  intros H. induction H as [|x rest Hx Hrest IH]; [reflexivity|].
  destruct rest as [|y rest].
  - simpl. now apply replace_char_free.
  - change (String.concat (String newline "") (x :: y :: rest))
      with (x ++ String newline (String.concat (String newline "") (y :: rest)))%string.
    change (String.concat (String comma "") (x :: y :: rest))
      with (x ++ String comma (String.concat (String comma "") (y :: rest)))%string.
    rewrite replace_char_app, (replace_char_free _ _ x Hx). f_equal.
    cbn [replace_char]. rewrite Ascii.eqb_refl. f_equal. exact IH.
Qed.

Lemma replace_concat_comma (pieces : list string) :
  Forall (fun p => has_char newline p = false) pieces ->
  replace_char newline comma (String.concat (String comma EmptyString) pieces)
  = String.concat (String comma EmptyString) pieces.
Proof.
  intros H. induction H as [|x rest Hx Hrest IH]; [reflexivity|].
  destruct rest as [|y rest].
  - simpl. now apply replace_char_free.
  - change (String.concat (String comma "") (x :: y :: rest))
      with (x ++ String comma (String.concat (String comma "") (y :: rest)))%string.
    rewrite replace_char_app, (replace_char_free _ _ x Hx). f_equal.
    cbn [replace_char]. change (Ascii.eqb comma newline) with false.
    f_equal. exact IH.
Qed.

(** The skills read from a text whose separated form is known. *)
Lemma parse_skills_of_pieces (text : string) (pieces : list string) :
  Forall (fun p => has_char comma p = false) pieces ->
  replace_char newline comma text
  = String.concat (String comma EmptyString) pieces ->
  (text = EmptyString -> pieces = [] \/ pieces = [EmptyString]) ->
  parse_skills text
  = map PyStr.strip (filter (fun p => str_bool (PyStr.strip p)) pieces).
Proof.
  intros Hfree Hrep Hempty. unfold parse_skills.
  destruct text as [|c text].
  - destruct (Hempty eq_refl) as [->| ->]; reflexivity.
  - cbn [str_bool]. rewrite Hrep.
    destruct pieces as [|p pieces].
    + discriminate.
    + rewrite split_concat; [reflexivity | discriminate | exact Hfree].
Qed.

Lemma concat_empty (sep : string) (pieces : list string) :
  sep <> EmptyString -> String.concat sep pieces = EmptyString ->
  pieces = [] \/ pieces = [EmptyString].
Proof.
  intros Hsep H. destruct pieces as [|x rest]; [now left|]. right.
  destruct rest as [|y rest].
  - simpl in H. now rewrite H.
  - change (String.concat sep (x :: y :: rest))
      with (x ++ sep ++ String.concat sep (y :: rest))%string in H.
    destruct x; simpl in H; [|discriminate].
    destruct sep; [contradiction | discriminate].
Qed.

Lemma strip_leading_blank (s : string) :
  PyStr.strip (String " " s) = PyStr.strip s.
Proof. reflexivity. Qed.

Lemma concat_cons_char (sep : string) (c : ascii) (y : string) (r : list string) :
  String.concat sep (String c y :: r) = String c (String.concat sep (y :: r)).
Proof. destruct r; reflexivity. Qed.

Lemma concat_comma_blank (x : string) (rest : list string) :
  String.concat ", " (x :: rest)
  = String.concat (String comma EmptyString) (x :: map (String " ") rest).
Proof.
  revert x. induction rest as [|y rest IH]; intros x; [reflexivity|].
  change (String.concat ", " (x :: y :: rest))
    with (x ++ String comma (String " " (String.concat ", " (y :: rest))))%string.
  rewrite IH. cbn [map].
  change (String.concat (String comma "")
            (x :: String " " y :: map (String " ") rest))
    with (x ++ String comma
            (String.concat (String comma "")
               (String " " y :: map (String " ") rest)))%string.
  now rewrite concat_cons_char.
Qed.

Lemma parse_skills_In (skills_input s : string) :
  In s (parse_skills skills_input) ->
  clean_skill s /\ blank s = false /\ str_bool (normalize_user s) = true.
Proof.
  unfold parse_skills. destruct (str_bool skills_input); [|intros []].
  intros H. apply in_map_iff in H as [q [<- Hq]].
  apply filter_In in Hq as [Hq Hne].
  assert (Hcomma : has_char comma q = false).
  { pose proof (split_char_pieces comma comma
                  (replace_char newline comma skills_input) EmptyString
                  (or_introl eq_refl) eq_refl) as Hall.
    rewrite Forall_forall in Hall. now apply Hall. }
  assert (Hnl : has_char newline q = false).
  { pose proof (split_char_pieces comma newline
                  (replace_char newline comma skills_input) EmptyString) as Hall.
    rewrite Forall_forall in Hall. apply Hall; [|reflexivity|exact Hq].
    right. apply replace_char_gone. discriminate. }
  split; [|split].
  - split; [exact Hne|]. split; [apply strip_idem|].
    split; now apply has_char_strip.
  - destruct (strip_head q) as [H0|[c [r [H0 Hc]]]]; rewrite H0 in *.
    + discriminate.
    + simpl. now rewrite Hc.
  - now apply normalize_user_nonempty.
Qed.

(** X1. Every skill [parse_skills] returns is non-empty, has no surrounding
    whitespace, holds neither a comma nor a newline, is not blank, and stays
    non-empty under the normalization of [analyze_skill_gap]. *)
Theorem parsed_skills_clean (skills_input s : string) :
  In s (parse_skills skills_input) ->
  clean_skill s /\ blank s = false /\ str_bool (normalize_user s) = true.
Proof. apply parse_skills_In. Qed.

(** X2. Writing clean skills one after the other, separated by a comma and
    a blank, and reading the text back gives the same skills. *)
Theorem parse_skills_round_trip (l : list string) :
  Forall clean_skill l -> parse_skills (String.concat ", " l) = l.
Proof.
  intros Hclean. destruct l as [|x rest]; [reflexivity|].
  rewrite (parse_skills_of_pieces _ (x :: map (String " ") rest)).
  - inversion Hclean as [|? ? [Hx1 [Hx2 _]] Hrest]; subst.
    cbn [filter]. rewrite Hx2, Hx1. cbn [map]. rewrite Hx2. f_equal.
    clear - Hrest. induction Hrest as [|y rest [Hy1 [Hy2 _]] Hrest IH];
      [reflexivity|].
    cbn [map filter]. rewrite strip_leading_blank, Hy2, Hy1.
    cbn [map]. rewrite strip_leading_blank, Hy2. now f_equal.
  - inversion Hclean as [|? ? [_ [_ [Hx _]]] Hrest]; subst.
    constructor; [exact Hx|].
    apply Forall_forall. intros p Hp. apply in_map_iff in Hp as [y [<- Hy]].
    rewrite Forall_forall in Hrest. destruct (Hrest y Hy) as [_ [_ [Hc _]]].
    simpl. exact Hc.
  - rewrite concat_comma_blank. apply replace_concat_comma.
    inversion Hclean as [|? ? [_ [_ [_ Hx]]] Hrest]; subst.
    constructor; [exact Hx|].
    apply Forall_forall. intros p Hp. apply in_map_iff in Hp as [y [<- Hy]].
    rewrite Forall_forall in Hrest. destruct (Hrest y Hy) as [_ [_ [_ Hn]]].
    simpl. exact Hn.
  - intros H. inversion Hclean as [|? ? [Hx1 _] _]; subst.
    change (String.concat ", " (x :: rest))
      with (match rest with
            | [] => x
            | _ :: _ => (x ++ ", " ++ String.concat ", " rest)%string
            end) in H.
    destruct x; [discriminate|]. destruct rest; discriminate.
Qed.

(** X3. Pieces of text that hold no comma and no newline are read the same
    way whether they are written on one line with commas or one per line:
    the result is the pieces that are not blank, stripped, in order. *)
Theorem parse_skills_separators (pieces : list string) :
  Forall separator_free pieces ->
  parse_skills (String.concat (String comma EmptyString) pieces)
  = map PyStr.strip (filter (fun p => str_bool (PyStr.strip p)) pieces)
  /\ parse_skills (String.concat (String newline EmptyString) pieces)
     = map PyStr.strip (filter (fun p => str_bool (PyStr.strip p)) pieces).
Proof.
  intros Hfree.
  assert (Hc : Forall (fun p => has_char comma p = false) pieces).
  { eapply Forall_impl; [|exact Hfree]. now intros p [H _]. }
  assert (Hn : Forall (fun p => has_char newline p = false) pieces).
  { eapply Forall_impl; [|exact Hfree]. now intros p [_ H]. }
  split; apply parse_skills_of_pieces; try exact Hc.
  - now apply replace_concat_comma.
  - apply concat_empty. discriminate.
  - now apply replace_concat_newline.
  - apply concat_empty. discriminate.
Qed.

Example parse_skills_example :
  parse_skills "Python, Machine Learning
 SQL ,,
" = ["Python"; "Machine Learning"; "SQL"]
  /\ parse_skills " , 
 " = []
  /\ parse_skills "" = [].
Proof. repeat split. Qed.

(** ** Gap analysis: range, edge cases and normalization *)

Lemma lstrip_suffix (s : string) : exists p, s = (p ++ PyStr.lstrip s)%string.
Proof.
  induction s as [|c s [p IH]]; simpl; [now exists EmptyString|].
  destruct (PyStr.isspace c).
  - exists (String c p). simpl. now rewrite <- IH.
  - now exists EmptyString.
Qed.

Lemma rstrip_prefix (s : string) : exists q, s = (PyStr.rstrip s ++ q)%string.
Proof.
  induction s as [|c s [q IH]]; simpl; [now exists EmptyString|].
  destruct (PyStr.isspace c && (PyStr.rstrip s =? "")%string).
  - now exists (String c s).
  - exists q. simpl. now rewrite <- IH.
Qed.

(** Stripping keeps a contiguous part of the string. *)
Lemma strip_substring (s : string) : substring (PyStr.strip s) s.
Proof.
  destruct (lstrip_suffix s) as [p Hp].
  destruct (rstrip_prefix (PyStr.lstrip s)) as [q Hq].
  exists p, q. unfold PyStr.strip. now rewrite <- Hq.
Qed.

Lemma filter_length_le {A : Type} (f : A -> bool) (l : list A) :
  List.length (filter f l) <= List.length l.
Proof.
  induction l as [|x l IH]; simpl; [lia|]. destruct (f x); simpl; lia.
Qed.

Lemma percentage_range (m n : nat) :
  m <= n -> n <> 0 ->
  (0 <= (Z.of_nat m # Pos.of_nat n) * 100)%Q
  /\ ((Z.of_nat m # Pos.of_nat n) * 100 <= 100)%Q
  /\ (0 <= (Z.of_nat m # Pos.of_nat n) * 100 / 100)%Q
  /\ ((Z.of_nat m # Pos.of_nat n) * 100 / 100 <= 1)%Q.
Proof.
  intros Hle Hn.
  assert (Hp : Z.pos (Pos.of_nat n) = Z.of_nat n) by now apply Zpos_of_nat.
  unfold Qle, Qdiv, Qmult, Qinv. cbn [Qnum Qden].
  rewrite !Pos2Z.inj_mul, Hp. repeat split; nia.
Qed.

(** The counts and the percentage of a report stay in range. *)
Lemma report_of_range (required user_set : list string) :
  (0 <= match_percentage (report_of required user_set))%Q
  /\ (match_percentage (report_of required user_set) <= 100)%Q
  /\ (0 <= match_percentage (report_of required user_set) / 100)%Q
  /\ (match_percentage (report_of required user_set) / 100 <= 1)%Q
  /\ total_matched (report_of required user_set)
     <= total_required (report_of required user_set).
Proof.
  cbn [report_of match_percentage total_matched total_required].
  set (f := skill_is_matched user_set).
  assert (Hle : List.length (filter f required) <= List.length required)
    by apply filter_length_le.
  destruct required as [|r0 rs] eqn:E.
  - repeat split; simpl; try lia; unfold Qle; simpl; lia.
  - rewrite <- E in *.
    assert (Hn : List.length required <> 0) by (rewrite E; discriminate).
    destruct (percentage_range _ _ Hle Hn) as [H1 [H2 [H3 H4]]].
    repeat split; assumption.
Qed.

Section GapExtras.
Context {rt : PyRuntime} {ok : PyRuntimeOk rt}.

(** The loop test in terms of the normalized user skills alone. *)
Lemma skill_is_matched_normalized (user_skills : list string) (r : string) :
  skill_is_matched (set_order (map normalize_user user_skills)) r = true
  <-> exists v, In v (map normalize_user user_skills)
                /\ (v = PyStr.lower r
                    \/ PyStr.contains v (PyStr.lower r) = true
                    \/ PyStr.contains (PyStr.lower r) v = true).
Proof.
  unfold skill_is_matched.
  rewrite orb_true_iff, str_mem_iff, partial_match_iff.
  split.
  - intros [H|[v [Hv Hc]]].
    + exists (PyStr.lower r).
      split; [exact (proj1 (set_order_in _ _) H) | now left].
    + exists v. split; [exact (proj1 (set_order_in _ _) Hv) | now right].
  - intros [v [Hv [->|Hc]]].
    + left. exact (proj2 (set_order_in _ _) Hv).
    + right. exists v. split; [exact (proj2 (set_order_in _ _) Hv) | exact Hc].
Qed.

(** X4. For every career of the catalog the reported percentage lies
    between 0 and 100, the value handed to the progress bar
    ([match_percentage / 100]) lies between 0 and 1, and [total_matched]
    does not exceed [total_required]. *)
Theorem gap_percentage_range (self : Engine) (user_skills : list string)
  (target_career : string) :
  dict_mem (career_database self) target_career = true ->
  exists g,
    analyze_skill_gap self user_skills target_career = Returns (Report g)
    /\ (0 <= match_percentage g)%Q /\ (match_percentage g <= 100)%Q
    /\ (0 <= match_percentage g / 100)%Q /\ (match_percentage g / 100 <= 1)%Q
    /\ total_matched g <= total_required g.
Proof.
  intros Hmem. apply dict_mem_get in Hmem as [info Hget].
  eexists. split; [apply analyze_known; exact Hget|].
  apply report_of_range.
Qed.

(** X5. With no user skill at all, every required skill of a known career
    is missing: the matched list is empty, the missing list is the whole
    required set and the percentage is 0. *)
Theorem gap_no_user_skills (self : Engine) (target_career : string)
  (info : CareerInfo) :
  dict_get (career_database self) target_career = Some info ->
  exists g,
    analyze_skill_gap self [] target_career = Returns (Report g)
    /\ matched_skills g = []
    /\ missing_skills g = set_order (skills info)
    /\ (match_percentage g == 0)%Q
    /\ total_matched g = 0.
Proof.
  intros Hget. eexists. split; [apply analyze_known; exact Hget|].
  assert (Hnone : forall r,
             skill_is_matched (set_order (map normalize_user [])) r = false).
  { intros r. apply not_true_iff_false. rewrite skill_is_matched_normalized.
    intros [v [[] _]]. }
  simpl. rewrite (filter_none _ _ (fun r _ => Hnone r)).
  split; [reflexivity|]. split.
  - apply filter_all. intros r _. simpl in Hnone. now rewrite Hnone.
  - split; [|reflexivity].
    destruct (set_order (skills info)); reflexivity.
Qed.

(** X6. A user who lists every required skill of a known career, up to
    letter case and surrounding whitespace, gets every required skill
    matched: nothing is missing and, when the career requires anything, the
    percentage is 100. *)
Theorem gap_all_skills_listed (self : Engine) (user_skills : list string)
  (target_career : string) (info : CareerInfo) :
  dict_get (career_database self) target_career = Some info ->
  (forall r, In r (skills info) ->
     exists u, In u user_skills /\ normalize_user u = normalize_user r) ->
  exists g,
    analyze_skill_gap self user_skills target_career = Returns (Report g)
    /\ missing_skills g = []
    /\ matched_skills g = set_order (skills info)
    /\ total_matched g = total_required g
    /\ (skills info <> [] -> (match_percentage g == 100)%Q).
Proof.
  intros Hget Hall. eexists. split; [apply analyze_known; exact Hget|].
  set (uset := set_order (map normalize_user user_skills)).
  assert (Hm : forall r, In r (set_order (skills info)) ->
                         skill_is_matched uset r = true).
  { intros r Hr. apply (proj1 (set_order_in _ _)) in Hr.
    destruct (Hall r Hr) as [u [Hu Heq]].
    apply skill_is_matched_iff. right. exists u. split; [exact Hu|].
    left. rewrite Heq. apply strip_substring. }
  simpl. fold uset. rewrite (filter_all _ _ Hm).
  split.
  { apply filter_none. intros r Hr. now rewrite (Hm r Hr). }
  split; [reflexivity|]. split; [reflexivity|].
  intros Hne. rewrite <- set_order_nil_iff in Hne.
  destruct (set_order (skills info)) as [|r0 rs]; [contradiction|].
  apply percentage_full. discriminate.
Qed.

(** X7. The gap analysis reads the user skills through their normalized
    forms only: two lists whose lower-cased, stripped skills form the same
    set give the same result for every career name. *)
Theorem gap_case_insensitive (self : Engine) (us us' : list string)
  (target_career : string) :
  (forall v, In v (map normalize_user us) <-> In v (map normalize_user us')) ->
  analyze_skill_gap self us target_career
  = analyze_skill_gap self us' target_career.
Proof.
  intros Hsame.
  destruct (dict_get (career_database self) target_career) as [info|] eqn:Hget.
  - rewrite !(analyze_known self _ target_career info Hget).
    assert (Hf : forall r,
               skill_is_matched (set_order (map normalize_user us)) r
               = skill_is_matched (set_order (map normalize_user us')) r).
    { intros r. apply eq_iff_eq_true. rewrite !skill_is_matched_normalized.
      split; intros [v [Hv Hc]]; exists v; split; try exact Hc; now apply Hsame. }
    unfold report_of. rewrite (filter_ext _ _ Hf).
    rewrite (filter_ext (fun s => negb (skill_is_matched _ s))
               (fun s => negb (skill_is_matched
                                 (set_order (map normalize_user us')) s)))
      by (intros r; now rewrite Hf).
    reflexivity.
  - now rewrite !(analyze_unknown self _ target_career Hget).
Qed.

(** X8. The learning path composed from the missing skills of a gap report
    has one item per missing skill, in the order of the report; their
    number [k] is [total_required - total_matched], and the estimated time
    reads "2k-3k months". *)
Theorem learning_path_of_gap (self : Engine) (user_skills : list string)
  (target_career : string) :
  dict_mem (career_database self) target_career = true ->
  exists g plan,
    analyze_skill_gap self user_skills target_career = Returns (Report g)
    /\ get_learning_path self (missing_skills g) target_career = Returns plan
    /\ map skill (skills_to_learn plan) = missing_skills g
    /\ List.length (skills_to_learn plan) = total_required g - total_matched g
    /\ estimated_time plan
       = (PyStr.str_of_nat (2 * (total_required g - total_matched g)) ++ "-"
          ++ PyStr.str_of_nat (3 * (total_required g - total_matched g))
          ++ " months")%string.
Proof.
  intros Hmem. apply dict_mem_get in Hmem as [info Hget].
  do 2 eexists. split; [apply analyze_known; exact Hget|].
  split; [apply get_learning_path_value|].
  cbn [skills_to_learn estimated_time report_of missing_skills total_required
       total_matched matched_skills].
  set (f := skill_is_matched _).
  assert (Hlen : List.length (filter (fun s => negb (f s)) (set_order (skills info)))
                 = List.length (set_order (skills info))
                   - List.length (filter f (set_order (skills info)))).
  { pose proof (filter_split_length f (set_order (skills info))). lia. }
  split; [apply map_skill_bundles|].
  split; [now rewrite length_map|].
  rewrite <- Hlen. now rewrite (Nat.mul_comm 2), (Nat.mul_comm 3).
Qed.

End GapExtras.

(** X9. Every item of every learning path carries exactly three resources,
    a level and a time, whether it comes from the table or is the default
    bundle. *)
Theorem learning_item_complete (self : Engine) (missing : list string)
  (career_name : string) (plan : LearningPath) (item : PathItem) :
  get_learning_path self missing career_name = Returns plan ->
  In item (skills_to_learn plan) ->
  In (skill item) missing
  /\ List.length (resources item) = 3
  /\ str_bool (level item) = true
  /\ str_bool (time item) = true.
Proof.
  rewrite get_learning_path_value. intros H. inversion H; subst; clear H.
  cbn [skills_to_learn]. intros Hin.
  apply in_map_iff in Hin as [s [<- Hs]].
  split; [now rewrite bundle_of_skill|].
  unfold bundle_of. destruct (dict_get skill_priority s) as [e|] eqn:E.
  - apply skill_priority_lookup in E. unfold skill_priority in E. simpl in E.
    repeat (destruct E as [E|E]; [inversion E; subst; repeat split|]).
    destruct E.
  - repeat split.
Qed.

(** ** What [init] builds *)

Lemma insert_sorted_perm (x : string) (l : list string) :
  Permutation (Sklearn.insert_sorted x l) (x :: l).
Proof.
  induction l as [|y l IH]; simpl; [reflexivity|].
  destruct (String.leb x y); [reflexivity|].
  rewrite IH. apply perm_swap.
Qed.

Lemma sorted_perm (l : list string) : Permutation (Sklearn.sorted l) l.
Proof.
  induction l as [|x l IH]; simpl; [reflexivity|].
  rewrite insert_sorted_perm. now constructor.
Qed.

Lemma normalize_length (u : list R) :
  List.length (Sklearn.normalize u) = List.length u.
Proof.
  unfold Sklearn.normalize.
  destruct (Req_dec_T (Sklearn.l2norm u) 0); [reflexivity | apply length_map].
Qed.

Lemma tfidf_row_length (v : Sklearn.TfidfVectorizer) (doc : list string) :
  List.length (Sklearn.idf_ v) = List.length (Sklearn.vocabulary_ v) ->
  List.length (Sklearn.tfidf_row v doc) = List.length (Sklearn.vocabulary_ v).
Proof.
  intros H. unfold Sklearn.tfidf_row, Sklearn.count_row.
  rewrite normalize_length, length_map, length_combine, length_map. lia.
Qed.

(** The state of a fitted vectorizer. *)
Lemma fit_inv (raw_documents : list string) (v : Sklearn.TfidfVectorizer) :
  Sklearn.fit raw_documents = Returns v ->
  Sklearn.vocabulary_ v
  = Sklearn.sorted
      (nodup string_dec (List.concat (map Sklearn.tokenize raw_documents)))
  /\ Sklearn.idf_ v
     = map (fun t => Sklearn.idf_weight (List.length raw_documents)
                       (Sklearn.doc_freq (map Sklearn.tokenize raw_documents) t))
           (Sklearn.vocabulary_ v)
  /\ Sklearn.vocabulary_ v <> [].
Proof.
  unfold Sklearn.fit.
  destruct (Sklearn.sorted _) as [|t vocab] eqn:E; [discriminate|].
  intros H. inversion H; subst; clear H. cbn [Sklearn.vocabulary_ Sklearn.idf_].
  rewrite length_map. repeat split. discriminate.
Qed.

Lemma init_fit (db : dict CareerInfo) (self : Engine) :
  init db = Returns self ->
  let texts := map (fun entry => PyStr.join " " (skills (snd entry))) db in
  Sklearn.fit texts = Returns (vectorizer self)
  /\ skill_matrix self = Sklearn.transform (vectorizer self) texts.
Proof.
  unfold init, build_model, Sklearn.fit_transform. cbv zeta.
  destruct (Sklearn.fit _) as [v|e]; simpl; [|discriminate].
  intros H. inversion H; subst; clear H. now split.
Qed.

Lemma vocabulary_tokens (db : dict CareerInfo) (self : Engine) (t : string) :
  init db = Returns self ->
  In t (Sklearn.vocabulary_ (vectorizer self)) <->
  exists entry, In entry db
                /\ In t (Sklearn.tokenize (PyStr.join " " (skills (snd entry)))).
Proof.
  intros Hinit. destruct (init_fit db self Hinit) as [Hfit _].
  destruct (fit_inv _ _ Hfit) as [Hvocab _]. rewrite Hvocab.
  split.
  - intros H. apply (Permutation_in _ (sorted_perm _)) in H.
    apply nodup_In, in_concat in H as [doc [Hdoc Ht]].
    rewrite map_map in Hdoc. apply in_map_iff in Hdoc as [entry [<- He]].
    now exists entry.
  - intros [entry [He Ht]].
    apply (Permutation_in _ (Permutation_sym (sorted_perm _))).
    apply nodup_In, in_concat. eexists. split; [|exact Ht].
    rewrite map_map. apply in_map_iff. now exists entry.
Qed.

(** X10. [init] raises [ValueError] when no career's skill text holds a
    token (in particular on the empty catalog) and returns an engine
    otherwise. The engine keeps the catalog, lists the career names in
    catalog order, and holds one row per career, each as long as the
    vocabulary; the vocabulary holds exactly the tokens of the careers'
    skill texts, each once, with one idf weight per term. *)
Theorem init_outcome (db : dict CareerInfo) :
  ((forall entry, In entry db ->
      Sklearn.tokenize (PyStr.join " " (skills (snd entry))) = []) ->
   init db = Raises ValueError)
  /\ ((exists entry, In entry db
         /\ Sklearn.tokenize (PyStr.join " " (skills (snd entry))) <> []) ->
      exists self,
        init db = Returns self
        /\ career_database self = db
        /\ career_names self = dict_keys db
        /\ List.length (skill_matrix self) = List.length db
        /\ Forall (fun row => List.length row
                              = List.length (Sklearn.vocabulary_ (vectorizer self)))
             (skill_matrix self)
        /\ List.length (Sklearn.idf_ (vectorizer self))
           = List.length (Sklearn.vocabulary_ (vectorizer self))
        /\ NoDup (Sklearn.vocabulary_ (vectorizer self))
        /\ forall t,
             In t (Sklearn.vocabulary_ (vectorizer self)) <->
             exists entry,
               In entry db
               /\ In t (Sklearn.tokenize (PyStr.join " " (skills (snd entry))))).
Proof.
  set (texts := map (fun entry => PyStr.join " " (skills (snd entry))) db).
  set (tokens := nodup string_dec (List.concat (map Sklearn.tokenize texts))).
  split.
  - intros Hnone.
    assert (Hempty : tokens = []).
    { destruct tokens as [|t ts] eqn:E; [reflexivity|].
      assert (Hin : In t tokens) by (rewrite E; now left).
      unfold tokens in Hin. apply nodup_In, in_concat in Hin as [doc [Hdoc Ht]].
      unfold texts in Hdoc. rewrite map_map in Hdoc.
      apply in_map_iff in Hdoc as [entry [<- He]].
      rewrite (Hnone entry He) in Ht. destruct Ht. }
    unfold init, build_model, Sklearn.fit_transform, Sklearn.fit.
    fold texts. fold tokens. rewrite Hempty. reflexivity.
  - intros [entry [He Hne]].
    assert (Hinit : exists self, init db = Returns self).
    { unfold init, build_model, Sklearn.fit_transform, Sklearn.fit.
      fold texts. fold tokens.
      destruct (Sklearn.sorted tokens) as [|t ts] eqn:E.
      - exfalso.
        destruct (Sklearn.tokenize (PyStr.join " " (skills (snd entry))))
          as [|t0 ts0] eqn:Et; [contradiction|].
        assert (Hin : In t0 (Sklearn.sorted tokens)).
        { apply (Permutation_in _ (Permutation_sym (sorted_perm _))).
          unfold tokens. apply nodup_In, in_concat.
          exists (t0 :: ts0). split; [|now left].
          unfold texts. rewrite map_map. apply in_map_iff.
          exists entry. now split. }
        rewrite E in Hin. destruct Hin.
      - simpl. eexists. reflexivity. }
    destruct Hinit as [self Hinit]. exists self.
    destruct (init_inv db self Hinit) as [Hdb [Hnames Hlen]].
    destruct (init_fit db self Hinit) as [Hfit Hmat].
    destruct (fit_inv _ _ Hfit) as [Hvocab [Hidf _]].
    assert (Hidflen : List.length (Sklearn.idf_ (vectorizer self))
                      = List.length (Sklearn.vocabulary_ (vectorizer self))).
    { rewrite Hidf at 1. apply length_map. }
    split; [exact Hinit|]. split; [exact Hdb|]. split; [exact Hnames|].
    split; [exact Hlen|]. split.
    { rewrite Hmat. unfold Sklearn.transform. apply Forall_forall.
      intros row Hrow. apply in_map_iff in Hrow as [text [<- _]].
      now apply tfidf_row_length. }
    split; [exact Hidflen|]. split.
    { rewrite Hvocab.
      eapply Permutation_NoDup; [apply Permutation_sym, sorted_perm|].
      apply NoDup_nodup. }
    intros t. now apply vocabulary_tokens.
Qed.

(** ** Rankings: consistency, distinct names, prefixes *)

Lemma NoDup_firstn {A : Type} (n : nat) (l : list A) :
  NoDup l -> NoDup (firstn n l).
Proof.
  intros H. revert n. induction H as [|x l Hx Hl IH]; intros n.
  - rewrite firstn_nil. constructor.
  - destruct n as [|n]; simpl; constructor; [|apply IH].
    intros Hin. apply Hx. eapply firstn_In; eauto.
Qed.

Lemma NoDup_map_nth {A : Type} (l : list A) (d : A) (idxs : list nat) :
  NoDup l -> NoDup idxs -> (forall i, In i idxs -> i < List.length l) ->
  NoDup (map (fun i => nth i l d) idxs).
Proof.
  intros Hl Hidx. induction Hidx as [|i idxs Hi Hidxs IH]; intros Hb; simpl.
  - constructor.
  - constructor; [|apply IH; intros j Hj; apply Hb; now right].
    intros Hin. apply in_map_iff in Hin as [j [Hj Hjin]].
    assert (Heq : j = i).
    { apply (proj1 (NoDup_nth l d) Hl); [apply Hb; now right | apply Hb; now left
                                        | exact Hj]. }
    subst. contradiction.
Qed.

Section RankingExtras.
Context {rt : PyRuntime} {ok : PyRuntimeOk rt}.

Lemma top_indices_nodup (xs : list R) (k : Z) : NoDup (top_indices_of xs k).
Proof.
  unfold top_indices_of, slice_to.
  assert (H : NoDup (rev (argsort xs))).
  { apply NoDup_rev. eapply Permutation_NoDup;
      [apply Permutation_sym, argsort_perm | apply seq_NoDup]. }
  destruct (0 <=? k)%Z; now apply NoDup_firstn.
Qed.

(** The tuple built for an index of the catalog. *)
Lemma recommendation_at_known (db : dict CareerInfo) (self : Engine)
  (us : list string) (sims : list R) (idx : nat) :
  init db = Returns self ->
  idx < List.length db ->
  exists info,
    dict_get db (nth idx (dict_keys db) "") = Some info
    /\ In (nth idx (dict_keys db) "") (dict_keys db)
    /\ recommendation_at self us sims idx
       = (nth idx (dict_keys db) "", (nth idx sims 0 * 100)%R,
          Report (report_of (set_order (skills info))
                            (set_order (map normalize_user us))),
          info).
Proof.
  intros Hinit Hidx.
  destruct (init_inv db self Hinit) as [Hdb [Hnames Hlen]].
  assert (Hkey : In (nth idx (dict_keys db) "") (dict_keys db)).
  { apply nth_In. unfold dict_keys. now rewrite length_map. }
  destruct (proj1 (dict_mem_get db _) (proj2 (dict_mem_keys db _) Hkey))
    as [info Hget].
  exists info. split; [exact Hget|]. split; [exact Hkey|].
  unfold recommendation_at. rewrite Hnames, Hdb, Hget. reflexivity.
Qed.

(** X11. Every tuple returned by [recommend_careers] is consistent: its gap
    analysis is a full report, the one [analyze_skill_gap] gives for the
    same user skills and that career, and its info is the catalog entry of
    that career. *)
Theorem recommendation_consistent (db : dict CareerInfo) (self : Engine)
  (user_skills : list string) (top_n : Z) (recs : list Recommendation)
  (r : Recommendation) :
  init db = Returns self ->
  recommend_careers self user_skills top_n = Returns recs ->
  In r recs ->
  exists g,
    rec_gap r = Report g
    /\ analyze_skill_gap self user_skills (rec_name r) = Returns (Report g)
    /\ dict_get db (rec_name r) = Some (rec_info r)
    /\ In (rec_name r) (dict_keys db).
Proof.
  intros Hinit Hrec Hin.
  destruct (init_inv db self Hinit) as [Hdb [Hnames Hlen]].
  rewrite (recommend_value db self _ _ Hinit) in Hrec.
  inversion Hrec; subst recs; clear Hrec.
  apply in_map_iff in Hin as [idx [<- Hidx]].
  apply top_indices_bound in Hidx.
  rewrite similarities_of_length, Hlen in Hidx.
  destruct (recommendation_at_known db self user_skills
              (similarities_of self user_skills) idx Hinit Hidx)
    as [info [Hget [Hkey Hat]]].
  rewrite Hat. cbn [rec_gap rec_name rec_info fst snd].
  eexists. split; [reflexivity|]. split.
  - apply analyze_known. now rewrite Hdb.
  - split; [exact Hget | exact Hkey].
Qed.

(** X12. On a catalog with distinct career names no career is recommended
    twice. *)
Theorem recommendations_distinct (db : dict CareerInfo) (self : Engine)
  (user_skills : list string) (top_n : Z) (recs : list Recommendation) :
  init db = Returns self ->
  dict_wf db ->
  recommend_careers self user_skills top_n = Returns recs ->
  NoDup (map rec_name recs).
Proof.
  intros Hinit Hwf Hrec.
  destruct (init_inv db self Hinit) as [Hdb [Hnames Hlen]].
  rewrite (recommend_value db self _ _ Hinit) in Hrec.
  inversion Hrec; subst recs; clear Hrec.
  rewrite recommendation_names, Hnames.
  apply NoDup_map_nth; [exact Hwf | apply top_indices_nodup|].
  intros i Hi. apply top_indices_bound in Hi.
  rewrite similarities_of_length, Hlen in Hi.
  unfold dict_keys. now rewrite length_map.
Qed.

(** X13. Asking for fewer careers gives a prefix of what asking for more
    gives: for [0 <= k <= k'] the result for [k] is the first [k] entries of
    the result for [k']. *)
Theorem recommendations_prefix (db : dict CareerInfo) (self : Engine)
  (user_skills : list string) (k k' : Z) (recs' : list Recommendation) :
  init db = Returns self ->
  (0 <= k <= k')%Z ->
  recommend_careers self user_skills k' = Returns recs' ->
  recommend_careers self user_skills k = Returns (firstn (Z.to_nat k) recs').
Proof.
  intros Hinit Hk Hrec.
  rewrite (recommend_value db self _ _ Hinit) in Hrec.
  inversion Hrec; subst recs'; clear Hrec.
  rewrite (recommend_value db self _ _ Hinit). f_equal.
  rewrite firstn_map. f_equal.
  unfold top_indices_of. rewrite !slice_to_pos by lia.
  rewrite firstn_firstn. f_equal. lia.
Qed.

(** X14. When no token of the user's skills occurs in the skill text of any
    career, every returned career has score 0. *)
Theorem unknown_skills_score_zero (db : dict CareerInfo) (self : Engine)
  (user_skills : list string) (top_n : Z) (recs : list Recommendation) :
  init db = Returns self ->
  (forall t entry,
     In t (Sklearn.tokenize (PyStr.join " " user_skills)) ->
     In entry db ->
     ~ In t (Sklearn.tokenize (PyStr.join " " (skills (snd entry))))) ->
  recommend_careers self user_skills top_n = Returns recs ->
  forall r, In r recs -> rec_score r = 0%R.
Proof.
  intros Hinit Hunseen Hrec r Hin.
  rewrite (recommend_value db self _ _ Hinit) in Hrec.
  inversion Hrec; subst recs; clear Hrec.
  apply in_map_iff in Hin as [idx [<- _]].
  rewrite rec_score_at, similarities_of_unseen; [lra|].
  unfold Sklearn.count_row. apply Forall_forall. intros x Hx.
  apply in_map_iff in Hx as [t [<- Ht]].
  apply (vocabulary_tokens db self t Hinit) in Ht as [entry [He Htok]].
  replace (count_occ string_dec
             (Sklearn.tokenize (PyStr.join " " user_skills)) t) with 0;
    [reflexivity|].
  symmetry. apply count_occ_not_In. intros Hu. exact (Hunseen t entry Hu He Htok).
Qed.

End RankingExtras.

(** ** The sign of the scores *)

Lemma dot_nonneg (u v : list R) :
  Forall (fun x => (0 <= x)%R) u -> Forall (fun x => (0 <= x)%R) v ->
  (0 <= Sklearn.dot u v)%R.
Proof.
  intros Hu. revert v. unfold Sklearn.dot.
  induction Hu as [|x u Hx Hu IH]; intros v Hv; simpl; [lra|].
  destruct Hv as [|y v Hy Hv]; simpl; [lra|].
  specialize (IH v Hv). assert (0 <= x * y)%R by now apply Rmult_le_pos. lra.
Qed.

Lemma l2norm_nonneg (u : list R) : (0 <= Sklearn.l2norm u)%R.
Proof. unfold Sklearn.l2norm. apply sqrt_pos. Qed.

Lemma normalize_nonneg (u : list R) :
  Forall (fun x => (0 <= x)%R) u ->
  Forall (fun x => (0 <= x)%R) (Sklearn.normalize u).
Proof.
  intros H. unfold Sklearn.normalize.
  destruct (Req_dec_T (Sklearn.l2norm u) 0) as [_|Hne]; [exact H|].
  pose proof (l2norm_nonneg u) as Hn.
  apply Forall_forall. intros y Hy. apply in_map_iff in Hy as [x [<- Hx]].
  rewrite Forall_forall in H. specialize (H x Hx).
  apply Rmult_le_pos; [exact H|]. left. apply Rinv_0_lt_compat. lra.
Qed.

Lemma idf_weight_nonneg (n df : nat) : df <= n -> (0 <= Sklearn.idf_weight n df)%R.
Proof.
  intros H. unfold Sklearn.idf_weight.
  assert (Hdf : (0 < INR (1 + df))%R) by (apply lt_0_INR; lia).
  assert (Hle : (INR (1 + df) <= INR (1 + n))%R) by (apply le_INR; lia).
  assert (H1 : (1 <= INR (1 + n) / INR (1 + df))%R).
  { apply (Rmult_le_reg_r (INR (1 + df))); [exact Hdf|].
    unfold Rdiv. rewrite Rmult_assoc, Rinv_l by lra. lra. }
  assert (Hln : (0 <= ln (INR (1 + n) / INR (1 + df)))%R).
  { rewrite <- ln_1. destruct H1 as [H1|H1].
    - left. apply ln_increasing; lra.
    - rewrite <- H1. lra. }
  lra.
Qed.

Lemma tfidf_row_nonneg (raw_documents : list string)
  (v : Sklearn.TfidfVectorizer) (doc : list string) :
  Sklearn.fit raw_documents = Returns v ->
  Forall (fun x => (0 <= x)%R) (Sklearn.tfidf_row v doc).
Proof.
  intros Hfit. destruct (fit_inv _ _ Hfit) as [_ [Hidf _]].
  unfold Sklearn.tfidf_row. apply normalize_nonneg.
  rewrite Hidf. unfold Sklearn.count_row. clear Hidf.
  induction (Sklearn.vocabulary_ v) as [|t vocab IH]; simpl; constructor.
  - apply Rmult_le_pos; [apply pos_INR|].
    apply idf_weight_nonneg. unfold Sklearn.doc_freq.
    rewrite <- (length_map Sklearn.tokenize raw_documents).
    apply filter_length_le.
  - exact IH.
Qed.

(** No similarity of an engine built by [init] is negative. *)
Lemma similarities_nonneg (db : dict CareerInfo) (self : Engine)
  (user_skills : list string) :
  init db = Returns self ->
  Forall (fun c => (0 <= c)%R) (similarities_of self user_skills).
Proof.
  intros Hinit.
  destruct (init_fit db self Hinit) as [Hfit Hmat]. cbv zeta in Hfit, Hmat.
  unfold similarities_of. apply Forall_forall. intros c Hc.
  apply in_map_iff in Hc as [y [<- Hy]].
  rewrite Hmat in Hy. unfold Sklearn.transform in Hy.
  apply in_map_iff in Hy as [text [<- _]].
  apply dot_nonneg; apply normalize_nonneg; apply (tfidf_row_nonneg _ _ _ Hfit).
Qed.

Section ScoreRange.
Context {rt : PyRuntime} {ok : PyRuntimeOk rt}.

(** X15. No score returned by [recommend_careers] is negative: the weights
    of the vectorizer are products and quotients of non-negative numbers. *)
Theorem recommend_score_nonneg (db : dict CareerInfo) (self : Engine)
  (user_skills : list string) (top_n : Z) (recs : list Recommendation)
  (r : Recommendation) :
  init db = Returns self ->
  recommend_careers self user_skills top_n = Returns recs ->
  In r recs ->
  (0 <= rec_score r)%R.
Proof.
  intros Hinit Hrec Hin.
  rewrite (recommend_value db self _ _ Hinit) in Hrec.
  inversion Hrec; subst recs; clear Hrec.
  apply in_map_iff in Hin as [idx [<- Hidx]].
  apply top_indices_bound in Hidx.
  rewrite rec_score_at.
  pose proof (similarities_nonneg db self user_skills Hinit) as Hall.
  rewrite Forall_forall in Hall.
  assert (Hc : (0 <= nth idx (similarities_of self user_skills) 0)%R)
    by (apply Hall, nth_In; exact Hidx).
  lra.
Qed.

End ScoreRange.

(** ** [main] *)

Lemma common_skills_facts (x : string) :
  In x common_skills -> blank x = false /\ str_bool (normalize_user x) = true.
Proof.
  unfold common_skills. simpl.
  intros H. repeat (destruct H as [<-|H]; [split; reflexivity|]). destruct H.
Qed.

Lemma shipped_length : List.length CAREER_DATABASE = 10.
Proof. reflexivity. Qed.

Section MainProperties.
Context {rt : PyRuntime} {ok : PyRuntimeOk rt}.

(** X16. The skills [main] hands to the engine hold each typed or selected
    skill exactly once; when the selection comes from the offered common
    skills none of them is blank, and none normalizes to the empty string. *)
Theorem collected_skills (skills_input : string) (selected_common : list string) :
  NoDup (collect_user_skills skills_input selected_common)
  /\ (forall x, In x (collect_user_skills skills_input selected_common) <->
                In x (parse_skills skills_input) \/ In x selected_common)
  /\ (incl selected_common common_skills ->
      forall x, In x (collect_user_skills skills_input selected_common) ->
                blank x = false /\ str_bool (normalize_user x) = true).
Proof.
  unfold collect_user_skills. split; [apply set_order_nodup|]. split.
  - intros x. rewrite (set_order_in _ x). apply in_app_iff.
  - intros Hincl x Hx. apply (proj1 (set_order_in _ x)), in_app_iff in Hx.
    destruct Hx as [Hx|Hx].
    + now destruct (parse_skills_In _ _ Hx) as [_ H].
    + now apply common_skills_facts, Hincl.
Qed.

Context {st : Streamlit}.

(** [st.progress] accepts exactly the values of the unit interval. *)
Lemma st_progress_shown (value shown : Q) :
  st_progress value = Shown shown <->
  shown = value /\ (0 <= value)%Q /\ (value <= 1)%Q.
Proof.
  unfold st_progress.
  destruct (Qle_bool 0 value) eqn:E0; destruct (Qle_bool value 1) eqn:E1;
    cbn [andb]; split.
  - intros H. injection H as <-.
    split; [reflexivity|]. split; now apply Qle_bool_iff.
  - intros [-> _]. reflexivity.
  - discriminate.
  - intros [_ [_ H]]. apply Qle_bool_iff in H. congruence.
  - discriminate.
  - intros [_ [H _]]. apply Qle_bool_iff in H. congruence.
  - discriminate.
  - intros [_ [H _]]. apply Qle_bool_iff in H. congruence.
Qed.

(** The learning items are all shown when expanders may be nested. *)
Lemma render_learning_nested (items : list PathItem) :
  nested_expanders = true -> render_learning items = Shown items.
Proof.
  intros Hn. induction items as [|x items IH]; [reflexivity|].
  cbn [render_learning]. unfold st_nested_expander. rewrite Hn.
  cbn [then_render]. rewrite IH. reflexivity.
Qed.

(** The first learning item stops the run when they may not. *)
Lemma render_learning_refused (items : list PathItem) :
  nested_expanders = false -> items <> [] ->
  render_learning items = StreamlitAPIException.
Proof.
  intros Hn Hne. destruct items as [|x items]; [contradiction|].
  cbn [render_learning]. unfold st_nested_expander. rewrite Hn. reflexivity.
Qed.

(** One card, for a recommendation whose gap analysis is a report with a
    progress value that [st.progress] accepts. *)
Lemma render_card_report (engine : Engine) (idx : nat) (r : Recommendation)
  (g : GapReport) :
  rec_gap r = Report g ->
  (0 <= match_percentage g / 100)%Q -> (match_percentage g / 100 <= 1)%Q ->
  render_card engine idx r =
  match missing_skills g with
  | [] => Shown {| card_rank := idx;
                   card_expanded := (idx =? 1);
                   card_name := rec_name r;
                   card_score := rec_score r;
                   card_info := rec_info r;
                   card_match := match_percentage g;
                   card_progress := (match_percentage g / 100)%Q;
                   card_matched := matched_skills g;
                   card_missing := missing_skills g;
                   card_learning := [] |}
  | _ :: _ =>
      if nested_expanders then
        Shown {| card_rank := idx;
                 card_expanded := (idx =? 1);
                 card_name := rec_name r;
                 card_score := rec_score r;
                 card_info := rec_info r;
                 card_match := match_percentage g;
                 card_progress := (match_percentage g / 100)%Q;
                 card_matched := matched_skills g;
                 card_missing := missing_skills g;
                 card_learning := firstn 5 (map bundle_of (missing_skills g)) |}
      else StreamlitAPIException
  end.
Proof.
  intros Hg H0 H1. unfold render_card. rewrite Hg.
  rewrite (proj2 (st_progress_shown _ _) (conj eq_refl (conj H0 H1))).
  cbn [then_render].
  destruct (missing_skills g) as [|m ms] eqn:Em; [reflexivity|].
  rewrite get_learning_path_value. cbn [of_python then_render].
  change (slice_to (skills_to_learn _) 5)
    with (firstn 5 (map bundle_of (m :: ms))).
  destruct nested_expanders eqn:Hn.
  - rewrite (render_learning_nested _ Hn). reflexivity.
  - rewrite (render_learning_refused _ Hn); [reflexivity|].
    cbn. discriminate.
Qed.

(** What the cards are when [render_cards] shows them all. *)
Lemma render_cards_shown (engine : Engine) (recs : list Recommendation)
  (idx0 : nat) (cards : list Card) :
  (forall r, In r recs ->
     exists g, rec_gap r = Report g
               /\ (0 <= match_percentage g / 100)%Q
               /\ (match_percentage g / 100 <= 1)%Q) ->
  render_cards engine idx0 recs = Shown cards ->
  List.length cards = List.length recs
  /\ forall i c, nth_error cards i = Some c ->
       exists r g,
         nth_error recs i = Some r
         /\ rec_gap r = Report g
         /\ (missing_skills g = [] \/ nested_expanders = true)
         /\ card_rank c = idx0 + i
         /\ card_expanded c = (idx0 + i =? 1)
         /\ card_name c = rec_name r
         /\ card_score c = rec_score r
         /\ card_info c = rec_info r
         /\ card_match c = match_percentage g
         /\ card_progress c = (match_percentage g / 100)%Q
         /\ card_matched c = matched_skills g
         /\ card_missing c = missing_skills g
         /\ card_learning c = firstn 5 (map bundle_of (missing_skills g)).
Proof.
  revert idx0 cards. induction recs as [|r recs IH]; intros idx0 cards Hall Hrun.
  - cbn [render_cards] in Hrun. injection Hrun as <-.
    split; [reflexivity|]. intros i c Hc. destruct i; discriminate.
  - destruct (Hall r (or_introl eq_refl)) as [g [Hg [H0 H1]]].
    cbn [render_cards] in Hrun.
    rewrite (render_card_report engine idx0 r g Hg H0 H1) in Hrun.
    assert (Hcard :
              (missing_skills g = [] \/ nested_expanders = true)
              /\ exists rest,
                   render_cards engine (S idx0) recs = Shown rest
                   /\ cards =
                      {| card_rank := idx0;
                         card_expanded := (idx0 =? 1);
                         card_name := rec_name r;
                         card_score := rec_score r;
                         card_info := rec_info r;
                         card_match := match_percentage g;
                         card_progress := (match_percentage g / 100)%Q;
                         card_matched := matched_skills g;
                         card_missing := missing_skills g;
                         card_learning :=
                           firstn 5 (map bundle_of (missing_skills g)) |}
                      :: rest).
    { destruct (missing_skills g) as [|m ms] eqn:Em.
      - split; [now left|]. cbn [then_render] in Hrun.
        destruct (render_cards engine (S idx0) recs) as [rest| |];
          cbn [then_render] in Hrun; try discriminate.
        injection Hrun as <-. exists rest. split; reflexivity.
      - destruct nested_expanders; [|discriminate].
        split; [now right|]. cbn [then_render] in Hrun.
        destruct (render_cards engine (S idx0) recs) as [rest| |];
          cbn [then_render] in Hrun; try discriminate.
        injection Hrun as <-. exists rest. split; reflexivity. }
    destruct Hcard as [Hopen [rest [Hrest ->]]].
    destruct (IH (S idx0) rest (fun r' Hr' => Hall r' (or_intror Hr')) Hrest)
      as [Hlen Hnth].
    split; [cbn [List.length]; now rewrite Hlen|].
    intros i c Hc. destruct i as [|i].
    + cbn [nth_error] in Hc. injection Hc as <-.
      exists r, g. rewrite Nat.add_0_r. cbn.
      repeat split; assumption || reflexivity.
    + cbn [nth_error] in Hc. destruct (Hnth i c Hc) as [r' [g' [Hr' Hrest']]].
      exists r', g'. split; [exact Hr'|].
      replace (idx0 + S i) with (S idx0 + i) by lia. exact Hrest'.
Qed.

(** Every card is shown when no card has to nest an expander. *)
Lemma render_cards_accepted (engine : Engine) (recs : list Recommendation)
  (idx0 : nat) :
  (forall r, In r recs ->
     exists g, rec_gap r = Report g
               /\ (0 <= match_percentage g / 100)%Q
               /\ (match_percentage g / 100 <= 1)%Q
               /\ (missing_skills g = [] \/ nested_expanders = true)) ->
  exists cards, render_cards engine idx0 recs = Shown cards.
Proof.
  revert idx0. induction recs as [|r recs IH]; intros idx0 Hall.
  - exists []. reflexivity.
  - destruct (Hall r (or_introl eq_refl)) as [g [Hg [H0 [H1 Hopen]]]].
    destruct (IH (S idx0) (fun r' Hr' => Hall r' (or_intror Hr')))
      as [rest Hrest].
    cbn [render_cards]. rewrite (render_card_report engine idx0 r g Hg H0 H1).
    destruct (missing_skills g) as [|m ms] eqn:Em.
    + cbn [then_render]. rewrite Hrest. cbn [then_render]. eexists. reflexivity.
    + destruct Hopen as [Hopen|Hopen]; [discriminate|]. rewrite Hopen.
      cbn [then_render]. rewrite Hrest. cbn [then_render].
      eexists. reflexivity.
Qed.

(** The first card with a missing skill stops the run when expanders may
    not be nested. *)
Lemma render_cards_refused (engine : Engine) (recs : list Recommendation)
  (idx0 : nat) :
  nested_expanders = false ->
  (forall r, In r recs ->
     exists g, rec_gap r = Report g
               /\ (0 <= match_percentage g / 100)%Q
               /\ (match_percentage g / 100 <= 1)%Q) ->
  (exists r g, In r recs /\ rec_gap r = Report g /\ missing_skills g <> []) ->
  render_cards engine idx0 recs = StreamlitAPIException.
Proof.
  intros Hn. revert idx0.
  induction recs as [|r recs IH]; intros idx0 Hall [r1 [g1 [Hin [Hg1 Hm1]]]].
  - destruct Hin.
  - destruct (Hall r (or_introl eq_refl)) as [g [Hg [H0 H1]]].
    cbn [render_cards]. rewrite (render_card_report engine idx0 r g Hg H0 H1).
    destruct (missing_skills g) as [|m ms] eqn:Em.
    + cbn [then_render]. rewrite IH; [reflexivity| |].
      * intros r' Hr'. apply Hall. now right.
      * destruct Hin as [<-|Hin].
        -- rewrite Hg in Hg1. injection Hg1 as <-. contradiction.
        -- exists r1, g1. now split.
    + rewrite Hn. reflexivity.
Qed.

(** Rendering the cards of reports never stops on a Python exception. *)
Lemma render_cards_python (engine : Engine) (recs : list Recommendation)
  (idx0 : nat) (x : exn) :
  (forall r, In r recs ->
     exists g, rec_gap r = Report g
               /\ (0 <= match_percentage g / 100)%Q
               /\ (match_percentage g / 100 <= 1)%Q) ->
  render_cards engine idx0 recs <> PythonError x.
Proof.
  revert idx0. induction recs as [|r recs IH]; intros idx0 Hall.
  - discriminate.
  - destruct (Hall r (or_introl eq_refl)) as [g [Hg [H0 H1]]].
    pose proof (IH (S idx0) (fun r' Hr' => Hall r' (or_intror Hr'))) as Hrest.
    cbn [render_cards]. rewrite (render_card_report engine idx0 r g Hg H0 H1).
    destruct (missing_skills g) as [|m ms].
    + cbn [then_render].
      destruct (render_cards engine (S idx0) recs) as [rest|y|];
        cbn [then_render]; congruence.
    + destruct nested_expanders; [|discriminate]. cbn [then_render].
      destruct (render_cards engine (S idx0) recs) as [rest|y|];
        cbn [then_render]; congruence.
Qed.

(** [main] when the button is pressed and a skill was given: the engine
    built from the shipped catalog ranks five careers, and their cards are
    rendered. *)
Lemma main_pressed (e : Engine) (skills_input : string)
  (selected_common : list string) :
  init CAREER_DATABASE = Returns e ->
  collect_user_skills skills_input selected_common <> [] ->
  let us := collect_user_skills skills_input selected_common in
  let sims := similarities_of e us in
  let recs := map (recommendation_at e us sims) (top_indices_of sims 5) in
  recommend_careers e us 5 = Returns recs
  /\ List.length recs = 5
  /\ (forall i r, nth_error recs i = Some r ->
        exists idx info,
          nth_error (top_indices_of sims 5) i = Some idx
          /\ dict_get CAREER_DATABASE (rec_name r) = Some info
          /\ rec_score r = (nth idx sims 0 * 100)%R
          /\ rec_info r = info
          /\ rec_gap r = Report (report_of (set_order (skills info))
                                   (set_order (map normalize_user us))))
  /\ main skills_input selected_common true =
     (cards <~ render_cards e 1 recs ;; Shown (Results cards)).
Proof.
  intros Hinit Hne. cbv zeta.
  set (us := collect_user_skills skills_input selected_common) in *.
  pose proof (recommend_value CAREER_DATABASE e us 5 Hinit) as Hrec.
  set (sims := similarities_of e us) in *.
  set (recs := map (recommendation_at e us sims) (top_indices_of sims 5)) in *.
  destruct (init_inv _ _ Hinit) as [Hdb [Hnames Hl]].
  assert (Hlen : List.length recs = 5).
  { unfold recs. rewrite length_map, top_indices_length_pos by lia.
    unfold sims. rewrite similarities_of_length, Hl. reflexivity. }
  split; [exact Hrec|]. split; [exact Hlen|]. split.
  - intros i r Hr. unfold recs in Hr. rewrite nth_error_map in Hr.
    destruct (nth_error (top_indices_of sims 5) i) as [idx|] eqn:Ei;
      [|discriminate].
    cbn [option_map] in Hr. injection Hr as <-.
    assert (Hidx : idx < List.length CAREER_DATABASE).
    { apply nth_error_In, top_indices_bound in Ei.
      unfold sims in Ei. now rewrite similarities_of_length, Hl in Ei. }
    destruct (recommendation_at_known CAREER_DATABASE e us sims idx Hinit Hidx)
      as [info [Hget [_ Hat]]].
    exists idx, info. rewrite Hat.
    cbn [rec_gap rec_name rec_score rec_info fst snd].
    split; [reflexivity|]. split; [exact Hget|]. repeat split.
  - unfold main. rewrite Hinit. cbn [of_python then_render]. fold us.
    destruct us as [|u us'] eqn:Eu; [contradiction|].
    cbn [andb]. rewrite Hrec. cbn [of_python then_render].
    destruct recs as [|r0 recs'] eqn:Er; [discriminate|]. reflexivity.
Qed.

(** The five recommendations [main] renders are reports whose progress
    value [st.progress] accepts. *)
Lemma main_reports (e : Engine) (skills_input : string)
  (selected_common : list string) :
  init CAREER_DATABASE = Returns e ->
  collect_user_skills skills_input selected_common <> [] ->
  let us := collect_user_skills skills_input selected_common in
  let sims := similarities_of e us in
  forall r, In r (map (recommendation_at e us sims) (top_indices_of sims 5)) ->
    exists g, rec_gap r = Report g
              /\ (0 <= match_percentage g / 100)%Q
              /\ (match_percentage g / 100 <= 1)%Q.
Proof.
  intros Hinit Hne. cbv zeta. intros r Hr.
  destruct (main_pressed e skills_input selected_common Hinit Hne)
    as [_ [_ [Hnth _]]].
  apply In_nth_error in Hr as [i Hi].
  destruct (Hnth i r Hi) as [idx [info [_ [_ [_ [_ Hg]]]]]].
  eexists. split; [exact Hg|].
  destruct (report_of_range (set_order (skills info))
              (set_order (map normalize_user
                            (collect_user_skills skills_input selected_common))))
    as [_ [_ [Hp0 [Hp1 _]]]].
  split; assumption.
Qed.

(** Each of them is a career of the shipped catalog, with the gap report
    of the collected skills against that career. *)
Lemma main_recommendations (e : Engine) (skills_input : string)
  (selected_common : list string) :
  init CAREER_DATABASE = Returns e ->
  collect_user_skills skills_input selected_common <> [] ->
  let us := collect_user_skills skills_input selected_common in
  let sims := similarities_of e us in
  forall r, In r (map (recommendation_at e us sims) (top_indices_of sims 5)) ->
    exists info,
      dict_get CAREER_DATABASE (rec_name r) = Some info
      /\ rec_info r = info
      /\ rec_gap r = Report (report_of (set_order (skills info))
                               (set_order (map normalize_user us))).
Proof.
  intros Hinit Hne. cbv zeta. intros r Hr.
  destruct (main_pressed e skills_input selected_common Hinit Hne)
    as [_ [_ [Hnth _]]].
  apply In_nth_error in Hr as [i Hi].
  destruct (Hnth i r Hi) as [idx [info [_ [Hget [_ [Hinfo Hg]]]]]].
  exists info. split; [exact Hget|]. split; [exact Hinfo | exact Hg].
Qed.

(** The three branches of [main], for the engine of the shipped catalog. *)
Lemma main_branches (e : Engine) (skills_input : string)
  (selected_common : list string) (analyze_button : bool) :
  init CAREER_DATABASE = Returns e ->
  (forall x, main skills_input selected_common analyze_button <> PythonError x)
  /\ (main skills_input selected_common analyze_button = Shown Welcome <->
      analyze_button = false)
  /\ (main skills_input selected_common analyze_button = Shown Warning <->
      analyze_button = true
      /\ parse_skills skills_input = [] /\ selected_common = [])
  /\ (analyze_button = true ->
      parse_skills skills_input <> [] \/ selected_common <> [] ->
      exists recs,
        recommend_careers e
          (collect_user_skills skills_input selected_common) 5 = Returns recs
        /\ List.length recs = 5
        /\ (forall r, In r recs ->
              exists info,
                dict_get CAREER_DATABASE (rec_name r) = Some info
                /\ rec_info r = info
                /\ rec_gap r =
                   Report (report_of (set_order (skills info))
                             (set_order
                                (map normalize_user
                                   (collect_user_skills skills_input
                                      selected_common)))))
        /\ ((nested_expanders = true
             \/ forall r g, In r recs -> rec_gap r = Report g ->
                            missing_skills g = []) ->
            exists cards,
              main skills_input selected_common analyze_button
              = Shown (Results cards)
              /\ List.length cards = 5)
        /\ (nested_expanders = false ->
            (exists r g, In r recs /\ rec_gap r = Report g
                         /\ missing_skills g <> []) ->
            main skills_input selected_common analyze_button
            = StreamlitAPIException)).
Proof.
  intros Hinit.
  assert (Hnil : collect_user_skills skills_input selected_common = [] <->
                 parse_skills skills_input = [] /\ selected_common = []).
  { unfold collect_user_skills. rewrite set_order_nil_iff.
    split; [apply app_eq_nil | intros [-> ->]; reflexivity]. }
  destruct analyze_button.
  - destruct (list_eq_dec string_dec
                (collect_user_skills skills_input selected_common) [])
      as [E|Hne].
    + assert (Hmain : main skills_input selected_common true = Shown Warning).
      { unfold main. rewrite Hinit. cbn [of_python then_render]. rewrite E.
        reflexivity. }
      clear Hinit. destruct (proj1 Hnil E) as [Hp Hs]. rewrite Hmain.
      split; [intros x Hx; discriminate Hx|].
      split; [split; intros H; discriminate H|].
      split; [split; auto|].
      intros _ [H|H]; contradiction.
    + destruct (main_pressed e skills_input selected_common Hinit Hne)
        as [Hrec [Hlen [_ Hmain]]].
      pose proof (main_reports e skills_input selected_common Hinit Hne)
        as Hreports.
      pose proof (main_recommendations e skills_input selected_common Hinit Hne)
        as Hinfo.
      clear Hinit. cbv zeta in Hrec, Hlen, Hmain, Hreports, Hinfo.
      revert Hrec Hlen Hmain Hreports Hinfo.
      generalize (map (recommendation_at e
                         (collect_user_skills skills_input selected_common)
                         (similarities_of e
                            (collect_user_skills skills_input selected_common)))
                      (top_indices_of
                         (similarities_of e
                            (collect_user_skills skills_input selected_common))
                         5)).
      intros recs Hrec Hlen Hmain Hreports Hinfo.
      pose proof (fun x => render_cards_python e recs 1 x Hreports) as Hpy.
      rewrite Hmain. clear Hmain.
      split.
      { intros x Hx.
        destruct (render_cards e 1 recs) as [cards|y|];
          cbn [then_render] in Hx;
          [discriminate Hx | exact (Hpy y eq_refl) | discriminate Hx]. }
      split.
      { split; [|intros H; discriminate H]. intros Hw.
        destruct (render_cards e 1 recs) as [cards|y|];
          cbn [then_render] in Hw; discriminate Hw. }
      split.
      { split.
        - intros Hw.
          destruct (render_cards e 1 recs) as [cards|y|];
            cbn [then_render] in Hw; discriminate Hw.
        - intros [_ Hboth]. exfalso. apply Hne, Hnil. exact Hboth. }
      intros _ _. exists recs.
      split; [exact Hrec|]. split; [exact Hlen|].
      split; [exact Hinfo|].
      split.
      * intros Hopen.
        destruct (render_cards_accepted e recs 1) as [cards Hcards].
        { intros r Hr. destruct (Hreports r Hr) as [g [Hg [H0 H1]]].
          exists g. split; [exact Hg|]. split; [exact H0|]. split; [exact H1|].
          destruct Hopen as [Hopen|Hopen]; [right; exact Hopen | left].
          exact (Hopen r g Hr Hg). }
        exists cards. split.
        -- rewrite Hcards. reflexivity.
        -- destruct (render_cards_shown e recs 1 cards Hreports Hcards)
             as [Hl _]. rewrite Hl. exact Hlen.
      * intros Hn Hsome.
        rewrite (render_cards_refused e recs 1 Hn Hreports Hsome). reflexivity.
  - assert (Hmain : main skills_input selected_common false = Shown Welcome).
    { unfold main. rewrite Hinit. cbn [of_python then_render].
      destruct (collect_user_skills skills_input selected_common); reflexivity. }
    clear Hinit. rewrite Hmain.
    split; [intros x Hx; discriminate Hx|]. split; [split; reflexivity|].
    split; [split; [intros H; discriminate H | intros [H _]; discriminate H]|].
    intros H; discriminate H.
Qed.

(** The cards [main] shows, for the engine of the shipped catalog. *)
Lemma main_cards_for (e : Engine) (skills_input : string)
  (selected_common : list string) (analyze_button : bool) (cards : list Card) :
  init CAREER_DATABASE = Returns e ->
  main skills_input selected_common analyze_button = Shown (Results cards) ->
  List.length cards = 5
  /\ (forall i c, nth_error cards i = Some c ->
        card_rank c = i + 1
        /\ card_expanded c = (i =? 0)
        /\ dict_get CAREER_DATABASE (card_name c) = Some (card_info c)
        /\ (0 <= card_score c)%R
        /\ card_progress c = (card_match c / 100)%Q
        /\ (0 <= card_progress c)%Q /\ (card_progress c <= 1)%Q
        /\ Permutation (card_matched c ++ card_missing c)
             (set_order (skills (card_info c)))
        /\ map skill (card_learning c) = firstn 5 (card_missing c)
        /\ (card_missing c = [] \/ nested_expanders = true))
  /\ (forall i j ci cj,
        i < j -> nth_error cards i = Some ci -> nth_error cards j = Some cj ->
        (card_score cj <= card_score ci)%R).
Proof.
  intros Hinit Hmain.
  destruct (main_branches e skills_input selected_common analyze_button Hinit)
    as [_ [Hwelcome [Hwarning _]]].
  assert (Hne : collect_user_skills skills_input selected_common <> []
                /\ analyze_button = true).
  { destruct analyze_button.
    - split; [|reflexivity]. intros E.
      assert (Hw : main skills_input selected_common true = Shown Warning).
      { apply (proj2 Hwarning). split; [reflexivity|].
        unfold collect_user_skills in E.
        apply (proj1 (set_order_nil_iff _)) in E.
        apply app_eq_nil in E. exact E. }
      rewrite Hw in Hmain. discriminate Hmain.
    - rewrite (proj2 Hwelcome eq_refl) in Hmain. discriminate Hmain. }
  clear Hwelcome Hwarning. destruct Hne as [Hne ->].
  destruct (main_pressed e skills_input selected_common Hinit Hne)
    as [_ [Hlen5 [Hrecs Hmain']]].
  pose proof (main_reports e skills_input selected_common Hinit Hne)
    as Hreports.
  pose proof (similarities_nonneg CAREER_DATABASE e
                (collect_user_skills skills_input selected_common) Hinit)
    as Hpos.
  clear Hinit. cbv zeta in Hlen5, Hrecs, Hmain', Hreports.
  set (us := collect_user_skills skills_input selected_common) in *.
  set (sims := similarities_of e us) in *.
  rewrite Forall_forall in Hpos.
  rewrite Hmain' in Hmain. clear Hmain'.
  destruct (render_cards e 1 (map (recommendation_at e us sims)
                                (top_indices_of sims 5)))
    as [cards'|y|] eqn:Hcards; cbn [then_render] in Hmain;
    [|discriminate Hmain|discriminate Hmain].
  assert (cards' = cards)
    by exact (f_equal (fun v => match v with
                                | Shown (Results l) => l
                                | _ => cards
                                end) Hmain).
  subst cards'. clear Hmain.
  destruct (render_cards_shown e _ 1 cards Hreports Hcards) as [Hlen Hnth].
  assert (Hcard : forall i c, nth_error cards i = Some c ->
            exists idx info,
              nth_error (top_indices_of sims 5) i = Some idx
              /\ dict_get CAREER_DATABASE (card_name c) = Some info
              /\ card_score c = (nth idx sims 0 * 100)%R
              /\ card_info c = info
              /\ card_rank c = 1 + i
              /\ card_expanded c = (1 + i =? 1)
              /\ card_progress c = (card_match c / 100)%Q
              /\ card_match c =
                 match_percentage
                   (report_of (set_order (skills info))
                              (set_order (map normalize_user us)))
              /\ card_matched c =
                 matched_skills
                   (report_of (set_order (skills info))
                              (set_order (map normalize_user us)))
              /\ card_missing c =
                 missing_skills
                   (report_of (set_order (skills info))
                              (set_order (map normalize_user us)))
              /\ card_learning c = firstn 5 (map bundle_of (card_missing c))
              /\ (card_missing c = [] \/ nested_expanders = true)).
  { intros i c Hc.
    destruct (Hnth i c Hc)
      as [r [g [Hr [Hg [Hopen [H1 [H2 [H3 [H4 [H5 [H6 [H7 [H8 [H9 H10]]]]]]]]]]]]]].
    destruct (Hrecs i r Hr) as [idx [info [Hi [Hget [Hs [Hinfo Hg']]]]]].
    rewrite Hg' in Hg.
    assert (Hg2 : report_of (set_order (skills info))
                    (set_order (map normalize_user us)) = g)
      by exact (f_equal (fun v => match v with
                                  | Report x => x
                                  | EmptyDict => g
                                  end) Hg).
    exists idx, info. rewrite Hg2.
    split; [exact Hi|]. split; [rewrite H3; exact Hget|].
    split; [rewrite H4; exact Hs|]. split; [rewrite H5; exact Hinfo|].
    split; [exact H1|]. split; [exact H2|].
    split; [rewrite H7, H6; reflexivity|]. split; [exact H6|].
    split; [exact H8|]. split; [exact H9|].
    split; [rewrite H9; exact H10|]. rewrite H9. exact Hopen. }
  clear Hnth Hrecs Hreports Hcards.
  split; [rewrite Hlen; exact Hlen5|].
  split.
  - intros i c Hc.
    destruct (Hcard i c Hc)
      as [idx [info [Hi [Hget [Hs [Hinfo [H1 [H2 [H3 [H4 [H5 [H6 [H7 H8]]]]]]]]]]]]].
    split; [lia|].
    split; [rewrite H2; destruct i; reflexivity|].
    split; [rewrite Hinfo; exact Hget|].
    split.
    { rewrite Hs. apply nth_error_In, top_indices_bound in Hi.
      pose proof (Hpos _ (nth_In sims 0%R Hi)). lra. }
    split; [exact H3|].
    destruct (report_of_range (set_order (skills info))
                (set_order (map normalize_user us))) as [_ [_ [Hp0 [Hp1 _]]]].
    rewrite H3, H4, H5, H6, Hinfo.
    split; [exact Hp0|]. split; [exact Hp1|].
    split; [apply filter_split_perm|].
    split; [|rewrite <- H6; exact H8].
    rewrite H7, H6, <- firstn_map. rewrite map_skill_bundles. reflexivity.
  - intros i j ci cj Hij Hci Hcj.
    destruct (Hcard i ci Hci) as [idx [_ [Hi [_ [Hsi _]]]]].
    destruct (Hcard j cj Hcj) as [jdx [_ [Hj [_ [Hsj _]]]]].
    rewrite Hsi, Hsj.
    pose proof (StronglySorted_nth_error _ _ i j idx jdx
                  (top_indices_descending sims 5) Hij Hi Hj) as Hord.
    cbv beta in Hord. lra.
Qed.

(** X17. [main] never stops on an exception of the Python code. It shows the
    welcome screen exactly when the button is not pressed and the warning
    exactly when the button is pressed and no skill was typed or selected.
    Otherwise the engine of the shipped catalog recommends five careers,
    each with the gap report of the collected skills; the five cards are
    shown when Streamlit lets expanders nest or no recommended career has
    a missing skill, and the run stops on [StreamlitAPIException] when
    Streamlit refuses nested expanders and some recommended career has a
    missing skill. *)
Theorem main_view (skills_input : string) (selected_common : list string)
  (analyze_button : bool) :
  (forall x, main skills_input selected_common analyze_button <> PythonError x)
  /\ (main skills_input selected_common analyze_button = Shown Welcome <->
      analyze_button = false)
  /\ (main skills_input selected_common analyze_button = Shown Warning <->
      analyze_button = true
      /\ parse_skills skills_input = [] /\ selected_common = [])
  /\ (analyze_button = true ->
      parse_skills skills_input <> [] \/ selected_common <> [] ->
      exists engine recs,
        init CAREER_DATABASE = Returns engine
        /\ recommend_careers engine
             (collect_user_skills skills_input selected_common) 5
           = Returns recs
        /\ List.length recs = 5
        /\ (forall r, In r recs ->
              exists info,
                dict_get CAREER_DATABASE (rec_name r) = Some info
                /\ rec_info r = info
                /\ rec_gap r =
                   Report (report_of (set_order (skills info))
                             (set_order
                                (map normalize_user
                                   (collect_user_skills skills_input
                                      selected_common)))))
        /\ ((nested_expanders = true
             \/ forall r g, In r recs -> rec_gap r = Report g ->
                            missing_skills g = []) ->
            exists cards,
              main skills_input selected_common analyze_button
              = Shown (Results cards)
              /\ List.length cards = 5)
        /\ (nested_expanders = false ->
            (exists r g, In r recs /\ rec_gap r = Report g
                         /\ missing_skills g <> []) ->
            main skills_input selected_common analyze_button
            = StreamlitAPIException)).
Proof.
  destruct (main_branches _ skills_input selected_common analyze_button
              init_shipped) as [Hpy [Hwelcome [Hwarning Hresults]]].
  split; [exact Hpy|]. split; [exact Hwelcome|]. split; [exact Hwarning|].
  intros Hb Hs. destruct (Hresults Hb Hs) as [recs Hrecs].
  exists (engine_for CAREER_DATABASE), recs.
  split; [exact init_shipped | exact Hrecs].
Qed.

(** X18. When [main] shows result cards there are five of them, numbered
    from 1, only the first expanded, with scores that are not negative and
    do not increase down the page. Each card names a career of the shipped
    catalog with that career's info; its progress value is the match
    percentage over 100 and lies between 0 and 1; its matched and missing
    skills together are the career's required skills; it shows the learning
    items of its first five missing skills, in order; and it has a missing
    skill only if Streamlit lets expanders nest. *)
Theorem main_cards (skills_input : string) (selected_common : list string)
  (analyze_button : bool) (cards : list Card) :
  main skills_input selected_common analyze_button = Shown (Results cards) ->
  List.length cards = 5
  /\ (forall i c, nth_error cards i = Some c ->
        card_rank c = i + 1
        /\ card_expanded c = (i =? 0)
        /\ dict_get CAREER_DATABASE (card_name c) = Some (card_info c)
        /\ (0 <= card_score c)%R
        /\ card_progress c = (card_match c / 100)%Q
        /\ (0 <= card_progress c)%Q /\ (card_progress c <= 1)%Q
        /\ Permutation (card_matched c ++ card_missing c)
             (set_order (skills (card_info c)))
        /\ map skill (card_learning c) = firstn 5 (card_missing c)
        /\ (card_missing c = [] \/ nested_expanders = true))
  /\ (forall i j ci cj,
        i < j -> nth_error cards i = Some ci -> nth_error cards j = Some cj ->
        (card_score cj <= card_score ci)%R).
Proof.
  intros Hmain.
  exact (main_cards_for _ skills_input selected_common analyze_button cards
           init_shipped Hmain).
Qed.

End MainProperties.

(** ** The further properties on concrete inputs *)

Example init_empty_catalog : init [] = Raises ValueError.
Proof. reflexivity. Qed.

Example init_tokenless_catalog :
  init [("Statistician", mk_info ["R"; "C"])] = Raises ValueError.
Proof. reflexivity. Qed.

Lemma parsed_skills_clean_witness :
  clean_skill "SQL" /\ blank "SQL" = false
  /\ str_bool (normalize_user "SQL") = true.
Proof.
  apply (parsed_skills_clean "Python , SQL" "SQL"). simpl. auto.
Defined.

Lemma parse_skills_round_trip_witness :
  parse_skills (String.concat ", " ["Python"; "Machine Learning"])
  = ["Python"; "Machine Learning"].
Proof.
  apply parse_skills_round_trip.
  repeat constructor.
Defined.

Lemma parse_skills_separators_witness :
  parse_skills (String.concat (String comma EmptyString) [" Python "; " "; "SQL"])
  = map PyStr.strip
      (filter (fun p => str_bool (PyStr.strip p)) [" Python "; " "; "SQL"])
  /\ parse_skills (String.concat (String newline EmptyString)
                     [" Python "; " "; "SQL"])
     = map PyStr.strip
         (filter (fun p => str_bool (PyStr.strip p)) [" Python "; " "; "SQL"]).
Proof.
  apply parse_skills_separators. repeat constructor.
Defined.

Lemma gap_percentage_range_witness :
  exists g,
    analyze_skill_gap (rt := declared_order_runtime) (engine_for small_catalog)
      ["sql"] "Analyst" = Returns (Report g)
    /\ (0 <= match_percentage g)%Q /\ (match_percentage g <= 100)%Q
    /\ (0 <= match_percentage g / 100)%Q /\ (match_percentage g / 100 <= 1)%Q
    /\ total_matched g <= total_required g.
Proof.
  apply (@gap_percentage_range declared_order_runtime). reflexivity.
Defined.

Lemma gap_no_user_skills_witness :
  exists g,
    analyze_skill_gap (rt := declared_order_runtime) (engine_for small_catalog)
      [] "Analyst" = Returns (Report g)
    /\ matched_skills g = []
    /\ missing_skills g = ["Python"; "SQL"]
    /\ (match_percentage g == 0)%Q
    /\ total_matched g = 0.
Proof.
  exact (@gap_no_user_skills declared_order_runtime declared_order_runtime_ok
           (engine_for small_catalog) "Analyst" (mk_info ["Python"; "SQL"])
           eq_refl).
Defined.

Lemma gap_all_skills_listed_witness :
  exists g,
    analyze_skill_gap (rt := declared_order_runtime) (engine_for small_catalog)
      [" sql"; "Docker"; "PYTHON "] "Analyst" = Returns (Report g)
    /\ missing_skills g = []
    /\ matched_skills g = ["Python"; "SQL"]
    /\ total_matched g = total_required g
    /\ (["Python"; "SQL"] <> [] -> (match_percentage g == 100)%Q).
Proof.
  refine (@gap_all_skills_listed declared_order_runtime declared_order_runtime_ok
            (engine_for small_catalog) [" sql"; "Docker"; "PYTHON "] "Analyst"
            (mk_info ["Python"; "SQL"]) eq_refl _).
  intros r [<-|[<-|[]]].
  - exists "PYTHON ". split; [simpl; auto | reflexivity].
  - exists " sql". split; [simpl; auto | reflexivity].
Defined.

Lemma gap_case_insensitive_witness :
  analyze_skill_gap (rt := declared_order_runtime) (engine_for small_catalog)
    ["PYTHON "; "sql"] "Analyst"
  = analyze_skill_gap (rt := declared_order_runtime) (engine_for small_catalog)
      ["python"; " SQL"; "Python"] "Analyst".
Proof.
  apply (@gap_case_insensitive declared_order_runtime declared_order_runtime_ok).
  intros v. simpl. tauto.
Defined.

Lemma learning_path_of_gap_witness :
  exists g plan,
    analyze_skill_gap (rt := declared_order_runtime) (engine_for small_catalog)
      ["Python"] "Analyst" = Returns (Report g)
    /\ get_learning_path (engine_for small_catalog) (missing_skills g) "Analyst"
       = Returns plan
    /\ map skill (skills_to_learn plan) = missing_skills g
    /\ List.length (skills_to_learn plan) = total_required g - total_matched g
    /\ estimated_time plan
       = (PyStr.str_of_nat (2 * (total_required g - total_matched g)) ++ "-"
          ++ PyStr.str_of_nat (3 * (total_required g - total_matched g))
          ++ " months")%string.
Proof.
  apply (@learning_path_of_gap declared_order_runtime). reflexivity.
Defined.

Lemma learning_item_complete_witness :
  In (skill (default_item "NLP")) ["SQL"; "NLP"]
  /\ List.length (resources (default_item "NLP")) = 3
  /\ str_bool (level (default_item "NLP")) = true
  /\ str_bool (time (default_item "NLP")) = true.
Proof.
  apply (learning_item_complete (unfitted small_catalog) ["SQL"; "NLP"] "Analyst"
           {| career := "Analyst";
              skills_to_learn := [bundle_of "SQL"; default_item "NLP"];
              estimated_time := "4-6 months" |}).
  - reflexivity.
  - simpl. auto.
Defined.

(** The one recommendation of [single_catalog] for its own two skills. *)
Lemma recommend_single :
  recommend_careers (rt := declared_order_runtime) (engine_for single_catalog)
    ["Python"; "SQL"] 5
  = Returns [recommendation_at (rt := declared_order_runtime)
               (engine_for single_catalog) ["Python"; "SQL"] [1%R] 0].
Proof.
  rewrite (@recommend_value declared_order_runtime declared_order_runtime_ok
             single_catalog _ _ _ init_single).
  rewrite similarity_python_sql. reflexivity.
Qed.

Lemma recommendation_consistent_witness :
  exists g,
    rec_gap (recommendation_at (rt := declared_order_runtime)
               (engine_for single_catalog) ["Python"; "SQL"] [1%R] 0) = Report g
    /\ analyze_skill_gap (rt := declared_order_runtime)
         (engine_for single_catalog) ["Python"; "SQL"]
         (rec_name (recommendation_at (rt := declared_order_runtime)
                      (engine_for single_catalog) ["Python"; "SQL"] [1%R] 0))
       = Returns (Report g)
    /\ dict_get single_catalog
         (rec_name (recommendation_at (rt := declared_order_runtime)
                      (engine_for single_catalog) ["Python"; "SQL"] [1%R] 0))
       = Some (rec_info (recommendation_at (rt := declared_order_runtime)
                           (engine_for single_catalog) ["Python"; "SQL"] [1%R] 0))
    /\ In (rec_name (recommendation_at (rt := declared_order_runtime)
                       (engine_for single_catalog) ["Python"; "SQL"] [1%R] 0))
          (dict_keys single_catalog).
Proof.
  apply (@recommendation_consistent declared_order_runtime
           declared_order_runtime_ok single_catalog (engine_for single_catalog)
           ["Python"; "SQL"] 5%Z _ _ init_single recommend_single).
  left. reflexivity.
Defined.

Lemma recommendations_distinct_witness :
  exists recs,
    recommend_careers (rt := declared_order_runtime) (engine_for small_catalog)
      ["Python"] 5 = Returns recs
    /\ List.length recs = 2
    /\ NoDup (map rec_name recs).
Proof.
  pose proof (@recommend_value declared_order_runtime declared_order_runtime_ok
                small_catalog (engine_for small_catalog) ["Python"] 5%Z
                init_small) as Hrec.
  eexists. split; [exact Hrec|]. split.
  - rewrite length_map, (@top_indices_length_pos declared_order_runtime
                           declared_order_runtime_ok) by lia.
    rewrite similarities_of_length.
    destruct (init_inv _ _ init_small) as [_ [_ Hl]]. rewrite Hl. reflexivity.
  - refine (@recommendations_distinct declared_order_runtime
              declared_order_runtime_ok small_catalog (engine_for small_catalog)
              ["Python"] 5%Z _ init_small _ Hrec).
    repeat constructor.
    + intros [H|[]]. discriminate H.
    + intros [].
Defined.

Lemma recommendations_prefix_witness :
  exists recs',
    recommend_careers (rt := declared_order_runtime)
      (engine_for CAREER_DATABASE) ["Python"; "SQL"] 5 = Returns recs'
    /\ List.length recs' = 5
    /\ recommend_careers (rt := declared_order_runtime)
         (engine_for CAREER_DATABASE) ["Python"; "SQL"] 3
       = Returns (firstn (Z.to_nat 3) recs').
Proof.
  pose proof (@recommend_value declared_order_runtime declared_order_runtime_ok
                CAREER_DATABASE (engine_for CAREER_DATABASE) ["Python"; "SQL"]
                5%Z init_shipped) as Hrec.
  eexists. split; [exact Hrec|]. split.
  - rewrite length_map, (@top_indices_length_pos declared_order_runtime
                           declared_order_runtime_ok) by lia.
    rewrite similarities_of_length.
    destruct (init_inv _ _ init_shipped) as [_ [_ Hl]]. rewrite Hl.
    reflexivity.
  - exact (@recommendations_prefix declared_order_runtime
             declared_order_runtime_ok CAREER_DATABASE
             (engine_for CAREER_DATABASE) ["Python"; "SQL"] 3%Z 5%Z _
             init_shipped ltac:(lia) Hrec).
Defined.

Lemma recommend_score_nonneg_witness :
  exists recs,
    recommend_careers (rt := declared_order_runtime) (engine_for small_catalog)
      ["Python"] 5 = Returns recs
    /\ List.length recs = 2
    /\ forall r, In r recs -> (0 <= rec_score r)%R.
Proof.
  pose proof (@recommend_value declared_order_runtime declared_order_runtime_ok
                small_catalog (engine_for small_catalog) ["Python"] 5%Z
                init_small) as Hrec.
  eexists. split; [exact Hrec|]. split.
  - rewrite length_map, (@top_indices_length_pos declared_order_runtime
                           declared_order_runtime_ok) by lia.
    rewrite similarities_of_length.
    destruct (init_inv _ _ init_small) as [_ [_ Hl]]. rewrite Hl. reflexivity.
  - intros r Hr.
    exact (@recommend_score_nonneg declared_order_runtime
             declared_order_runtime_ok small_catalog (engine_for small_catalog)
             ["Python"] 5%Z _ r init_small Hrec Hr).
Defined.

Lemma unknown_skills_score_zero_witness :
  exists recs r,
    recommend_careers (rt := declared_order_runtime) (engine_for small_catalog)
      ["Cooking"] 1 = Returns recs
    /\ In r recs /\ rec_score r = 0%R.
Proof.
  pose proof (@recommend_value declared_order_runtime declared_order_runtime_ok
                small_catalog (engine_for small_catalog) ["Cooking"] 1%Z
                init_small) as Hrec.
  set (recs := map _ _) in Hrec.
  assert (Hlen : List.length recs = 1).
  { unfold recs.
    rewrite length_map, (@top_indices_length_pos declared_order_runtime
                           declared_order_runtime_ok) by lia.
    rewrite similarities_of_length.
    destruct (init_inv _ _ init_small) as [_ [_ Hl]]. rewrite Hl. reflexivity. }
  destruct recs as [|r recs'] eqn:E; [discriminate|].
  exists (r :: recs'), r. split; [exact Hrec|]. split; [now left|].
  apply (@unknown_skills_score_zero declared_order_runtime
           declared_order_runtime_ok small_catalog (engine_for small_catalog)
           ["Cooking"] 1%Z (r :: recs') init_small).
  - intros t entry [<-|[]] [<-|[<-|[]]]; vm_compute; intuition discriminate.
  - exact Hrec.
  - now left.
Defined.

Lemma collected_skills_witness :
  NoDup (collect_user_skills (rt := declared_order_runtime) "Python, sql" ["Python"])
  /\ (forall x,
        In x (collect_user_skills (rt := declared_order_runtime)
                "Python, sql" ["Python"]) <->
        In x (parse_skills "Python, sql") \/ In x ["Python"])
  /\ (incl ["Python"] common_skills ->
      forall x,
        In x (collect_user_skills (rt := declared_order_runtime)
                "Python, sql" ["Python"]) ->
        blank x = false /\ str_bool (normalize_user x) = true).
Proof.
  exact (@collected_skills declared_order_runtime declared_order_runtime_ok
           "Python, sql" ["Python"]).
Defined.

Lemma main_view_witness :
  main (rt := declared_order_runtime) (st := strict_streamlit)
    "Python, SQL" [] true = StreamlitAPIException
  /\ exists cards,
       main (rt := declared_order_runtime) (st := nesting_streamlit)
         "Python, SQL" [] true = Shown (Results cards)
       /\ List.length cards = 5.
Proof.
  assert (Hparse : parse_skills "Python, SQL" <> [])
    by (vm_compute; discriminate).
  assert (Hall :
            Forall (fun entry =>
                      missing_skills
                        (report_of
                           (set_order (PyRuntime := declared_order_runtime)
                              (skills (snd entry)))
                           (set_order (PyRuntime := declared_order_runtime)
                              (map normalize_user
                                 (collect_user_skills
                                    (rt := declared_order_runtime)
                                    "Python, SQL" []))))
                      <> [])
                   CAREER_DATABASE).
  { repeat (apply Forall_cons; [vm_compute; discriminate|]). apply Forall_nil. }
  split.
  - destruct (@main_view declared_order_runtime declared_order_runtime_ok
                strict_streamlit "Python, SQL" [] true) as [_ [_ [_ H]]].
    destruct (H eq_refl (or_introl Hparse))
      as [e [recs [_ [_ [Hlen [Hinfo [_ Hrefused]]]]]]].
    refine (Hrefused eq_refl _).
    destruct recs as [|r recs]; [discriminate Hlen|].
    destruct (Hinfo r (or_introl eq_refl)) as [info [Hget [_ Hg]]].
    exists r. eexists. split; [left; reflexivity|]. split; [exact Hg|].
    apply dict_get_In in Hget.
    exact (proj1 (Forall_forall _ _) Hall _ Hget).
  - destruct (@main_view declared_order_runtime declared_order_runtime_ok
                nesting_streamlit "Python, SQL" [] true) as [_ [_ [_ H]]].
    destruct (H eq_refl (or_introl Hparse))
      as [e [recs [_ [_ [_ [_ [Haccepted _]]]]]]].
    exact (Haccepted (or_introl eq_refl)).
Defined.

Lemma main_cards_witness :
  (exists cards,
     main (rt := declared_order_runtime) (st := strict_streamlit)
       every_catalog_skill [] true = Shown (Results cards)
     /\ List.length cards = 5
     /\ forall i c, nth_error cards i = Some c ->
          card_rank c = i + 1
          /\ dict_get CAREER_DATABASE (card_name c) = Some (card_info c)
          /\ card_missing c = []
          /\ Permutation (card_matched c)
               (set_order (PyRuntime := declared_order_runtime)
                  (skills (card_info c))))
  /\ (exists cards,
        main (rt := declared_order_runtime) (st := nesting_streamlit)
          "Python, SQL" [] true = Shown (Results cards)
        /\ List.length cards = 5
        /\ forall i j ci cj,
             i < j -> nth_error cards i = Some ci ->
             nth_error cards j = Some cj ->
             (card_score cj <= card_score ci)%R).
Proof.
  split.
  - assert (Hparse : parse_skills every_catalog_skill <> [])
      by (vm_compute; discriminate).
    assert (Hall :
              Forall (fun entry =>
                        missing_skills
                          (report_of
                             (set_order (PyRuntime := declared_order_runtime)
                                (skills (snd entry)))
                             (set_order (PyRuntime := declared_order_runtime)
                                (map normalize_user
                                   (collect_user_skills
                                      (rt := declared_order_runtime)
                                      every_catalog_skill []))))
                        = [])
                     CAREER_DATABASE).
    { repeat (apply Forall_cons; [vm_compute; reflexivity|]). apply Forall_nil. }
    destruct (@main_branches declared_order_runtime declared_order_runtime_ok
                strict_streamlit _ every_catalog_skill [] true init_shipped)
      as [_ [_ [_ H]]].
    destruct (H eq_refl (or_introl Hparse))
      as [recs [_ [_ [Hinfo [Haccepted _]]]]].
    destruct Haccepted as [cards [Hmain _]].
    { right. intros r g Hr Hg.
      destruct (Hinfo r Hr) as [info [Hget [_ Hg']]].
      rewrite Hg' in Hg. apply dict_get_In in Hget.
      pose proof (proj1 (Forall_forall _ _) Hall _ Hget) as Hnone.
      cbv beta in Hnone. cbn [snd] in Hnone.
      rewrite <- (f_equal (fun v => match v with
                                    | Report x => x
                                    | EmptyDict => g
                                    end) Hg).
      exact Hnone. }
    exists cards. split; [exact Hmain|].
    destruct (@main_cards declared_order_runtime declared_order_runtime_ok
                strict_streamlit every_catalog_skill [] true cards Hmain)
      as [Hlen [Hcards _]].
    split; [exact Hlen|].
    intros i c Hc.
    destruct (Hcards i c Hc)
      as [H1 [_ [H3 [_ [_ [_ [_ [H8 [_ H10]]]]]]]]].
    assert (Hm : card_missing c = [])
      by (destruct H10 as [H10|H10]; [exact H10 | discriminate H10]).
    split; [exact H1|]. split; [exact H3|]. split; [exact Hm|].
    rewrite Hm, app_nil_r in H8. exact H8.
  - assert (Hparse : parse_skills "Python, SQL" <> [])
      by (vm_compute; discriminate).
    destruct (@main_branches declared_order_runtime declared_order_runtime_ok
                nesting_streamlit _ "Python, SQL" [] true init_shipped)
      as [_ [_ [_ H]]].
    destruct (H eq_refl (or_introl Hparse))
      as [recs [_ [_ [_ [Haccepted _]]]]].
    destruct (Haccepted (or_introl eq_refl)) as [cards [Hmain _]].
    exists cards. split; [exact Hmain|].
    destruct (@main_cards declared_order_runtime declared_order_runtime_ok
                nesting_streamlit "Python, SQL" [] true cards Hmain)
      as [Hlen [_ Hsorted]].
    split; [exact Hlen | exact Hsorted].
Defined.
